(** * getStocksData: signal engine (fn_2.py) and backtest ledger (testback.py)

    A shallow embedding of
      - [SingleStockMomentumVolBreakoutStrategy] (src/fn_2.py): the indicator
        pipeline, the risk columns and the per-day decision rules;
      - [BacktestEngine] (src/testback.py): the cash/lot ledger driven by the
        signal list and the performance summary.

    Numbers.  Python floats and pandas float64 cells are idealised as exact
    rationals ([Q]): rounding, overflow and signed zeros are outside that
    model.  What float arithmetic does that exact arithmetic does not do by
    itself is written out: a pandas cell may be [NaN] or an infinity (type
    [fval]), a comparison with [NaN] is false, pandas division by zero gives
    an infinity or [NaN], Python division by zero raises (the ledger returns
    [None]), and [int()] truncates toward zero.  Where a statement depends
    on rounding, the source lines are evaluated in IEEE 754 binary64 itself
    (module [Binary64], on the primitive floats of the library). *)

From Stdlib Require Import Floats.
From Stdlib Require Import QArith Qabs Qminmax Qround ZArith List Bool Lia Lqa Sorted.
Import ListNotations.

Local Open Scope Q_scope.

(* ================================================================== *)
(** ** Python and pandas numerics *)
(* ================================================================== *)

Module Py.

(** [a < b] on floats that are both finite. *)
Definition Qltb (a b : Q) : bool := negb (Qle_bool b a).

(** Python's [int(x)] on a float: truncation toward zero. *)
Definition py_int (x : Q) : Z := Z.quot (Qnum x) (Zpos (Qden x)).

(** Python's builtin [min(a, b)]: [b] when [b < a], otherwise [a]. *)
Definition py_min (a b : Q) : Q := if Qltb b a then b else a.

(** A pandas float64 cell. *)
Inductive fval : Type :=
| Fin (q : Q)
| PInf
| NInf
| NaN.

Definition is_zero (q : Q) : bool := Qeq_bool q 0.
Definition is_pos (q : Q) : bool := Qltb 0 q.

Definition fneg (x : fval) : fval :=
  match x with
  | Fin q => Fin (- q)
  | PInf => NInf
  | NInf => PInf
  | NaN => NaN
  end.

Definition fadd (x y : fval) : fval :=
  match x, y with
  | NaN, _ | _, NaN => NaN
  | Fin a, Fin b => Fin (a + b)
  | PInf, NInf | NInf, PInf => NaN
  | PInf, _ | _, PInf => PInf
  | NInf, _ | _, NInf => NInf
  end.

Definition fsub (x y : fval) : fval := fadd x (fneg y).

(** An infinity times a finite factor: the sign of the factor decides, and a
    zero factor gives [NaN]. *)
Definition inf_times (positive : bool) (q : Q) : fval :=
  if is_zero q then NaN
  else if Bool.eqb positive (is_pos q) then PInf else NInf.

Definition fmul (x y : fval) : fval :=
  match x, y with
  | NaN, _ | _, NaN => NaN
  | Fin a, Fin b => Fin (a * b)
  | PInf, Fin b => inf_times true b
  | NInf, Fin b => inf_times false b
  | Fin a, PInf => inf_times true a
  | Fin a, NInf => inf_times false a
  | PInf, PInf | NInf, NInf => PInf
  | PInf, NInf | NInf, PInf => NInf
  end.

(** Division of float64 columns: no exception; [x/0] is an infinity with the
    sign of [x], and [0/0] is [NaN]. *)
Definition fdiv (x y : fval) : fval :=
  match x, y with
  | NaN, _ | _, NaN => NaN
  | Fin a, Fin b =>
      if is_zero b then
        if is_zero a then NaN else if is_pos a then PInf else NInf
      else Fin (a / b)
  | Fin _, (PInf | NInf) => Fin 0
  | PInf, Fin b => if is_zero b || is_pos b then PInf else NInf
  | NInf, Fin b => if is_zero b || is_pos b then NInf else PInf
  | (PInf | NInf), (PInf | NInf) => NaN
  end.

Definition fabs (x : fval) : fval :=
  match x with
  | Fin q => Fin (Qabs q)
  | PInf | NInf => PInf
  | NaN => NaN
  end.

(** Comparisons: anything compared with [NaN] is false. *)
Definition flt (x y : fval) : bool :=
  match x, y with
  | NaN, _ | _, NaN => false
  | Fin a, Fin b => Qltb a b
  | NInf, (Fin _ | PInf) => true
  | Fin _, PInf => true
  | _, _ => false
  end.

Definition fle (x y : fval) : bool :=
  match x, y with
  | NaN, _ | _, NaN => false
  | Fin a, Fin b => Qle_bool a b
  | NInf, _ => true
  | _, PInf => true
  | _, _ => false
  end.

Definition fgt (x y : fval) : bool := flt y x.
Definition fge (x y : fval) : bool := fle y x.

(** Python's builtin [min]/[max] on two floats: the second argument is taken
    only when the comparison with the first succeeds. *)
Definition fmin (a b : fval) : fval := if flt b a then b else a.
Definition fmax (a b : fval) : fval := if fgt b a then b else a.

(** *** Series operations *)

(** [Series.shift(1)]: the first row has no predecessor. *)
Definition shift1 (xs : list Q) : list (option Q) :=
  firstn (length xs) (None :: map Some xs).

(** [Series.ewm(span=window, adjust=False).mean()] on a series without
    missing values: [y0 = x0], [y_t = (1 - alpha) y_(t-1) + alpha x_t] with
    [alpha = 2 / (span + 1)].  pandas raises [ValueError] for a span below
    1: these are the values for a span of at least 1, and a configuration
    with an ATR window of 0 produces no frame at all. *)
Definition ewm_alpha (span : nat) : Q := 2 / (inject_Z (Z.of_nat span) + 1).

Fixpoint ewm_from (alpha prev : Q) (xs : list Q) : list Q :=
  match xs with
  | [] => []
  | x :: rest =>
      let y := (1 - alpha) * prev + alpha * x in
      y :: ewm_from alpha y rest
  end.

Definition ewm_mean (span : nat) (xs : list Q) : list Q :=
  match xs with
  | [] => []
  | x :: rest => x :: ewm_from (ewm_alpha span) x rest
  end.

(** The finite values of a window, or [None] when some cell is missing.
    pandas turns infinities into [NaN] before a rolling aggregation, so any
    non-finite cell makes the window invalid. *)
Fixpoint finite_window (l : list fval) : option (list Q) :=
  match l with
  | [] => Some []
  | Fin q :: rest =>
      match finite_window rest with
      | Some qs => Some (q :: qs)
      | None => None
      end
  | _ :: _ => None
  end.

(** One cell of [Series.rolling(w).agg()]; [hist] holds the rows seen so far,
    the current row first.  [min_periods] defaults to the window length: the
    cell is [NaN] until [w] rows are available and whenever the window holds
    a missing value. *)
Definition rolling_cell (w : nat) (agg : list Q -> fval) (hist : list fval) : fval :=
  if (w =? 0)%nat || (length hist <? w)%nat then NaN
  else match finite_window (rev (firstn w hist)) with
       | Some qs => agg qs
       | None => NaN
       end.

Fixpoint rolling_from (w : nat) (agg : list Q -> fval)
         (hist xs : list fval) : list fval :=
  match xs with
  | [] => []
  | x :: rest =>
      rolling_cell w agg (x :: hist) :: rolling_from w agg (x :: hist) rest
  end.

Definition rolling (w : nat) (agg : list Q -> fval) (xs : list fval) : list fval :=
  rolling_from w agg [] xs.

Definition Qsum (qs : list Q) : Q := fold_left Qplus qs 0.

Definition agg_mean (qs : list Q) : fval :=
  Fin (Qsum qs / inject_Z (Z.of_nat (length qs))).

Definition agg_max (qs : list Q) : fval :=
  match qs with
  | [] => NaN
  | q :: rest => Fin (fold_left Qmax rest q)
  end.

Definition agg_min (qs : list Q) : fval :=
  match qs with
  | [] => NaN
  | q :: rest => Fin (fold_left Qmin rest q)
  end.

Fixpoint insert_sorted (x : Q) (l : list Q) : list Q :=
  match l with
  | [] => [x]
  | y :: rest => if Qle_bool x y then x :: l else y :: insert_sorted x rest
  end.

Definition sort_asc (l : list Q) : list Q := fold_right insert_sorted [] l.

(** Median of a window: the middle value, or the mean of the two middle
    values of an even window. *)
Definition agg_median (qs : list Q) : fval :=
  let s := sort_asc qs in
  let n := length s in
  match n with
  | O => NaN
  | _ =>
      if Nat.odd n then Fin (nth (n / 2) s 0)
      else Fin ((nth (n / 2 - 1) s 0 + nth (n / 2) s 0) / 2)
  end.

End Py.

(* ================================================================== *)
(** ** fn_2.py: SingleStockMomentumVolBreakoutStrategy *)
(* ================================================================== *)

Module Fn2.
Import Py.

(** One row of the input frame; [date] is the index (a day number). *)
Record Bar : Type := mkBar {
  date : Z;
  open : Q;
  high : Q;
  low : Q;
  close : Q;
  volume : Q
}.

(** The constructor parameters of the strategy. *)
Record Config : Type := mkConfig {
  risk_fraction_per_trade : Q;
  fee_rate : Q;
  slippage_bps : Q;
  fast_ma_window : nat;
  slow_ma_window : nat;
  entry_breakout_window : nat;
  atr_window : nat;
  atr_multiple_stop : Q;
  vol_min_pct : Q;
  vol_max_pct : Q;
  vol_lookback_for_filter : nat;
  enable_pyramiding : bool;
  max_pyramid_layers : nat;
  pyramid_add_step_pct : Q;
  vol_expand_multiple_for_add : Q;
  exit_break_window : nat;
  min_hold_days : nat;
  cooldown_days_after_exit : nat
}.

(** The defaults of [__init__]. *)
Definition default_config : Config := {|
  risk_fraction_per_trade := 1 # 100;
  fee_rate := 3 # 10000;
  slippage_bps := 2;
  fast_ma_window := 20;
  slow_ma_window := 60;
  entry_breakout_window := 10;
  atr_window := 14;
  atr_multiple_stop := 3;
  vol_min_pct := 7 # 10;
  vol_max_pct := 2;
  vol_lookback_for_filter := 60;
  enable_pyramiding := true;
  max_pyramid_layers := 3;
  pyramid_add_step_pct := 2;
  vol_expand_multiple_for_add := 11 # 10;
  exit_break_window := 10;
  min_hold_days := 5;
  cooldown_days_after_exit := 5
|}.

(** Attributes that [__init__] sets to fixed values. *)
Definition take_profit_multiple : Q := 2.
Definition max_position_risk : Q := 5 # 100.
Definition trend_strength_threshold : Q := 2 # 100.

Inductive VolRegime : Type := vol_normal | vol_low | vol_high.

Inductive TrendState : Type :=
| neutral | strong_uptrend | strong_downtrend | weak_uptrend | weak_downtrend.

(** Element-wise combination of two columns. *)
Definition zip_with {A B C : Type} (f : A -> B -> C)
           (xs : list A) (ys : list B) : list C :=
  map (fun p => f (fst p) (snd p)) (combine xs ys).

Definition fin_col (xs : list Q) : list fval := map Fin xs.

(** True range of one row: the row-wise maximum of [high - low],
    [|high - prev_close|] and [|low - prev_close|]; [max(axis=1)] skips the
    two entries that are missing on the first row. *)
Definition true_range (b : Bar) (prev_close : option Q) : Q :=
  let tr1 := high b - low b in
  match prev_close with
  | None => tr1
  | Some c => Qmax tr1 (Qmax (Qabs (high b - c)) (Qabs (low b - c)))
  end.

Definition _compute_atr (df : list Bar) (window : nat) : list Q :=
  let prev_close := shift1 (map close df) in
  let tr := zip_with true_range df prev_close in
  ewm_mean window tr.

Record VolumeCols : Type := mkVolumeCols {
  atr : list Q;
  atr_pct : list fval;
  atr_pct_median : list fval;
  atr_filter_ratio : list fval;
  volatility_regime : list VolRegime
}.

(** ['normal'], overwritten by ['low'], then by ['high']. *)
Definition regime_of (cfg : Config) (ratio : fval) : VolRegime :=
  let r := vol_normal in
  let r := if flt ratio (Fin (vol_min_pct cfg)) then vol_low else r in
  let r := if fgt ratio (Fin (vol_max_pct cfg)) then vol_high else r in
  r.

Definition calculate_volume_indicators (cfg : Config) (df : list Bar) : VolumeCols :=
  let atr := _compute_atr df (atr_window cfg) in
  let atr_pct := zip_with fdiv (fin_col atr) (fin_col (map close df)) in
  let atr_pct_median := rolling (vol_lookback_for_filter cfg) agg_median atr_pct in
  let atr_filter_ratio := zip_with fdiv atr_pct atr_pct_median in
  {| atr := atr;
     atr_pct := atr_pct;
     atr_pct_median := atr_pct_median;
     atr_filter_ratio := atr_filter_ratio;
     volatility_regime := map (regime_of cfg) atr_filter_ratio |}.

Record TechCols : Type := mkTechCols {
  fast_ma : list fval;
  slow_ma : list fval;
  donchian_high : list fval;
  donchian_low : list fval;
  price_vs_fast_ma : list fval;
  price_vs_slow_ma : list fval
}.

(** [(a - b) / b], column-wise. *)
Definition rel_diff (a b : fval) : fval := fdiv (fsub a b) b.

Definition calculate_technical_indicators (cfg : Config) (df : list Bar) : TechCols :=
  let closes := fin_col (map close df) in
  let fast_ma := rolling (fast_ma_window cfg) agg_mean closes in
  let slow_ma := rolling (slow_ma_window cfg) agg_mean closes in
  {| fast_ma := fast_ma;
     slow_ma := slow_ma;
     donchian_high := rolling (entry_breakout_window cfg) agg_max (fin_col (map high df));
     donchian_low := rolling (exit_break_window cfg) agg_min (fin_col (map low df));
     price_vs_fast_ma := zip_with rel_diff closes fast_ma;
     price_vs_slow_ma := zip_with rel_diff closes slow_ma |}.

Record MomentumCols : Type := mkMomentumCols {
  trend_strength : list fval;
  trend_strength_pct : list fval;
  trend_state : list TrendState;
  breakout_strength : list fval
}.

(** The four [df.loc[...] = ...] assignments, in source order. *)
Definition trend_state_of (ts : fval) : TrendState :=
  let th := Fin trend_strength_threshold in
  let s := neutral in
  let s := if fgt ts th then strong_uptrend else s in
  let s := if flt ts (fneg th) then strong_downtrend else s in
  let s := if fge ts (Fin 0) && fle ts th then weak_uptrend else s in
  let s := if flt ts (Fin 0) && fge ts (fneg th) then weak_downtrend else s in
  s.

Definition calculate_momentum_indicators (df : list Bar) (tech : TechCols) : MomentumCols :=
  let trend_strength := zip_with rel_diff (fast_ma tech) (slow_ma tech) in
  {| trend_strength := trend_strength;
     trend_strength_pct := map (fun x => fmul x (Fin 100)) trend_strength;
     trend_state := map trend_state_of trend_strength;
     breakout_strength :=
       zip_with rel_diff (fin_col (map close df)) (donchian_high tech) |}.

Record RiskCols : Type := mkRiskCols {
  dynamic_stop_loss : list Q;
  take_profit_price : list Q;
  risk_reward_ratio : list fval;
  price_vs_stop_distance : list fval
}.

Definition calculate_risk_indicators (cfg : Config) (df : list Bar) (vol : VolumeCols) : RiskCols :=
  let closes := map close df in
  let dynamic_stop_loss :=
    zip_with (fun c a => c - atr_multiple_stop cfg * a) closes (atr vol) in
  let take_profit_price :=
    zip_with (fun c a => c + take_profit_multiple * atr_multiple_stop cfg * a)
             closes (atr vol) in
  {| dynamic_stop_loss := dynamic_stop_loss;
     take_profit_price := take_profit_price;
     risk_reward_ratio :=
       zip_with fdiv
         (fin_col (zip_with Qminus take_profit_price closes))
         (fin_col (zip_with Qminus closes dynamic_stop_loss));
     price_vs_stop_distance :=
       zip_with fdiv
         (fin_col (zip_with Qminus closes dynamic_stop_loss))
         (fin_col closes) |}.

(** The frame after the four indicator passes of [generate_signals]. *)
Record Frame : Type := mkFrame {
  df_bars : list Bar;
  df_vol : VolumeCols;
  df_tech : TechCols;
  df_mom : MomentumCols;
  df_risk : RiskCols
}.

Definition indicators (cfg : Config) (df : list Bar) : Frame :=
  let vol := calculate_volume_indicators cfg df in
  let tech := calculate_technical_indicators cfg df in
  let mom := calculate_momentum_indicators df tech in
  let risk := calculate_risk_indicators cfg df vol in
  {| df_bars := df; df_vol := vol; df_tech := tech; df_mom := mom; df_risk := risk |}.

(** One row of the frame, as [df.iloc[i]] reads it. *)
Record Row : Type := mkRow {
  r_close : Q;
  r_atr : Q;
  r_atr_pct : fval;
  r_atr_pct_median : fval;
  r_atr_filter_ratio : fval;
  r_volatility_regime : VolRegime;
  r_fast_ma : fval;
  r_slow_ma : fval;
  r_donchian_high : fval;
  r_donchian_low : fval;
  r_price_vs_fast_ma : fval;
  r_price_vs_slow_ma : fval;
  r_trend_strength : fval;
  r_trend_strength_pct : fval;
  r_trend_state : TrendState;
  r_breakout_strength : fval;
  r_dynamic_stop_loss : Q;
  r_take_profit_price : Q;
  r_risk_reward_ratio : fval;
  r_price_vs_stop_distance : fval
}.

Definition iloc (fr : Frame) (i : nat) : Row := {|
  r_close := nth i (map close (df_bars fr)) 0;
  r_atr := nth i (atr (df_vol fr)) 0;
  r_atr_pct := nth i (atr_pct (df_vol fr)) NaN;
  r_atr_pct_median := nth i (atr_pct_median (df_vol fr)) NaN;
  r_atr_filter_ratio := nth i (atr_filter_ratio (df_vol fr)) NaN;
  r_volatility_regime := nth i (volatility_regime (df_vol fr)) vol_normal;
  r_fast_ma := nth i (fast_ma (df_tech fr)) NaN;
  r_slow_ma := nth i (slow_ma (df_tech fr)) NaN;
  r_donchian_high := nth i (donchian_high (df_tech fr)) NaN;
  r_donchian_low := nth i (donchian_low (df_tech fr)) NaN;
  r_price_vs_fast_ma := nth i (price_vs_fast_ma (df_tech fr)) NaN;
  r_price_vs_slow_ma := nth i (price_vs_slow_ma (df_tech fr)) NaN;
  r_trend_strength := nth i (trend_strength (df_mom fr)) NaN;
  r_trend_strength_pct := nth i (trend_strength_pct (df_mom fr)) NaN;
  r_trend_state := nth i (trend_state (df_mom fr)) neutral;
  r_breakout_strength := nth i (breakout_strength (df_mom fr)) NaN;
  r_dynamic_stop_loss := nth i (dynamic_stop_loss (df_risk fr)) 0;
  r_take_profit_price := nth i (take_profit_price (df_risk fr)) 0;
  r_risk_reward_ratio := nth i (risk_reward_ratio (df_risk fr)) NaN;
  r_price_vs_stop_distance := nth i (price_vs_stop_distance (df_risk fr)) NaN
|}.

(** *** Signals *)

Inductive Action : Type := BUY | SELL | ADD | HOLD.

(** The [signal_reason] strings:
    - [reason_none]            the empty string of a HOLD row;
    - [reason_buy]             trend start + above fast MA + volatility filter + good risk/reward;
    - [reason_stop_loss]       dynamic stop-loss touched;
    - [reason_break_low]       support (Donchian low) broken;
    - [reason_take_profit]     take-profit target reached;
    - [reason_trend_reversal]  trend reversal;
    - [reason_add]             trend strengthening + volatility expansion. *)
Inductive Reason : Type :=
| reason_none | reason_buy | reason_stop_loss | reason_break_low
| reason_take_profit | reason_trend_reversal | reason_add.

Inductive RiskLevel : Type := LOW | MEDIUM | HIGH.

(** The signal columns of one row. *)
Record SignalRecord : Type := mkSignalRecord {
  signal : Action;
  signal_reason : Reason;
  signal_strength : fval;
  risk_level : RiskLevel;
  position_size : fval;
  stop_loss : Q;
  take_profit : Q
}.

(** The initial values of the signal columns. *)
Definition hold_record : SignalRecord := {|
  signal := HOLD;
  signal_reason := reason_none;
  signal_strength := Fin 0;
  risk_level := LOW;
  position_size := Fin 0;
  stop_loss := 0;
  take_profit := 0
|}.

Definition _calculate_position_size (cfg : Config) (row : Row) : fval :=
  let base_size := Fin (risk_fraction_per_trade cfg) in
  let trend_adjustment :=
    fmin (Fin (3 # 2)) (fmax (Fin (1 # 2)) (fmul (fabs (r_trend_strength row)) (Fin 10))) in
  let vol_adjustment :=
    match r_volatility_regime row with
    | vol_low => Fin (8 # 10)
    | vol_high => Fin (12 # 10)
    | vol_normal => Fin 1
    end in
  let rr_adjustment :=
    fmin (Fin (3 # 2)) (fmax (Fin (1 # 2)) (fdiv (r_risk_reward_ratio row) (Fin 2))) in
  let final_size := fmul (fmul (fmul base_size trend_adjustment) vol_adjustment) rr_adjustment in
  fmin final_size (Fin max_position_risk).

Definition _assess_risk_level (row : Row) : RiskLevel :=
  let s1 :=
    match r_volatility_regime row with
    | vol_high => 2 | vol_low => 0 | vol_normal => 1
    end%nat in
  let s2 :=
    if flt (r_trend_strength row) (Fin (1 # 100)) then 2%nat
    else if fgt (r_trend_strength row) (Fin (5 # 100)) then 0%nat else 1%nat in
  let s3 :=
    if flt (r_price_vs_stop_distance row) (Fin (5 # 100)) then 2%nat
    else if fgt (r_price_vs_stop_distance row) (Fin (15 # 100)) then 0%nat else 1%nat in
  let risk_score := (s1 + s2 + s3)%nat in
  if (risk_score <=? 2)%nat then LOW
  else if (risk_score <=? 4)%nat then MEDIUM
  else HIGH.

(** The buy checks. *)
Definition ma_condition (row : Row) : bool := fgt (r_fast_ma row) (r_slow_ma row).
Definition trend_condition (row : Row) : bool := fgt (Fin (r_close row)) (r_fast_ma row).
Definition vol_condition (cfg : Config) (row : Row) : bool :=
  fle (Fin (vol_min_pct cfg)) (r_atr_filter_ratio row)
  && fle (r_atr_filter_ratio row) (Fin (vol_max_pct cfg)).
Definition risk_reward_ok (row : Row) : bool :=
  fgt (r_risk_reward_ratio row) (Fin (15 # 10)).

(** The sell checks. *)
Definition below_stop (row : Row) : bool := Qltb (r_close row) (r_dynamic_stop_loss row).
Definition break_low (row : Row) : bool := flt (Fin (r_close row)) (r_donchian_low row).
Definition above_take_profit (row : Row) : bool :=
  Qltb (r_take_profit_price row) (r_close row).
Definition trend_reversal (row : Row) : bool :=
  flt (r_trend_strength row) (Fin (- trend_strength_threshold)).

Definition buy_condition (cfg : Config) (row : Row) : bool :=
  ma_condition row && trend_condition row && vol_condition cfg row && risk_reward_ok row.

Definition sell_condition (row : Row) : bool :=
  below_stop row || break_low row || above_take_profit row || trend_reversal row.

Definition add_condition (cfg : Config) (row : Row) : bool :=
  fgt (r_trend_strength row) (Fin (trend_strength_threshold * (15 # 10)))
  && fgt (r_atr_filter_ratio row) (Fin (vol_expand_multiple_for_add cfg)).

Definition sell_reason (row : Row) : Reason :=
  if below_stop row then reason_stop_loss
  else if break_low row then reason_break_low
  else if above_take_profit row then reason_take_profit
  else reason_trend_reversal.

(** The body of the loop of [generate_signals] for a row past the lookback:
    the [if]/[elif] chain. *)
Definition decide (cfg : Config) (row : Row) : SignalRecord :=
  if buy_condition cfg row then
    {| signal := BUY;
       signal_reason := reason_buy;
       signal_strength := fmin (Fin 1) (fmul (r_trend_strength row) (Fin 10));
       risk_level := _assess_risk_level row;
       position_size := _calculate_position_size cfg row;
       stop_loss := r_dynamic_stop_loss row;
       take_profit := r_take_profit_price row |}
  else if sell_condition row then
    {| signal := SELL;
       signal_reason := sell_reason row;
       signal_strength := Fin 1;
       risk_level := LOW;
       position_size := Fin 0;
       stop_loss := 0;
       take_profit := 0 |}
  else if add_condition cfg row then
    {| signal := ADD;
       signal_reason := reason_add;
       signal_strength := Fin (8 # 10);
       risk_level := LOW;
       position_size := fmul (_calculate_position_size cfg row) (Fin (1 # 2));
       stop_loss := 0;
       take_profit := 0 |}
  else hold_record.

Definition min_lookback (cfg : Config) : nat :=
  Nat.max (slow_ma_window cfg) (vol_lookback_for_filter cfg).

(** The signal columns of row [i]. *)
Definition signal_at (cfg : Config) (fr : Frame) (i : nat) : SignalRecord :=
  if (i <? min_lookback cfg)%nat then hold_record
  else decide cfg (iloc fr i).

(** [generate_signals]: the signal columns, one record per row of [df]. *)
Definition generate_signals (cfg : Config) (df : list Bar) : list SignalRecord :=
  let fr := indicators cfg df in
  map (signal_at cfg fr) (seq 0 (length df)).

End Fn2.

(* ================================================================== *)
(** ** testback.py: BacktestEngine *)
(* ================================================================== *)

Module Testback.
Import Py.
Import Fn2.

(** One entry of the [signals] list built from the signal frame. *)
Record Signal : Type := mkSignal {
  sg_date : Z;
  sg_action : Action;
  sg_price : Q;
  sg_reason : Reason;
  sg_strength : Q
}.

(** An open lot, the value stored in [self.positions] under its date. *)
Record Position : Type := mkPosition {
  pos_shares : Z;
  pos_price : Q;
  pos_date : Z
}.

(** An entry of [self.trades]; only SELL entries carry ['profit']. *)
Record Trade : Type := mkTrade {
  t_date : Z;
  t_action : Action;
  t_price : Q;
  t_shares : Z;
  t_profit : option Q;
  t_reason : Reason;
  t_cash_after : Q
}.

(** An entry of [self.portfolio_value]. *)
Record Snapshot : Type := mkSnapshot {
  pv_date : Z;
  pv_value : Q;
  pv_cash : Q;
  pv_positions : nat
}.

(** The mutable attributes of the engine.  [positions] is a dict keyed by
    date: an association list in insertion order with unique keys. *)
Record Engine : Type := mkEngine {
  initial_cash : Q;
  cash : Q;
  positions : list (Z * Position);
  trades : list Trade;
  portfolio_value : list Snapshot
}.

(** [d[k] = v]: overwrite in place when the key exists, append otherwise. *)
Fixpoint dict_set (k : Z) (v : Position) (d : list (Z * Position)) : list (Z * Position) :=
  match d with
  | [] => [(k, v)]
  | (k', v') :: rest =>
      if (k' =? k)%Z then (k, v) :: rest else (k', v') :: dict_set k v rest
  end.

(** [del d[k]]. *)
Definition dict_del (k : Z) (d : list (Z * Position)) : list (Z * Position) :=
  filter (fun kv => negb (fst kv =? k)%Z) d.

(** Rows of the signal frame that are not HOLD, each with strength 1.0. *)
Definition signal_of_row (b : Bar) (r : SignalRecord) : list Signal :=
  match signal r with
  | HOLD => []
  | a => [ {| sg_date := date b; sg_action := a; sg_price := close b;
              sg_reason := signal_reason r; sg_strength := 1 |} ]
  end.

Definition signals_of_frame (df : list Bar) (recs : list SignalRecord) : list Signal :=
  flat_map (fun p => signal_of_row (fst p) (snd p)) (combine df recs).

Definition is_buy (a : Action) : bool := match a with BUY => true | _ => false end.
Definition is_sell (a : Action) : bool := match a with SELL => true | _ => false end.

(** The BUY branch once [shares] is known. *)
Definition open_lot (e : Engine) (s : Signal) (shares : Z) : Engine :=
  let cash' := cash e - inject_Z shares * sg_price s in
  {| initial_cash := initial_cash e;
     cash := cash';
     positions :=
       dict_set (sg_date s)
                {| pos_shares := shares; pos_price := sg_price s; pos_date := sg_date s |}
                (positions e);
     trades :=
       trades e ++ [ {| t_date := sg_date s; t_action := BUY; t_price := sg_price s;
                        t_shares := shares; t_profit := None;
                        t_reason := sg_reason s; t_cash_after := cash' |} ];
     portfolio_value := portfolio_value e |}.

(** One iteration of the SELL loop over [list(self.positions.items())]. *)
Definition close_lot (s : Signal) (e : Engine) (item : Z * Position) : Engine :=
  let '(pd, position) := item in
  if (pd <=? sg_date s)%Z then
    let profit := (sg_price s - pos_price position) * inject_Z (pos_shares position) in
    let cash' := cash e + inject_Z (pos_shares position) * sg_price s in
    {| initial_cash := initial_cash e;
       cash := cash';
       positions := dict_del pd (positions e);
       trades :=
         trades e ++ [ {| t_date := sg_date s; t_action := SELL; t_price := sg_price s;
                          t_shares := pos_shares position; t_profit := Some profit;
                          t_reason := sg_reason s; t_cash_after := cash' |} ];
       portfolio_value := portfolio_value e |}
  else e.

Definition close_lots (e : Engine) (s : Signal) : Engine :=
  fold_left (close_lot s) (positions e) e.

(** The local variables [position_size] and [shares] of the BUY branch. *)
Definition buy_position_size (e : Engine) (s : Signal) : Q :=
  py_min (cash e * (1 # 10) * sg_strength s) (cash e).

Definition buy_shares (e : Engine) (s : Signal) : Z :=
  py_int (buy_position_size e s / sg_price s).

(** The trade part of one loop iteration: the [if]/[elif].  [None] is the
    exception raised by the division when the price is zero. *)
Definition execute (e : Engine) (s : Signal) : option Engine :=
  if is_buy (sg_action s) && Qltb 0 (cash e) then
    if is_zero (sg_price s) then None
    else
      let shares := buy_shares e s in
      if (shares >? 0)%Z then Some (open_lot e s shares) else Some e
  else if is_sell (sg_action s) && negb (match positions e with [] => true | _ => false end) then
    Some (close_lots e s)
  else Some e.

(** [current_value]: cash plus the lots dated up to the signal day, at the
    signal price. *)
Definition current_value (e : Engine) (s : Signal) : Q :=
  fold_left
    (fun acc item =>
       if (fst item <=? sg_date s)%Z
       then acc + inject_Z (pos_shares (snd item)) * sg_price s
       else acc)
    (positions e) (cash e).

Definition record_snapshot (e : Engine) (s : Signal) : Engine :=
  {| initial_cash := initial_cash e;
     cash := cash e;
     positions := positions e;
     trades := trades e;
     portfolio_value :=
       portfolio_value e ++
       [ {| pv_date := sg_date s; pv_value := current_value e s;
            pv_cash := cash e; pv_positions := length (positions e) |} ] |}.

(** One iteration of [for signal in signals]. *)
Definition step (e : Engine) (s : Signal) : option Engine :=
  match execute e s with
  | Some e' => Some (record_snapshot e' s)
  | None => None
  end.

Fixpoint run_signals (e : Engine) (signals : list Signal) : option Engine :=
  match signals with
  | [] => Some e
  | s :: rest =>
      match step e s with
      | Some e' => run_signals e' rest
      | None => None
      end
  end.

(** The state reset at the start of [backtest_strategy]. *)
Definition reset (initial : Q) : Engine :=
  {| initial_cash := initial; cash := initial;
     positions := []; trades := []; portfolio_value := [] |}.

(** The simulation loop of [backtest_strategy] on a given signal list. *)
Definition backtest_signals (initial : Q) (signals : list Signal) : option Engine :=
  run_signals (reset initial) signals.

(** [backtest_strategy] with the fn2 strategy, up to the final state. *)
Definition backtest_strategy (cfg : Config) (initial : Q) (df : list Bar) : option Engine :=
  backtest_signals initial (signals_of_frame df (generate_signals cfg df)).

(** *** calculate_performance *)

(** The entries of the result dict.  [annual_return] is a real power: its
    value is whatever Python's [**] returns (the parameter [float_pow] of
    [calculate_performance] below).  [sharpe_ratio] (a standard deviation
    and a square root, computed by numpy without raising) is not
    represented; the divisions of its [returns] list are, since they can
    raise. *)
Record Performance : Type := mkPerformance {
  total_return : Q;
  annual_return : Q;
  max_drawdown : Q;
  win_rate : Q;
  total_trades : nat;
  buy_trades : nat;
  sell_trades : nat;
  final_value : Q;
  initial_value : Q
}.

Inductive PerfResult : Type :=
| perf_empty                      (* the empty dict: no snapshot was recorded *)
| perf_error                      (* an exception was raised *)
| perf_report (p : Performance).

(** Python float division. *)
Definition py_div (a b : Q) : option Q :=
  if is_zero b then None else Some (a / b).

(** One iteration of the drawdown loop on [(peak, max_drawdown)]. *)
Definition drawdown_step (acc : option (Q * Q)) (pv : Snapshot) : option (Q * Q) :=
  match acc with
  | None => None
  | Some (peak, mdd) =>
      let peak := if Qltb peak (pv_value pv) then pv_value pv else peak in
      match py_div (peak - pv_value pv) peak with
      | None => None
      | Some d =>
          let drawdown := d * 100 in
          Some (peak, if Qltb mdd drawdown then drawdown else mdd)
      end
  end.

(** The list [returns] of the Sharpe computation. *)
Fixpoint snapshot_returns (prev : Q) (rest : list Snapshot) : option (list Q) :=
  match rest with
  | [] => Some []
  | pv :: rest' =>
      match py_div (pv_value pv - prev) prev, snapshot_returns (pv_value pv) rest' with
      | Some r, Some rs => Some (r :: rs)
      | _, _ => None
      end
  end.

Definition profit_or_zero (t : Trade) : Q :=
  match t_profit t with Some p => p | None => 0 end.

Definition buy_list (ts : list Trade) : list Trade :=
  filter (fun t => is_buy (t_action t)) ts.
Definition sell_list (ts : list Trade) : list Trade :=
  filter (fun t => is_sell (t_action t)) ts.
Definition profitable_list (ts : list Trade) : list Trade :=
  filter (fun t => Qltb 0 (profit_or_zero t)) (sell_list ts).

Definition win_rate_of (ts : list Trade) : Q :=
  match sell_list ts with
  | [] => 0
  | _ :: _ =>
      inject_Z (Z.of_nat (length (profitable_list ts)))
      / inject_Z (Z.of_nat (length (sell_list ts))) * 100
  end.

Section Report.

(** Python's [x ** y] on two floats.  It is not a rational function of its
    arguments, and it raises ([OverflowError]) when the result is out of
    range: the report takes it as a parameter, [None] standing for a raised
    exception. *)
Variable float_pow : Q -> Q -> option Q.

(** [annual_return_pct]: zero for a single snapshot or a span of no days,
    otherwise [((final / initial) ** (365 / days) - 1) * 100], where [days]
    is [(end_date - start_date).days], the difference of the day numbers of
    the last and the first snapshot. *)
Definition annual_return_pct (initial final : Q) (snapshots : list Snapshot) : option Q :=
  match snapshots with
  | first :: _ :: _ =>
      let days := (pv_date (last snapshots first) - pv_date first)%Z in
      if (0 <? days)%Z then
        match float_pow (final / initial) (365 / inject_Z days) with
        | Some x => Some ((x - 1) * 100)
        | None => None
        end
      else Some 0
  | _ => Some 0
  end.

Definition calculate_performance (e : Engine) : PerfResult :=
  match portfolio_value e with
  | [] => perf_empty
  | first :: others =>
      let initial := initial_cash e in
      let final := pv_value (last (portfolio_value e) first) in
      match py_div (final - initial) initial with
      | None => perf_error
      | Some tr =>
          match annual_return_pct initial final (portfolio_value e) with
          | None => perf_error
          | Some ar =>
              match fold_left drawdown_step (portfolio_value e) (Some (initial, 0)) with
              | None => perf_error
              | Some (_, mdd) =>
                  match snapshot_returns (pv_value first) others with
                  | None => perf_error
                  | Some _ =>
                      perf_report
                        {| total_return := tr * 100;
                           annual_return := ar;
                           max_drawdown := mdd;
                           win_rate := win_rate_of (trades e);
                           total_trades := length (trades e);
                           buy_trades := length (buy_list (trades e));
                           sell_trades := length (sell_list (trades e));
                           final_value := final;
                           initial_value := initial |}
                  end
              end
          end
      end
  end.

End Report.

End Testback.

(* ================================================================== *)
(** ** Source lines in binary64 *)
(* ================================================================== *)

(** The lines of [calculate_risk_indicators] and the risk/reward check of
    [generate_signals] (fn_2.py) on one row, in the arithmetic the code
    runs in: IEEE 754 binary64 with round-to-nearest-even, where a division
    by zero gives an infinity or [nan] and a comparison with [nan] is
    false. *)
Module Binary64.
Local Open Scope float_scope.

Definition take_profit_multiple : float := 2.

Definition dynamic_stop_loss (atr_multiple_stop close atr : float) : float :=
  close - atr_multiple_stop * atr.

Definition take_profit_price (atr_multiple_stop close atr : float) : float :=
  close + take_profit_multiple * atr_multiple_stop * atr.

Definition risk_reward_ratio (atr_multiple_stop close atr : float) : float :=
  (take_profit_price atr_multiple_stop close atr - close)
  / (close - dynamic_stop_loss atr_multiple_stop close atr).

Definition risk_reward_ok (ratio : float) : bool := 1.5 <? ratio.

(** testback.py in the same arithmetic: the local variables
    [position_size] and [shares] of the BUY branch, [total_return] of
    [calculate_performance] and [total_return_pct] of [plot_combined].
    [0.1] is the float nearest to one tenth. *)
Definition one_tenth : float := 0x1.999999999999ap-4.

Definition py_min (a b : float) : float := if b <? a then b else a.

(** Python's [int(x)] on a float: truncation toward zero; [None] for an
    infinity ([OverflowError]) and for [nan] ([ValueError]). *)
Definition py_int (x : float) : option Z :=
  match Prim2SF x with
  | S754_zero _ => Some 0%Z
  | S754_finite sx mx ex =>
      let magnitude :=
        match ex with
        | Zneg k => Z.shiftr (Zpos mx) (Zpos k)
        | _ => Z.shiftl (Zpos mx) ex
        end in
      Some (if sx then (- magnitude)%Z else magnitude)
  | _ => None
  end.

Definition buy_position_size (cash strength : float) : float :=
  py_min (cash * one_tenth * strength) cash.

(** [None] is a raised exception: [ZeroDivisionError] at a zero price, and
    what [int()] raises. *)
Definition buy_shares (cash strength price : float) : option Z :=
  if price =? 0 then None
  else py_int (buy_position_size cash strength / price).

Definition total_return (initial_value final_value : float) : float :=
  (final_value - initial_value) / initial_value * 100.

Definition total_return_pct (initial final_value : float) : float :=
  (final_value / initial - 1) * 100.

(** The rational number a finite float stands for. *)
Definition exact_value (x : float) : option Q :=
  match Prim2SF x with
  | S754_zero _ => Some 0%Q
  | S754_finite sx mx ex =>
      let magnitude := (inject_Z (Zpos mx) * Qpower 2 ex)%Q in
      Some (if sx then (- magnitude)%Q else magnitude)
  | _ => None
  end.

(** A float, in the library's specification format, that is a zero of
    either sign or [nan]. *)
Definition zero_or_nan (x : spec_float) : bool :=
  match x with
  | S754_zero _ | S754_nan => true
  | _ => false
  end.

End Binary64.

(* ================================================================== *)
(** ** Vocabulary of the statements *)
(* ================================================================== *)

Module Spec.
Import Py Fn2 Testback.

(** Every open lot holds a positive number of shares. *)
Definition lots_pos (d : list (Z * Position)) : Prop :=
  Forall (fun kv => (0 < pos_shares (snd kv))%Z) d.

(** Every open lot is dated no later than [d]. *)
Definition lots_upto (d : Z) (l : list (Z * Position)) : Prop :=
  Forall (fun kv => (fst kv <= d)%Z) l.

(** Mark-to-market of all open lots at [price]. *)
Definition open_lots_value (d : list (Z * Position)) (price : Q) : Q :=
  fold_right (fun kv acc => inject_Z (pos_shares (snd kv)) * price + acc) 0 d.

(** Signal dates in non-decreasing order. *)
Definition in_date_order (signals : list Signal) : Prop :=
  Sorted Z.le (map sg_date signals).

(** The ledger treated signal [s] in state [e] as a purchase: a lot and a
    trade were added and cash went down by [shares * price]. *)
Definition executed_as_buy (e : Engine) (s : Signal) (e' : Engine) : Prop :=
  cash e' == cash e - inject_Z (buy_shares e s) * sg_price s
  /\ length (positions e') = S (length (positions e))
  /\ length (trades e') = S (length (trades e)).

(** A snapshot was appended by the step from [e] to [e']. *)
Definition snapshot_recorded (e e' : Engine) : Prop :=
  length (portfolio_value e') = S (length (portfolio_value e)).

(** A trade was executed by the step from [e] to [e']. *)
Definition trade_executed (e e' : Engine) : Prop :=
  (length (trades e) < length (trades e'))%nat.

Definition is_hold (a : Action) : bool := match a with HOLD => true | _ => false end.

(** The dates of the rows whose signal is not HOLD, in frame order. *)
Definition non_hold_dates (df : list Bar) (recs : list SignalRecord) : list Z :=
  map (fun p => date (fst p))
      (filter (fun p => negb (is_hold (signal (snd p)))) (combine df recs)).

(** Counts over the trade log. *)
Definition count_sells (ts : list Trade) : nat :=
  length (filter (fun t => is_sell (t_action t)) ts).
Definition count_winning_sells (ts : list Trade) : nat :=
  length (filter (fun t => is_sell (t_action t) && Qltb 0 (profit_or_zero t)) ts).

Definition Qnat (n : nat) : Q := inject_Z (Z.of_nat n).

End Spec.

(* ================================================================== *)
(** ** Sample inputs *)
(* ================================================================== *)

Module Examples.
Import Py Fn2 Testback.

(** The default parameters with short windows, so that a frame of a few
    rows gets past the lookback. *)
Definition sample_config : Config := {|
  risk_fraction_per_trade := 1 # 100;
  fee_rate := 3 # 10000;
  slippage_bps := 2;
  fast_ma_window := 2;
  slow_ma_window := 3;
  entry_breakout_window := 2;
  atr_window := 2;
  atr_multiple_stop := 3;
  vol_min_pct := 7 # 10;
  vol_max_pct := 2;
  vol_lookback_for_filter := 3;
  enable_pyramiding := true;
  max_pyramid_layers := 3;
  pyramid_add_step_pct := 2;
  vol_expand_multiple_for_add := 11 # 10;
  exit_break_window := 2;
  min_hold_days := 5;
  cooldown_days_after_exit := 5
|}.

Definition bar (d : Z) (o h l c : Q) : Bar := mkBar d o h l c 1000.

(** Three flat days, a three-day rally, a pull-back and a drop; with
    [sample_config] the signals are HOLD, HOLD, HOLD, BUY, BUY, BUY, ADD,
    SELL. *)
Definition sample_bars : list Bar :=
  [ bar 1 10 11 9 10;
    bar 2 10 11 9 10;
    bar 3 10 11 9 10;
    bar 4 10 12 10 12;
    bar 5 12 13 11 13;
    bar 6 13 16 13 16;
    bar 7 16 16 12 14;
    bar 8 14 14 8 8 ].

(** A hand-written signal list: buy, an ADD day, then sell at a profit. *)
Definition sample_signals : list Signal :=
  [ mkSignal 1 BUY 10 reason_buy 1;
    mkSignal 2 ADD 12 reason_add 1;
    mkSignal 3 SELL 15 reason_take_profit 1 ].

Definition sample_final : Engine :=
  match backtest_signals 1000 sample_signals with
  | Some e => e
  | None => reset 1000
  end.

(** The snapshot of the ADD day, taken while the lot of day 1 is open. *)
Definition sample_snapshot : Snapshot :=
  nth 1 (portfolio_value sample_final) (mkSnapshot 0 0 0 0).

End Examples.

(* ================================================================== *)
(** ** The numbers shown by the charts and the statistics printout *)
(* ================================================================== *)

Module Charts.
Import Py Fn2 Testback.

(** [plot_combined] (testback.py): the capital the equity curve is
    relative to.  A zero [initial_cash] is falsy and falls back to the first
    snapshot value. *)
Definition chart_initial (e : Engine) : Q :=
  if is_zero (initial_cash e) then
    match portfolio_value e with
    | pv :: _ => pv_value pv
    | [] => 1
    end
  else initial_cash e.

Inductive ChartResult : Type :=
| chart_none                     (* "No portfolio data to plot" *)
| chart_error                    (* the division of [returns_pct] raised *)
| chart_data (initial final total_return_pct : Q) (returns_pct : list Q).

(** The numbers computed by [plot_combined]: the summary line (initial and
    final capital, total return in percent) and the equity curve
    [returns_pct].  The drawing itself is not represented. *)
Definition plot_combined (e : Engine) : ChartResult :=
  match portfolio_value e with
  | [] => chart_none
  | _ :: _ =>
      let values := map pv_value (portfolio_value e) in
      let initial := chart_initial e in
      let final_value := last values initial in
      let total_return_pct :=
        if is_zero initial then 0 else (final_value / initial - 1) * 100 in
      if is_zero initial then chart_error
      else chart_data initial final_value total_return_pct
                      (map (fun v => (v / initial - 1) * 100) values)
  end.

Definition action_eqb (a b : Action) : bool :=
  match a, b with
  | BUY, BUY | SELL, SELL | ADD, ADD | HOLD, HOLD => true
  | _, _ => false
  end.

Definition risk_eqb (a b : RiskLevel) : bool :=
  match a, b with
  | LOW, LOW | MEDIUM, MEDIUM | HIGH, HIGH => true
  | _, _ => false
  end.

(** [len(signals_df[signals_df['signal'] == a])] (visualize_trading.py). *)
Definition count_signal (a : Action) (signals_df : list SignalRecord) : nat :=
  length (filter (fun r => action_eqb (signal r) a) signals_df).

(** [len(signals_df[signals_df['risk_level'] == l])]. *)
Definition count_risk (l : RiskLevel) (signals_df : list SignalRecord) : nat :=
  length (filter (fun r => risk_eqb (risk_level r) l) signals_df).

(** [total_signals] of the statistics table. *)
Definition total_signals (signals_df : list SignalRecord) : nat :=
  (count_signal BUY signals_df + count_signal SELL signals_df
   + count_signal ADD signals_df)%nat.

End Charts.

(* ================================================================== *)
(** ** Vocabulary of the further statements *)
(* ================================================================== *)

Module Book.
Import Py Fn2 Testback.

(** Lookup in the [positions] dict. *)
Fixpoint dict_get (k : Z) (d : list (Z * Position)) : option Position :=
  match d with
  | [] => None
  | (k', v) :: rest => if (k' =? k)%Z then Some v else dict_get k rest
  end.

Definition has_key (k : Z) (d : list (Z * Position)) : Prop :=
  In k (map fst d).

(** The shares held in the open lots. *)
Definition shares_held (d : list (Z * Position)) : Z :=
  fold_right (fun kv acc => (pos_shares (snd kv) + acc)%Z) 0%Z d.

(** The shares of the logged trades. *)
Definition shares_of (ts : list Trade) : Z :=
  fold_right (fun t acc => (t_shares t + acc)%Z) 0%Z ts.

(** Shares bought so far, less the shares sold and the shares still held. *)
Definition share_balance (e : Engine) : Z :=
  (shares_of (buy_list (trades e)) - shares_of (sell_list (trades e))
   - shares_held (positions e))%Z.

(** The SELL trade that closing lot [kv] at the price of [s] logs, up to
    its [cash_after]. *)
Definition closing_profit (s : Signal) (kv : Z * Position) : Q :=
  (sg_price s - pos_price (snd kv)) * inject_Z (pos_shares (snd kv)).

(** Lot [kv] is dated up to the day of [s]: the SELL loop closes it. *)
Definition due (s : Signal) (kv : Z * Position) : bool :=
  (fst kv <=? sg_date s)%Z.

(** Some lot of [l] that the SELL loop closes has the key of [kv]. *)
Definition closed_by (s : Signal) (l : list (Z * Position)) (kv : Z * Position) : bool :=
  existsb (fun kv' => due s kv' && (fst kv =? fst kv')%Z) l.



(** The [w] values of a column that end at row [i], oldest first. *)
Definition trailing {A : Type} (w i : nat) (xs : list A) : list A :=
  firstn w (skipn (S i - w) xs).

(** The bar read when an index is out of range. *)
Definition no_bar : Bar := mkBar 0 0 0 0 0 0.

(** Strictly increasing signal dates. *)
Definition strictly_dated (signals : list Signal) : Prop :=
  StronglySorted Z.lt (map sg_date signals).

End Book.

(* ================================================================== *)
(** ** Further sample inputs *)
(* ================================================================== *)

Module Samples.
Import Py Fn2 Testback Examples.

(** The signal record of row [i] of [sample_bars]. *)
Definition sample_record (i : nat) : SignalRecord :=
  nth i (generate_signals sample_config sample_bars) hold_record.

(** The float power on the sample runs: a whole exponent gives the exact
    power; other exponents are not evaluated. *)
Definition whole_power (x y : Q) : option Q :=
  let y' := Qred y in
  if (Zpos (Qden y') =? 1)%Z then Some (x ^ Qnum y') else None.

(** A run over one year: a purchase at 10.00, a second one at 20.00, and a
    SELL at 15.00 which closes the first lot at a profit and the second at
    a loss. *)
Definition year_signals : list Signal :=
  [ mkSignal 1 BUY 10 reason_buy 1;
    mkSignal 120 BUY 20 reason_buy 1;
    mkSignal 366 SELL 15 reason_trend_reversal 1 ].

Definition year_final : Engine :=
  match backtest_signals 1000 year_signals with
  | Some e => e
  | None => reset 1000
  end.

(** The report of the run over [year_signals]. *)
Definition sample_report : Performance :=
  match calculate_performance whole_power year_final with
  | perf_report p => p
  | _ => mkPerformance 0 0 0 0 0 0 0 0 0
  end.

(** [sample_config] with a volatility lookback of 5 rows, longer than the
    slow moving average. *)
Definition late_filter_config : Config := {|
  risk_fraction_per_trade := 1 # 100;
  fee_rate := 3 # 10000;
  slippage_bps := 2;
  fast_ma_window := 2;
  slow_ma_window := 3;
  entry_breakout_window := 2;
  atr_window := 2;
  atr_multiple_stop := 3;
  vol_min_pct := 7 # 10;
  vol_max_pct := 2;
  vol_lookback_for_filter := 5;
  enable_pyramiding := true;
  max_pyramid_layers := 3;
  pyramid_add_step_pct := 2;
  vol_expand_multiple_for_add := 11 # 10;
  exit_break_window := 2;
  min_hold_days := 5;
  cooldown_days_after_exit := 5
|}.

(** ATR values of the binary64 examples: 32/9 (3.5555555555555554), and
    three values far below the spacing of the floats around a close of 10:
    3e-16, 2e-16 and 2^-53. *)
Definition atr_32_9 : float := (32 / 9)%float.
Definition atr_3e_16 : float := 0x1.59e05f1e2674dp-52%float.
Definition atr_2e_16 : float := 0x1.cd2b297d889bcp-53%float.
Definition atr_2p_53 : float := 0x1p-53%float.

(** A ledger holding two lots: 100 shares bought at 10.00 on day 1 and 50
    shares bought at 12.00 on day 2. *)
Definition two_lot_ledger : Engine :=
  mkEngine 10000 5000
           [(1%Z, mkPosition 100 10 1); (2%Z, mkPosition 50 12 2)] [] [].

(** Six days without any price movement. *)
Definition flat_bars : list Bar :=
  map (fun d => mkBar (Z.of_nat d) 10 10 10 10 1000) (seq 1 6).

End Samples.

(* ================================================================== *)
(** * Properties *)
(* ================================================================== *)

Import Py Fn2 Testback Spec Examples.

(** ** Numeric helpers *)

Lemma Qltb_true (a b : Q) : Qltb a b = true <-> a < b.
Proof.
  unfold Qltb. rewrite negb_true_iff.
  split; intro H.
  - apply Qnot_le_lt. intro Hle. apply Qle_bool_iff in Hle. congruence.
  - destruct (Qle_bool b a) eqn:E; [|reflexivity].
    apply Qle_bool_iff in E. apply Qle_not_lt in E. contradiction.
Qed.

Lemma Qltb_false (a b : Q) : Qltb a b = false <-> b <= a.
Proof.
  unfold Qltb. rewrite negb_false_iff. apply Qle_bool_iff.
Qed.

Lemma is_zero_true (q : Q) : is_zero q = true <-> q == 0.
Proof. unfold is_zero. apply Qeq_bool_iff. Qed.

Lemma is_zero_false (q : Q) : is_zero q = false <-> ~ q == 0.
Proof.
  unfold is_zero. split; intro H.
  - apply Qeq_bool_neq. exact H.
  - destruct (Qeq_bool q 0) eqn:E; [|reflexivity].
    apply Qeq_bool_iff in E. contradiction.
Qed.

Lemma py_min_le_r (a b : Q) : py_min a b <= b.
Proof.
  unfold py_min. destruct (Qltb b a) eqn:E.
  - apply Qle_refl.
  - apply Qltb_false in E. exact E.
Qed.

Lemma py_min_le_l (a b : Q) : py_min a b <= a.
Proof.
  unfold py_min. destruct (Qltb b a) eqn:E.
  - apply Qltb_true in E. apply Qlt_le_weak. exact E.
  - apply Qle_refl.
Qed.

(** Truncation agrees with the floor on non-negative numbers. *)
Lemma py_int_floor (q : Q) : 0 <= q -> py_int q = Qfloor q.
Proof.
  intro H. destruct q as [n d]. unfold py_int, Qfloor. simpl.
  apply Z.quot_div_nonneg; [|reflexivity].
  unfold Qle in H. simpl in H. lia.
Qed.

Lemma py_int_le (q : Q) : 0 <= q -> inject_Z (py_int q) <= q.
Proof.
  intro H. rewrite (py_int_floor q H). apply Qfloor_le.
Qed.

Lemma py_int_pos (q : Q) : (0 < py_int q)%Z -> 0 < q.
Proof.
  destruct q as [n d]. unfold py_int, Qlt. simpl. intro H.
  destruct (Z_lt_le_dec 0 n) as [Hn|Hn]; [lia|].
  exfalso.
  assert (Hq : (Z.quot n (Z.pos d) <= 0)%Z).
  { rewrite <- (Z.opp_involutive n), Z.quot_opp_l by lia.
    assert (0 <= Z.quot (- n) (Z.pos d))%Z by (apply Z.quot_pos; lia). lia. }
  lia.
Qed.

(** ** The ledger: one step *)

Lemma lots_pos_dict_set (k : Z) (v : Position) (d : list (Z * Position)) :
  (0 < pos_shares v)%Z -> lots_pos d -> lots_pos (dict_set k v d).
Proof.
  intros Hv Hd. induction Hd as [|[k' v'] rest Hx Hrest IH]; simpl.
  - constructor; [exact Hv | constructor].
  - destruct (k' =? k)%Z.
    + constructor; [exact Hv | exact Hrest].
    + constructor; [exact Hx | exact IH].
Qed.

Lemma lots_pos_dict_del (k : Z) (d : list (Z * Position)) :
  lots_pos d -> lots_pos (dict_del k d).
Proof.
  unfold lots_pos, dict_del. rewrite !Forall_forall.
  intros H x Hx. apply filter_In in Hx. apply H. tauto.
Qed.

Lemma share_value_nonneg (n : Z) (p : Q) :
  (0 < n)%Z -> 0 <= p -> 0 <= inject_Z n * p.
Proof.
  intros Hn Hp. apply Qmult_le_0_compat; [|exact Hp].
  unfold Qle, inject_Z. simpl. lia.
Qed.

(** The step appends exactly one snapshot, dated by the signal. *)
Lemma step_snapshot (e : Engine) (s : Signal) (e' : Engine) :
  step e s = Some e' ->
  exists x, execute e s = Some x
    /\ e' = record_snapshot x s.
Proof.
  unfold step. destruct (execute e s) as [x|]; [|discriminate].
  intro H. injection H as <-. exists x. split; reflexivity.
Qed.

Lemma step_returns (e : Engine) (s : Signal) :
  ~ sg_price s == 0 -> exists e', step e s = Some e'.
Proof.
  intro Hp. unfold step, execute.
  apply is_zero_false in Hp. rewrite Hp.
  destruct (is_buy _ && _).
  - destruct (_ >? _)%Z; eexists; reflexivity.
  - destruct (is_sell _ && _); eexists; reflexivity.
Qed.

(** A signal whose price is positive, as the close of a bar is. *)
Section PositivePrice.

Variable s : Signal.
Hypothesis price_pos : 0 < sg_price s.

Lemma buy_spend_le (e : Engine) :
  (0 < buy_shares e s)%Z ->
  inject_Z (buy_shares e s) * sg_price s <= buy_position_size e s.
Proof.
  intros Hs. unfold buy_shares in *.
  set (v := buy_position_size e s) in *.
  assert (Hq : 0 < v / sg_price s) by (apply py_int_pos; exact Hs).
  assert (Hle := py_int_le (v / sg_price s) (Qlt_le_weak _ _ Hq)).
  apply (Qmult_le_compat_r _ _ (sg_price s)) in Hle; [| lra].
  assert (E : v / sg_price s * sg_price s == v) by (field; lra).
  rewrite E in Hle. exact Hle.
Qed.

(** The SELL loop keeps the static fields, never lowers cash, and leaves
    only lots with a positive share count. *)
Lemma close_lots_fold (l : list (Z * Position)) :
  lots_pos l ->
  forall e, lots_pos (positions e) ->
  let e' := fold_left (close_lot s) l e in
  lots_pos (positions e') /\ cash e <= cash e'
  /\ initial_cash e' = initial_cash e
  /\ portfolio_value e' = portfolio_value e.
Proof.
  intros Hl. induction Hl as [|[pd position] rest Hx Hrest IH]; intros e He; simpl.
  - repeat split; try assumption. apply Qle_refl.
  - destruct (pd <=? sg_date s)%Z eqn:Hd.
    + match goal with |- context [fold_left _ rest ?e0] => specialize (IH e0) end.
      simpl in IH. destruct IH as (I1 & I2 & I3 & I4).
      { apply lots_pos_dict_del. exact He. }
      repeat split; try assumption.
      simpl in Hx.
      pose proof (share_value_nonneg _ _ Hx (Qlt_le_weak _ _ price_pos)). lra.
    + apply IH. exact He.
Qed.

(** What the trade part of an iteration does to the ledger: it returns,
    keeps lots positive, and either does not lower cash or spends at most
    the BUY position size. *)
Lemma execute_spec (e : Engine) :
  lots_pos (positions e) ->
  exists e', execute e s = Some e'
    /\ lots_pos (positions e')
    /\ initial_cash e' = initial_cash e
    /\ portfolio_value e' = portfolio_value e
    /\ (cash e <= cash e'
        \/ (0 < cash e /\ cash e - buy_position_size e s <= cash e')).
Proof.
  intros He. unfold execute.
  destruct (is_buy (sg_action s) && Qltb 0 (cash e)) eqn:Hb.
  - apply andb_true_iff in Hb. destruct Hb as [_ Hc]. apply Qltb_true in Hc.
    assert (Hz : is_zero (sg_price s) = false) by (apply is_zero_false; lra).
    rewrite Hz.
    destruct (buy_shares e s >? 0)%Z eqn:Hs.
    + apply Z.gtb_lt in Hs.
      eexists; split; [reflexivity|]. simpl.
      repeat split.
      * apply lots_pos_dict_set; [exact Hs | exact He].
      * right. split; [exact Hc|].
        pose proof (buy_spend_le e Hs). lra.
    + eexists; split; [reflexivity|].
      repeat split; try assumption. left. apply Qle_refl.
  - destruct (is_sell (sg_action s) && _).
    + eexists; split; [reflexivity|]. unfold close_lots.
      destruct (close_lots_fold (positions e) He e He) as (I1 & I2 & I3 & I4).
      repeat split; try assumption. left. exact I2.
    + eexists; split; [reflexivity|].
      repeat split; try assumption. left. apply Qle_refl.
Qed.

Lemma current_value_ge_cash (e : Engine) :
  lots_pos (positions e) -> cash e <= current_value e s.
Proof.
  unfold current_value.
  assert (G : forall l c, lots_pos l ->
            c <= fold_left
                   (fun acc item =>
                      if (fst item <=? sg_date s)%Z
                      then acc + inject_Z (pos_shares (snd item)) * sg_price s
                      else acc) l c).
  { induction l as [|[pd position] rest IH]; intros c Hl; simpl.
    - apply Qle_refl.
    - inversion Hl as [|? ? Hx Hrest]; subst. simpl in Hx.
      destruct (pd <=? sg_date s)%Z.
      + eapply Qle_trans; [|apply IH; exact Hrest].
        pose proof (share_value_nonneg _ _ Hx (Qlt_le_weak _ _ price_pos)). lra.
      + apply IH. exact Hrest. }
  apply G.
Qed.

(** The whole step: it returns, appends one snapshot that carries the new
    cash and is worth at least that cash, and keeps cash non-negative
    (positive, when the strength is 1.0). *)
Lemma step_spec (e : Engine) :
  lots_pos (positions e) ->
  exists e' snap,
    step e s = Some e'
    /\ lots_pos (positions e')
    /\ initial_cash e' = initial_cash e
    /\ portfolio_value e' = portfolio_value e ++ [snap]
    /\ pv_date snap = sg_date s
    /\ pv_cash snap = cash e'
    /\ cash e' <= pv_value snap
    /\ (0 <= cash e -> 0 <= cash e')
    /\ (sg_strength s == 1 -> 0 < cash e -> 0 < cash e').
Proof.
  intros He.
  destruct (execute_spec e He) as (x & Hx & Hl & Hi & Hpv & Hc).
  unfold step. rewrite Hx.
  eexists. eexists. split; [reflexivity|]. simpl.
  split; [exact Hl|]. split; [exact Hi|].
  split; [rewrite Hpv; reflexivity|].
  split; [reflexivity|]. split; [reflexivity|].
  split; [apply current_value_ge_cash; exact Hl|].
  split.
  - intro H0. destruct Hc as [Hc|[Hc1 Hc2]]; [lra|].
    pose proof (py_min_le_r (cash e * (1 # 10) * sg_strength s) (cash e)) as Hm.
    unfold buy_position_size in Hc2. lra.
  - intros Hs H0. destruct Hc as [Hc|[Hc1 Hc2]]; [lra|].
    pose proof (py_min_le_l (cash e * (1 # 10) * sg_strength s) (cash e)) as Hm.
    assert (E : cash e * (1 # 10) * sg_strength s == cash e * (1 # 10))
      by (rewrite Hs; ring).
    unfold buy_position_size in Hc2. lra.
Qed.

End PositivePrice.

(** ** The ledger: scenarios and single signals *)

(** C1, as amended.  From starting cash 1,000,000 and no open lots, a BUY
    with strength 1.0 at price 10.00 has position value
    min(1,000,000 * 0.1 * 1.0, 1,000,000) = 100,000, opens a lot of 10,000
    shares at 10.00, logs one BUY trade, and leaves a cash balance of
    900,000 (the 100,000 spent is subtracted from the 1,000,000 held). *)
Theorem buy_scenario_cash_900000 (d : Z) (r : Reason) :
  let e := reset 1000000 in
  let s := mkSignal d BUY 10 r 1 in
  buy_position_size e s == 100000
  /\ buy_shares e s = 10000%Z
  /\ exists e',
       step e s = Some e'
       /\ positions e' = [(d, mkPosition 10000 10 d)]
       /\ cash e' == 900000
       /\ (exists t, trades e' = [t] /\ t_action t = BUY
                     /\ t_shares t = 10000%Z /\ t_cash_after t == 900000).
Proof.
  simpl. split; [vm_compute; reflexivity|].
  split; [vm_compute; reflexivity|].
  eexists. split; [vm_compute; reflexivity|].
  split; [reflexivity|]. split; [vm_compute; reflexivity|].
  eexists. split; [reflexivity|]. simpl.
  split; [reflexivity|]. split; [reflexivity|]. vm_compute. reflexivity.
Qed.

(** C1 as stated fails: in that scenario the cash after the trade is not 0. *)
Lemma buy_scenario_cash_not_zero :
  ~ (exists e',
       step (reset 1000000) (mkSignal 0 BUY 10 reason_buy 1) = Some e'
       /\ buy_position_size (reset 1000000) (mkSignal 0 BUY 10 reason_buy 1) == 100000
       /\ map (fun kv => pos_shares (snd kv)) (positions e') = [10000%Z]
       /\ cash e' == 0).
Proof.
  intros (e' & Hstep & _ & _ & Hcash).
  vm_compute in Hstep. injection Hstep as <-.
  vm_compute in Hcash. discriminate.
Qed.

(** The SELL loop opens no lot and logs SELL trades only. *)
Lemma close_lots_no_new_lot (s : Signal) (l : list (Z * Position)) :
  forall e,
    incl (positions (fold_left (close_lot s) l e)) (positions e)
    /\ exists new,
         trades (fold_left (close_lot s) l e) = trades e ++ new
         /\ Forall (fun t => t_action t = SELL) new.
Proof.
  induction l as [|[pd position] rest IH]; intro e; simpl.
  - split; [apply incl_refl|]. exists []. rewrite app_nil_r. split; constructor.
  - destruct (pd <=? sg_date s)%Z.
    + match goal with
      | |- context [fold_left _ rest ?e0] => destruct (IH e0) as (Hin & new & Ht & Hall)
      end.
      simpl in Hin, Ht. split.
      * intros kv Hkv. apply Hin in Hkv. unfold dict_del in Hkv.
        apply filter_In in Hkv. apply Hkv.
      * eexists (_ :: new). split; [rewrite Ht, <- app_assoc; reflexivity|].
        constructor; [reflexivity | exact Hall].
    + apply IH.
Qed.

(** C2, as amended.  An ADD signal is not executed by the ledger: whatever
    the state, price and strength, the step returns with cash, open lots and
    the trade log unchanged, and only appends the day's snapshot.  Only a
    BUY signal with cash available is sized, as
    min(cash * 0.1 * strength, cash), and opens a lot: when that size pays
    for at least one share the step puts the lot of int(size / price) shares
    in the book under the signal date, takes shares * price from the cash
    and logs a BUY trade; every other step - an ADD, a SELL, a BUY without
    cash or without a whole share - adds no lot to the book and logs no BUY
    trade. *)
Theorem add_signal_not_executed (e : Engine) (s : Signal) :
  let size := py_min (cash e * (1 # 10) * sg_strength s) (cash e) in
  let shares := py_int (size / sg_price s) in
  let bought := sg_action s = BUY /\ 0 < cash e /\ (0 < shares)%Z in
  (sg_action s = ADD ->
   exists e',
     step e s = Some e'
     /\ cash e' = cash e
     /\ positions e' = positions e
     /\ trades e' = trades e
     /\ portfolio_value e' =
        portfolio_value e ++
        [mkSnapshot (sg_date s) (current_value e s) (cash e) (length (positions e))])
  /\ (forall e',
        step e s = Some e' -> bought ->
        positions e' =
        dict_set (sg_date s) (mkPosition shares (sg_price s) (sg_date s)) (positions e)
        /\ cash e' = cash e - inject_Z shares * sg_price s
        /\ exists t,
             trades e' = trades e ++ [t]
             /\ t_action t = BUY /\ t_shares t = shares /\ t_price t = sg_price s)
  /\ (forall e',
        step e s = Some e' -> ~ bought ->
        incl (positions e') (positions e)
        /\ exists new,
             trades e' = trades e ++ new
             /\ Forall (fun t => t_action t = SELL) new).
Proof.
  cbv zeta. split; [|split].
  - intro Ha. unfold step, execute. rewrite Ha. simpl.
    eexists. split; [reflexivity|]. repeat split.
  - intros e' Hstep (Ha & Hc & Hn).
    destruct (step_snapshot e s e' Hstep) as (x & Hx & ->).
    cbn [record_snapshot positions cash trades]. unfold execute in Hx.
    rewrite Ha in Hx. simpl in Hx.
    apply Qltb_true in Hc. rewrite Hc in Hx.
    destruct (is_zero (sg_price s)); [discriminate|].
    unfold buy_shares, buy_position_size in Hx.
    apply Z.gtb_lt in Hn. rewrite Hn in Hx. injection Hx as <-.
    unfold open_lot. cbn [positions cash trades].
    unfold buy_shares, buy_position_size.
    split; [reflexivity|]. split; [reflexivity|].
    eexists. split; [reflexivity|]. repeat split.
  - intros e' Hstep Hnot.
    destruct (step_snapshot e s e' Hstep) as (x & Hx & ->).
    cbn [record_snapshot positions cash trades]. unfold execute in Hx.
    destruct (is_buy (sg_action s) && Qltb 0 (cash e)) eqn:Hb.
    + destruct (is_zero (sg_price s)); [discriminate|].
      destruct (buy_shares e s >? 0)%Z eqn:Hs; injection Hx as <-.
      * exfalso. apply Hnot.
        apply andb_true_iff in Hb. destruct Hb as [Hb Hc].
        split; [destruct (sg_action s); (reflexivity || discriminate)|].
        split; [apply Qltb_true; exact Hc|].
        apply Z.gtb_lt in Hs. exact Hs.
      * split; [apply incl_refl|]. exists []. rewrite app_nil_r. split; constructor.
    + destruct (is_sell (sg_action s) && _); injection Hx as <-.
      * unfold close_lots. apply close_lots_no_new_lot.
      * split; [apply incl_refl|]. exists []. rewrite app_nil_r. split; constructor.
Qed.

(** C2 as stated fails: with cash 1,000,000 an ADD at price 10.00 opens no
    lot and logs no trade, although a BUY there would take 10,000 shares. *)
Lemma add_signal_not_a_buy :
  ~ (exists e',
       step (reset 1000000) (mkSignal 0 ADD 10 reason_add 1) = Some e'
       /\ executed_as_buy (reset 1000000) (mkSignal 0 ADD 10 reason_add 1) e').
Proof.
  intros (e' & Hstep & _ & Hlots & _).
  vm_compute in Hstep. injection Hstep as <-.
  simpl in Hlots. discriminate.
Qed.

(** C6 as stated fails: a SELL signal with no open lot executes no trade,
    and yet its snapshot is recorded. *)
Lemma snapshot_without_trade :
  ~ (forall e',
       step (reset 1000000) (mkSignal 0 SELL 10 reason_break_low 1) = Some e' ->
       (snapshot_recorded (reset 1000000) e' <-> trade_executed (reset 1000000) e')).
Proof.
  intro H.
  specialize (H _ eq_refl).
  destruct H as [H _].
  assert (Hr : snapshot_recorded (reset 1000000)
                 (record_snapshot (reset 1000000)
                    (mkSignal 0 SELL 10 reason_break_low 1)))
    by reflexivity.
  apply H in Hr. unfold trade_executed in Hr. simpl in Hr. lia.
Qed.

(** ** The ledger: whole runs *)

Lemma run_signals_app (l1 l2 : list Signal) :
  forall e,
    run_signals e (l1 ++ l2) =
    match run_signals e l1 with
    | Some e1 => run_signals e1 l2
    | None => None
    end.
Proof.
  induction l1 as [|s rest IH]; intro e; simpl.
  - reflexivity.
  - destruct (step e s) as [e1|]; [apply IH | reflexivity].
Qed.

(** The run on positive prices. *)
Lemma run_spec (signals : list Signal) :
  Forall (fun s => 0 < sg_price s) signals ->
  forall e, lots_pos (positions e) ->
  exists e' new,
    run_signals e signals = Some e'
    /\ lots_pos (positions e')
    /\ initial_cash e' = initial_cash e
    /\ portfolio_value e' = portfolio_value e ++ new
    /\ map pv_date new = map sg_date signals
    /\ (0 <= cash e ->
        0 <= cash e' /\ Forall (fun pv => 0 <= pv_cash pv) new)
    /\ (Forall (fun s => sg_strength s == 1) signals -> 0 < cash e ->
        0 < cash e' /\ Forall (fun pv => 0 < pv_value pv) new).
Proof.
  intro Hp. induction Hp as [|s rest Hs Hrest IH]; intros e He.
  - exists e, []. simpl. rewrite app_nil_r.
    split; [reflexivity|]. split; [exact He|].
    split; [reflexivity|]. split; [reflexivity|]. split; [reflexivity|].
    split; intros; split; try assumption; constructor.
  - destruct (step_spec s Hs e He)
      as (e1 & snap & H1 & Hl1 & Hi1 & Hpv1 & Hd1 & Hc1 & Hv1 & Hn1 & Hq1).
    destruct (IH e1 Hl1) as (e' & new & H2 & Hl2 & Hi2 & Hpv2 & Hd2 & Hn2 & Hq2).
    exists e', (snap :: new). simpl. rewrite H1.
    split; [exact H2|]. split; [exact Hl2|].
    split; [congruence|].
    split; [rewrite Hpv2, Hpv1, <- app_assoc; reflexivity|].
    split; [simpl; congruence|].
    split.
    + intro H0. specialize (Hn1 H0). destruct (Hn2 Hn1) as [A B].
      split; [exact A|]. constructor; [rewrite Hc1; exact Hn1 | exact B].
    + intros Hst H0. inversion Hst as [|? ? Hst1 Hst2]; subst.
      specialize (Hq1 Hst1 H0). destruct (Hq2 Hst2 Hq1) as [A B].
      split; [exact A|]. constructor; [lra | exact B].
Qed.

(** C3.  From a non-negative initial cash, on signals with positive prices,
    the ledger processes every prefix of the signal list and its cash is
    non-negative after each processed signal (so is the cash of every
    recorded snapshot); and a BUY that takes shares spends
    [shares * price], which never exceeds the cash held before the trade. *)
Theorem cash_never_negative (initial : Q) (signals : list Signal) (k : nat) :
  0 <= initial ->
  Forall (fun s => 0 < sg_price s) signals ->
  (exists e,
     backtest_signals initial (firstn k signals) = Some e
     /\ 0 <= cash e
     /\ Forall (fun pv => 0 <= pv_cash pv) (portfolio_value e))
  /\ (forall e0 s0,
        0 < sg_price s0 -> (0 < buy_shares e0 s0)%Z ->
        inject_Z (buy_shares e0 s0) * sg_price s0 <= cash e0).
Proof.
  intros H0 Hp. split.
  - assert (Hpk : Forall (fun s => 0 < sg_price s) (firstn k signals)).
    { rewrite Forall_forall in *. intros x Hx. apply Hp.
      rewrite <- (firstn_skipn k signals). apply in_or_app. left. exact Hx. }
    destruct (run_spec _ Hpk (reset initial)) as (e & new & H1 & _ & _ & Hpv & _ & Hn & _).
    { constructor. }
    exists e. split; [exact H1|].
    destruct (Hn H0) as [A B]. split; [exact A|].
    rewrite Hpv. simpl. exact B.
  - intros e0 s0 Hp0 Hs0.
    eapply Qle_trans; [apply buy_spend_le; assumption|].
    apply py_min_le_r.
Qed.

Lemma close_lots_static (s : Signal) (l : list (Z * Position)) :
  forall e,
    portfolio_value (fold_left (close_lot s) l e) = portfolio_value e
    /\ initial_cash (fold_left (close_lot s) l e) = initial_cash e.
Proof.
  induction l as [|[pd position] rest IH]; intro e; simpl.
  - split; reflexivity.
  - destruct (pd <=? sg_date s)%Z.
    + match goal with |- context [fold_left _ rest ?e0] => destruct (IH e0) as [A B] end.
      split; [rewrite A | rewrite B]; reflexivity.
    + apply IH.
Qed.

Lemma execute_static (e : Engine) (s : Signal) (x : Engine) :
  execute e s = Some x ->
  portfolio_value x = portfolio_value e /\ initial_cash x = initial_cash e.
Proof.
  unfold execute.
  destruct (is_buy _ && _).
  - destruct (is_zero _); [discriminate|].
    destruct (_ >? _)%Z; intro H; injection H as <-; split; reflexivity.
  - destruct (is_sell _ && _); intro H; injection H as <-.
    + apply close_lots_static.
    + split; reflexivity.
Qed.

Lemma step_appends (e : Engine) (s : Signal) (e' : Engine) :
  step e s = Some e' ->
  exists x,
    execute e s = Some x
    /\ cash e' = cash x /\ positions e' = positions x /\ trades e' = trades x
    /\ portfolio_value e' =
       portfolio_value e ++
       [mkSnapshot (sg_date s) (current_value x s) (cash x) (length (positions x))].
Proof.
  intro H. destruct (step_snapshot e s e' H) as (x & Hx & ->).
  exists x. destruct (execute_static e s x Hx) as [A _].
  simpl. rewrite A. repeat split. exact Hx.
Qed.

(** On non-zero prices the run returns and records one snapshot per signal,
    dated by it, in order. *)
Lemma run_snapshot_dates (signals : list Signal) :
  Forall (fun s => ~ sg_price s == 0) signals ->
  forall e,
  exists e',
    run_signals e signals = Some e'
    /\ map pv_date (portfolio_value e') =
       map pv_date (portfolio_value e) ++ map sg_date signals.
Proof.
  intro Hp. induction Hp as [|s rest Hs Hrest IH]; intro e; simpl.
  - exists e. rewrite app_nil_r. split; reflexivity.
  - destruct (step_returns e s Hs) as (e1 & H1). rewrite H1.
    destruct (IH e1) as (e' & H2 & Hd). exists e'. split; [exact H2|].
    destruct (step_appends e s e1 H1) as (x & _ & _ & _ & _ & Hpv).
    rewrite Hd, Hpv, map_app, <- app_assoc. reflexivity.
Qed.

(** The signal list built from the frame: one entry per row that is not
    HOLD, carrying the row's date and close, with strength 1.0. *)
Lemma signals_of_frame_dates (df : list Bar) (recs : list SignalRecord) :
  map sg_date (signals_of_frame df recs) = non_hold_dates df recs.
Proof.
  unfold signals_of_frame, non_hold_dates.
  induction (combine df recs) as [|[b r] rest IH]; simpl.
  - reflexivity.
  - unfold signal_of_row at 1. simpl.
    destruct (signal r); simpl; (exact IH || (f_equal; exact IH)).
Qed.

Lemma signals_of_frame_Forall (P : Bar -> Prop) (Q' : Signal -> Prop)
      (df : list Bar) (recs : list SignalRecord) :
  (forall b a r, P b -> Q' (mkSignal (date b) a (close b) r 1)) ->
  Forall P df -> Forall Q' (signals_of_frame df recs).
Proof.
  intros HPQ Hdf. unfold signals_of_frame.
  revert recs. induction Hdf as [|b rest Hb Hrest IH]; intros recs; simpl.
  - constructor.
  - destruct recs as [|r recs']; simpl; [constructor|].
    apply Forall_app. split; [|apply IH].
    unfold signal_of_row. destruct (signal r); repeat constructor; apply HPQ; exact Hb.
Qed.

(** C6, as amended.  A snapshot is recorded after every signal day whose
    signal is not HOLD (BUY, SELL or ADD), whether or not a trade was
    executed on it, and after no other day: on closes that are not zero the
    backtest returns, and the dates of its snapshots are exactly the dates
    of the non-HOLD rows, in order. *)
Theorem snapshot_per_signal_day (cfg : Config) (initial : Q) (df : list Bar) :
  Forall (fun b => ~ close b == 0) df ->
  exists e,
    backtest_strategy cfg initial df = Some e
    /\ map pv_date (portfolio_value e) =
       non_hold_dates df (generate_signals cfg df).
Proof.
  intro Hdf. unfold backtest_strategy, backtest_signals.
  destruct (run_snapshot_dates (signals_of_frame df (generate_signals cfg df)))
    with (e := reset initial) as (e & H1 & H2).
  { apply signals_of_frame_Forall with (P := fun b => ~ close b == 0); [|exact Hdf].
    intros b a r Hb. exact Hb. }
  exists e. split; [exact H1|].
  rewrite H2. simpl. apply signals_of_frame_dates.
Qed.

(** ** The ledger: value identity *)

Lemma lots_upto_dict_set (D k : Z) (v : Position) (d : list (Z * Position)) :
  (k <= D)%Z -> lots_upto D d -> lots_upto D (dict_set k v d).
Proof.
  intros Hk Hd. induction Hd as [|[k' v'] rest Hx Hrest IH]; simpl.
  - constructor; [exact Hk | constructor].
  - destruct (k' =? k)%Z.
    + constructor; [exact Hk | exact Hrest].
    + constructor; [exact Hx | exact IH].
Qed.

Lemma lots_upto_dict_del (D k : Z) (d : list (Z * Position)) :
  lots_upto D d -> lots_upto D (dict_del k d).
Proof.
  unfold lots_upto, dict_del. rewrite !Forall_forall.
  intros H x Hx. apply filter_In in Hx. apply H. tauto.
Qed.

Lemma close_lots_upto (D : Z) (s : Signal) (l : list (Z * Position)) :
  forall e, lots_upto D (positions e) ->
            lots_upto D (positions (fold_left (close_lot s) l e)).
Proof.
  induction l as [|[pd position] rest IH]; intros e He; simpl.
  - exact He.
  - destruct (pd <=? sg_date s)%Z.
    + apply IH. simpl. apply lots_upto_dict_del. exact He.
    + apply IH. exact He.
Qed.

Lemma execute_lots_upto (D : Z) (e : Engine) (s : Signal) (x : Engine) :
  lots_upto D (positions e) -> (sg_date s <= D)%Z ->
  execute e s = Some x -> lots_upto D (positions x).
Proof.
  intros He Hd. unfold execute.
  destruct (is_buy _ && _).
  - destruct (is_zero _); [discriminate|].
    destruct (_ >? _)%Z; intro H; injection H as <-.
    + simpl. apply lots_upto_dict_set; assumption.
    + exact He.
  - destruct (is_sell _ && _); intro H; injection H as <-.
    + apply close_lots_upto. exact He.
    + exact He.
Qed.

Lemma run_lots_upto (D : Z) (l : list Signal) :
  Forall (fun s => (sg_date s <= D)%Z) l ->
  forall e e', lots_upto D (positions e) ->
               run_signals e l = Some e' -> lots_upto D (positions e').
Proof.
  intro Hl. induction Hl as [|s rest Hs Hrest IH]; intros e e' He; simpl.
  - intro H. injection H as <-. exact He.
  - destruct (step e s) as [e1|] eqn:H1; [|discriminate].
    apply IH.
    destruct (step_appends e s e1 H1) as (x & Hx & _ & Hp & _).
    rewrite Hp. eapply execute_lots_upto; eassumption.
Qed.

(** When every lot is dated up to the signal day, the loop that computes
    [current_value] adds every open lot. *)
Lemma current_value_all_lots (e : Engine) (s : Signal) :
  lots_upto (sg_date s) (positions e) ->
  current_value e s == cash e + open_lots_value (positions e) (sg_price s).
Proof.
  unfold current_value.
  assert (G : forall l c, lots_upto (sg_date s) l ->
            fold_left
              (fun acc item =>
                 if (fst item <=? sg_date s)%Z
                 then acc + inject_Z (pos_shares (snd item)) * sg_price s
                 else acc) l c
            == c + open_lots_value l (sg_price s)).
  { induction l as [|[pd position] rest IH]; intros c Hl; simpl.
    - ring.
    - inversion Hl as [|? ? Hx Hrest]; subst. simpl in Hx.
      apply Z.leb_le in Hx. rewrite Hx.
      rewrite (IH _ Hrest). ring. }
  apply G.
Qed.

(** The run only appends to the snapshot list, one entry per signal. *)
Lemma run_appends (l : list Signal) :
  forall e e', run_signals e l = Some e' ->
  exists new, portfolio_value e' = portfolio_value e ++ new
              /\ length new = length l.
Proof.
  induction l as [|s rest IH]; intros e e'; simpl.
  - intro H. injection H as <-. exists []. rewrite app_nil_r. split; reflexivity.
  - destruct (step e s) as [e1|] eqn:H1; [|discriminate]. intro H2.
    destruct (IH _ _ H2) as (new & Hpv & Hlen).
    destruct (step_appends e s e1 H1) as (x & _ & _ & _ & _ & Hpv1).
    eexists (_ :: new). split.
    + rewrite Hpv, Hpv1, <- app_assoc. reflexivity.
    + simpl. rewrite Hlen. reflexivity.
Qed.

Lemma sorted_prefix_upto (signals : list Signal) :
  in_date_order signals ->
  forall k s, nth_error signals k = Some s ->
              Forall (fun x => (sg_date x <= sg_date s)%Z) (firstn (S k) signals).
Proof.
  unfold in_date_order. intro H.
  apply Sorted_StronglySorted in H; [|intros x y z; apply Z.le_trans].
  induction signals as [|a rest IH]; intros k s Hk.
  - destruct k; discriminate.
  - simpl in H. inversion H as [|? ? Hrest Hall]; subst.
    destruct k as [|k'].
    + simpl in Hk. injection Hk as <-. simpl. constructor; [lia | constructor].
    + simpl in Hk. change (firstn (S (S k')) (a :: rest)) with (a :: firstn (S k') rest).
      constructor.
      * rewrite Forall_forall in Hall. apply Hall.
        apply in_map. eapply nth_error_In. exact Hk.
      * apply IH; assumption.
Qed.

Lemma firstn_S_nth_error {A : Type} (l : list A) :
  forall k x, nth_error l k = Some x -> firstn (S k) l = firstn k l ++ [x].
Proof.
  induction l as [|a rest IH]; intros k x Hk.
  - destruct k; discriminate.
  - destruct k as [|k']; simpl in Hk.
    + injection Hk as <-. reflexivity.
    + change (firstn (S (S k')) (a :: rest)) with (a :: firstn (S k') rest).
      rewrite (IH _ _ Hk). reflexivity.
Qed.

(** C4.  In a completed run over signals in date order, every recorded
    snapshot was taken in a ledger state (the one reached after the signals
    up to its day) whose cash it records, and its total value equals that
    cash plus the sum over all lots open in that state of shares times the
    day's price. *)
Theorem snapshot_value_identity
        (initial : Q) (signals : list Signal) (e_final : Engine)
        (k : nat) (snap : Snapshot) :
  in_date_order signals ->
  backtest_signals initial signals = Some e_final ->
  nth_error (portfolio_value e_final) k = Some snap ->
  exists s e_k,
    nth_error signals k = Some s
    /\ backtest_signals initial (firstn (S k) signals) = Some e_k
    /\ pv_date snap = sg_date s
    /\ pv_cash snap = cash e_k
    /\ pv_positions snap = length (positions e_k)
    /\ pv_value snap == cash e_k + open_lots_value (positions e_k) (sg_price s).
Proof.
  unfold backtest_signals. intros Hord Hrun Hsnap.
  destruct (run_appends _ _ _ Hrun) as (all & Hall & Hlen). simpl in Hall.
  assert (Hk : (k < length signals)%nat).
  { rewrite <- Hlen, <- Hall. apply nth_error_Some. congruence. }
  destruct (nth_error signals k) as [s|] eqn:Hs;
    [|apply nth_error_None in Hs; lia].
  rewrite <- (firstn_skipn (S k) signals) in Hrun.
  rewrite run_signals_app in Hrun.
  destruct (run_signals (reset initial) (firstn (S k) signals)) as [e_k|] eqn:Hpre;
    [|discriminate].
  exists s, e_k. split; [reflexivity|]. split; [reflexivity|].
  (* the state before the k-th signal *)
  pose proof Hpre as Hpre'.
  rewrite (firstn_S_nth_error _ _ _ Hs), run_signals_app in Hpre'.
  destruct (run_signals (reset initial) (firstn k signals)) as [e0|] eqn:H0;
    [|discriminate].
  simpl in Hpre'. destruct (step e0 s) as [e1|] eqn:H1; [|discriminate].
  injection Hpre' as ->.
  destruct (step_appends e0 s e_k H1) as (x & Hx & Hc & Hp & _ & Hpv).
  destruct (run_appends _ _ _ H0) as (before & Hb & Hblen). simpl in Hb.
  destruct (run_appends _ _ _ Hrun) as (after & Ha & _).
  (* the k-th snapshot of the final list is the one this step appended *)
  assert (Hsn : snap =
                mkSnapshot (sg_date s) (current_value x s) (cash x)
                           (length (positions x))).
  { rewrite Ha, Hpv, Hb in Hsnap.
    rewrite <- app_assoc in Hsnap.
    rewrite nth_error_app2 in Hsnap by (rewrite Hblen, length_firstn; lia).
    rewrite Hblen, length_firstn in Hsnap.
    replace (k - Nat.min k (length signals))%nat with 0%nat in Hsnap by lia.
    simpl in Hsnap. congruence. }
  subst snap. simpl. rewrite Hc, Hp.
  split; [reflexivity|]. split; [reflexivity|]. split; [reflexivity|].
  apply current_value_all_lots.
  rewrite <- Hp.
  apply (run_lots_upto (sg_date s) (firstn (S k) signals)) with (e := reset initial).
  - apply sorted_prefix_upto; assumption.
  - constructor.
  - exact Hpre.
Qed.

(** ** Performance summary *)

Lemma py_div_defined (a b : Q) : ~ b == 0 -> py_div a b = Some (a / b).
Proof.
  intro H. unfold py_div. apply is_zero_false in H. rewrite H. reflexivity.
Qed.

Lemma drawdown_defined (l : list Snapshot) :
  forall peak mdd, 0 < peak ->
  exists peak' mdd', fold_left drawdown_step l (Some (peak, mdd)) = Some (peak', mdd').
Proof.
  induction l as [|pv rest IH]; intros peak mdd Hpk; simpl.
  - exists peak, mdd. reflexivity.
  - set (peak1 := if Qltb peak (pv_value pv) then pv_value pv else peak).
    assert (H1 : 0 < peak1).
    { unfold peak1. destruct (Qltb peak (pv_value pv)) eqn:E; [|exact Hpk].
      apply Qltb_true in E. lra. }
    rewrite py_div_defined by lra.
    apply IH. exact H1.
Qed.

Lemma snapshot_returns_defined (rest : list Snapshot) :
  forall prev, 0 < prev -> Forall (fun pv => 0 < pv_value pv) rest ->
  exists rs, snapshot_returns prev rest = Some rs.
Proof.
  induction rest as [|pv rest' IH]; intros prev Hprev Hall; simpl.
  - exists []. reflexivity.
  - inversion Hall as [|? ? Hpv Hrest]; subst.
    rewrite py_div_defined by lra.
    destruct (IH _ Hpv Hrest) as (rs & ->).
    eexists. reflexivity.
Qed.

Lemma filter_filter_length {A : Type} (f g : A -> bool) (l : list A) :
  length (filter g (filter f l)) = length (filter (fun x => f x && g x) l).
Proof.
  induction l as [|a rest IH]; simpl.
  - reflexivity.
  - destruct (f a); simpl; [destruct (g a); simpl; rewrite IH; reflexivity | exact IH].
Qed.

Lemma win_rate_of_counts (ts : list Trade) :
  win_rate_of ts =
  if (count_sells ts =? 0)%nat then 0
  else Qnat (count_winning_sells ts) / Qnat (count_sells ts) * 100.
Proof.
  unfold win_rate_of, count_sells, count_winning_sells, profitable_list, sell_list.
  rewrite filter_filter_length.
  destruct (filter (fun t => is_sell (t_action t)) ts); reflexivity.
Qed.

Lemma run_initial_cash (l : list Signal) :
  forall e e', run_signals e l = Some e' -> initial_cash e' = initial_cash e.
Proof.
  induction l as [|s rest IH]; intros e e'; simpl.
  - intro H. injection H as <-. reflexivity.
  - destruct (step e s) as [e1|] eqn:H1; [|discriminate]. intro H2.
    rewrite (IH _ _ H2).
    destruct (step_snapshot e s e1 H1) as (x & Hx & ->).
    destruct (execute_static e s x Hx) as [_ A]. exact A.
Qed.

(** A ledger with positive initial cash and positive snapshot values gets a
    report as soon as the power of the annual return is delivered. *)
Lemma calculate_performance_defined (float_pow : Q -> Q -> option Q) (e : Engine) :
  0 < initial_cash e ->
  Forall (fun pv => 0 < pv_value pv) (portfolio_value e) ->
  portfolio_value e <> [] ->
  annual_return_pct float_pow (initial_cash e)
    (last (map pv_value (portfolio_value e)) 0) (portfolio_value e) <> None ->
  exists p, calculate_performance float_pow e = perf_report p.
Proof.
  intros Hi Hall Hne Har. unfold calculate_performance.
  destruct (portfolio_value e) as [|first others] eqn:Hpv; [contradiction|].
  rewrite py_div_defined by lra.
  assert (Hlast : pv_value (last (first :: others) first)
                  = last (map pv_value (first :: others)) 0).
  { clear. generalize first at 1 3. induction others as [|x xs IH]; intro a.
    - reflexivity.
    - change (last (a :: x :: xs) first) with (last (x :: xs) first).
      change (last (map pv_value (a :: x :: xs)) 0)
        with (last (map pv_value (x :: xs)) 0).
      destruct xs as [|y ys]; [reflexivity|].
      apply (IH x). }
  rewrite Hlast.
  destruct (annual_return_pct float_pow (initial_cash e) _ (first :: others))
    as [ar|]; [|contradiction].
  destruct (drawdown_defined (first :: others) (initial_cash e) 0 Hi)
    as (pk & mdd & ->).
  inversion Hall as [|? ? Hf Ho]; subst.
  destruct (snapshot_returns_defined others (pv_value first) Hf Ho) as (rs & ->).
  eexists. reflexivity.
Qed.

(** The win rate of a report is the one of the trade log. *)
Lemma report_win_rate (float_pow : Q -> Q -> option Q) (e : Engine) (p : Performance) :
  calculate_performance float_pow e = perf_report p ->
  win_rate p = win_rate_of (trades e)
  /\ sell_trades p = count_sells (trades e).
Proof.
  unfold calculate_performance.
  destruct (portfolio_value e) as [|first others]; [discriminate|].
  destruct (py_div _ _); [|discriminate].
  destruct (annual_return_pct _ _ _ _); [|discriminate].
  destruct (fold_left drawdown_step _ _) as [[pk mdd]|]; [|discriminate].
  destruct (snapshot_returns _ _); [|discriminate].
  intro H. injection H as <-. split; reflexivity.
Qed.

(** C7, as amended.  For every completed simulation - the ledger loop has
    returned and so has the performance computation, whatever the float
    power delivers - the result is empty exactly when no snapshot was
    recorded (no signal was processed), and otherwise the reported win_rate
    is the percentage 100 * count(sell trades with realized profit > 0) /
    count(sell trades), and 0 when there are no sell trades.  A report does
    exist whenever a snapshot was recorded, the initial cash and all
    snapshot values are positive and the power of the annual return is
    delivered. *)
Theorem win_rate_is_percentage (float_pow : Q -> Q -> option Q)
        (initial : Q) (signals : list Signal) (e : Engine) :
  backtest_signals initial signals = Some e ->
  (calculate_performance float_pow e = perf_empty <-> signals = [])
  /\ (portfolio_value e = [] <-> signals = [])
  /\ (forall p,
        calculate_performance float_pow e = perf_report p ->
        signals <> []
        /\ sell_trades p = count_sells (trades e)
        /\ (count_sells (trades e) = 0%nat -> win_rate p = 0)
        /\ ((0 < count_sells (trades e))%nat ->
            win_rate p ==
            100 * (Qnat (count_winning_sells (trades e)) / Qnat (count_sells (trades e)))))
  /\ (signals <> [] -> 0 < initial ->
      Forall (fun pv => 0 < pv_value pv) (portfolio_value e) ->
      annual_return_pct float_pow initial
        (last (map pv_value (portfolio_value e)) 0) (portfolio_value e) <> None ->
      exists p, calculate_performance float_pow e = perf_report p).
Proof.
  intro Hrun. unfold backtest_signals in Hrun.
  destruct (run_appends signals (reset initial) e Hrun) as (new & Hpv & Hlen).
  pose proof (run_initial_cash signals (reset initial) e Hrun) as Hinit.
  simpl in Hpv, Hinit.
  assert (Hsnap : portfolio_value e = [] <-> signals = []).
  { rewrite Hpv. split; intro H.
    - destruct signals; [reflexivity|]. rewrite H in Hlen. discriminate.
    - rewrite H in Hlen. destruct new; [reflexivity | discriminate]. }
  assert (Hempty : calculate_performance float_pow e = perf_empty
                   <-> portfolio_value e = []).
  { unfold calculate_performance.
    destruct (portfolio_value e) as [|first others].
    - split; reflexivity.
    - split; [|discriminate].
      destruct (py_div _ _); [|discriminate].
      destruct (annual_return_pct _ _ _ _); [|discriminate].
      destruct (fold_left drawdown_step _ _) as [[pk mdd]|]; [|discriminate].
      destruct (snapshot_returns _ _); discriminate. }
  split; [rewrite Hempty; exact Hsnap|]. split; [exact Hsnap|]. split.
  - intros p Hrep.
    destruct (report_win_rate float_pow e p Hrep) as [Hw Hs].
    split.
    { intro E. apply Hsnap in E. unfold calculate_performance in Hrep.
      rewrite E in Hrep. discriminate. }
    split; [exact Hs|].
    rewrite Hw, win_rate_of_counts.
    split.
    + intros ->. reflexivity.
    + intro Hpos. destruct (count_sells (trades e)) as [|n] eqn:E; [lia|].
      simpl. unfold Qdiv. ring.
  - intros Hne Hi Hall Har.
    apply calculate_performance_defined; try assumption.
    + rewrite Hinit. exact Hi.
    + rewrite Hsnap. exact Hne.
    + rewrite Hinit. exact Har.
Qed.

(** C7 as stated fails: after one BUY and one profitable SELL a year later
    the reported win_rate is 100, not the ratio 1/1. *)
Lemma win_rate_not_a_ratio :
  ~ (forall float_pow e p,
       backtest_signals 1000
         [mkSignal 1 BUY 10 reason_buy 1;
          mkSignal 366 SELL 15 reason_take_profit 1] = Some e ->
       calculate_performance float_pow e = perf_report p ->
       win_rate p ==
       Qnat (count_winning_sells (trades e)) / Qnat (count_sells (trades e))).
Proof.
  intro H.
  specialize (H (fun x _ => Some x) _ _ eq_refl eq_refl).
  vm_compute in H. discriminate.
Qed.

(** ** Columns: lengths, rows and prefixes *)

Lemma zip_with_length {A B C : Type} (f : A -> B -> C) (xs : list A) (ys : list B) :
  length (zip_with f xs ys) = Nat.min (length xs) (length ys).
Proof.
  unfold zip_with. rewrite length_map. apply length_combine.
Qed.

Lemma nth_zip_with {A B C : Type} (f : A -> B -> C)
      (xs : list A) (ys : list B) (i : nat) (d : C) (dx : A) (dy : B) :
  (i < length xs)%nat -> (i < length ys)%nat ->
  nth i (zip_with f xs ys) d = f (nth i xs dx) (nth i ys dy).
Proof.
  revert ys i. induction xs as [|x xs' IH]; intros ys i Hx Hy; simpl in *.
  - lia.
  - destruct ys as [|y ys']; simpl in *; [lia|].
    destruct i as [|i']; [reflexivity|].
    apply IH; lia.
Qed.

Lemma firstn_zip_with {A B C : Type} (f : A -> B -> C)
      (xs : list A) (ys : list B) (n : nat) :
  firstn n (zip_with f xs ys) = zip_with f (firstn n xs) (firstn n ys).
Proof.
  unfold zip_with. rewrite firstn_map, combine_firstn. reflexivity.
Qed.

Lemma shift1_length (xs : list Q) : length (shift1 xs) = length xs.
Proof.
  unfold shift1. rewrite length_firstn. simpl. rewrite length_map. lia.
Qed.

Lemma firstn_cons_prefix {A : Type} (a : A) (ys : list A) (m n : nat) :
  (m <= S n)%nat -> firstn m (a :: firstn n ys) = firstn m (a :: ys).
Proof.
  intro H. destruct m as [|m']; [reflexivity|].
  simpl. f_equal. rewrite firstn_firstn. f_equal. lia.
Qed.

Lemma shift1_firstn (xs : list Q) (n : nat) :
  firstn n (shift1 xs) = shift1 (firstn n xs).
Proof.
  unfold shift1. rewrite firstn_firstn, length_firstn, <- firstn_map.
  rewrite firstn_cons_prefix by lia. reflexivity.
Qed.

Lemma ewm_from_length (alpha : Q) (xs : list Q) :
  forall prev, length (ewm_from alpha prev xs) = length xs.
Proof.
  induction xs as [|x rest IH]; intro prev; simpl; [reflexivity|].
  rewrite IH. reflexivity.
Qed.

Lemma ewm_mean_length (span : nat) (xs : list Q) :
  length (ewm_mean span xs) = length xs.
Proof.
  destruct xs as [|x rest]; simpl; [reflexivity|].
  rewrite ewm_from_length. reflexivity.
Qed.

Lemma ewm_from_firstn (alpha : Q) (xs : list Q) :
  forall prev n,
    firstn n (ewm_from alpha prev xs) = ewm_from alpha prev (firstn n xs).
Proof.
  induction xs as [|x rest IH]; intros prev n.
  - destruct n; reflexivity.
  - destruct n as [|n']; [reflexivity|].
    simpl. rewrite IH. reflexivity.
Qed.

Lemma ewm_mean_firstn (span : nat) (xs : list Q) (n : nat) :
  firstn n (ewm_mean span xs) = ewm_mean span (firstn n xs).
Proof.
  destruct xs as [|x rest].
  - destruct n; reflexivity.
  - destruct n as [|n']; [reflexivity|].
    simpl. rewrite ewm_from_firstn. reflexivity.
Qed.


Lemma rolling_from_firstn (w : nat) (agg : list Q -> fval) (xs : list fval) :
  forall hist n,
    firstn n (rolling_from w agg hist xs) = rolling_from w agg hist (firstn n xs).
Proof.
  induction xs as [|x rest IH]; intros hist n.
  - destruct n; reflexivity.
  - destruct n as [|n']; [reflexivity|].
    simpl. rewrite IH. reflexivity.
Qed.

Lemma rolling_firstn (w : nat) (agg : list Q -> fval) (xs : list fval) (n : nat) :
  firstn n (rolling w agg xs) = rolling w agg (firstn n xs).
Proof. apply rolling_from_firstn. Qed.

Lemma compute_atr_firstn (df : list Bar) (window n : nat) :
  firstn n (_compute_atr df window) = _compute_atr (firstn n df) window.
Proof.
  unfold _compute_atr.
  rewrite ewm_mean_firstn, firstn_zip_with, shift1_firstn, firstn_map.
  reflexivity.
Qed.

Lemma compute_atr_length (df : list Bar) (window : nat) :
  length (_compute_atr df window) = length df.
Proof.
  unfold _compute_atr.
  rewrite ewm_mean_length, zip_with_length, shift1_length, length_map. lia.
Qed.

(** Each indicator pass on a truncated frame gives the truncated columns. *)
Lemma volume_cols_firstn (cfg : Config) (df : list Bar) (n : nat) :
  let v := calculate_volume_indicators cfg df in
  let v' := calculate_volume_indicators cfg (firstn n df) in
  atr v' = firstn n (atr v)
  /\ atr_pct v' = firstn n (atr_pct v)
  /\ atr_pct_median v' = firstn n (atr_pct_median v)
  /\ atr_filter_ratio v' = firstn n (atr_filter_ratio v)
  /\ volatility_regime v' = firstn n (volatility_regime v).
Proof.
  simpl. unfold fin_col.
  repeat rewrite ?firstn_map, ?firstn_zip_with, ?rolling_firstn, ?compute_atr_firstn.
  repeat split; reflexivity.
Qed.

Lemma tech_cols_firstn (cfg : Config) (df : list Bar) (n : nat) :
  let t := calculate_technical_indicators cfg df in
  let t' := calculate_technical_indicators cfg (firstn n df) in
  fast_ma t' = firstn n (fast_ma t)
  /\ slow_ma t' = firstn n (slow_ma t)
  /\ donchian_high t' = firstn n (donchian_high t)
  /\ donchian_low t' = firstn n (donchian_low t)
  /\ price_vs_fast_ma t' = firstn n (price_vs_fast_ma t)
  /\ price_vs_slow_ma t' = firstn n (price_vs_slow_ma t).
Proof.
  simpl. unfold fin_col.
  repeat rewrite ?firstn_map, ?firstn_zip_with, ?rolling_firstn.
  repeat split; reflexivity.
Qed.

Lemma momentum_cols_firstn (cfg : Config) (df : list Bar) (n : nat) :
  let m := calculate_momentum_indicators df (calculate_technical_indicators cfg df) in
  let m' := calculate_momentum_indicators (firstn n df)
              (calculate_technical_indicators cfg (firstn n df)) in
  trend_strength m' = firstn n (trend_strength m)
  /\ trend_strength_pct m' = firstn n (trend_strength_pct m)
  /\ trend_state m' = firstn n (trend_state m)
  /\ breakout_strength m' = firstn n (breakout_strength m).
Proof.
  simpl. unfold fin_col.
  repeat rewrite ?firstn_map, ?firstn_zip_with, ?rolling_firstn.
  repeat split; reflexivity.
Qed.

Lemma risk_cols_firstn (cfg : Config) (df : list Bar) (n : nat) :
  let r := calculate_risk_indicators cfg df (calculate_volume_indicators cfg df) in
  let r' := calculate_risk_indicators cfg (firstn n df)
              (calculate_volume_indicators cfg (firstn n df)) in
  dynamic_stop_loss r' = firstn n (dynamic_stop_loss r)
  /\ take_profit_price r' = firstn n (take_profit_price r)
  /\ risk_reward_ratio r' = firstn n (risk_reward_ratio r)
  /\ price_vs_stop_distance r' = firstn n (price_vs_stop_distance r).
Proof.
  simpl. unfold fin_col.
  repeat rewrite ?firstn_map, ?firstn_zip_with, ?compute_atr_firstn.
  repeat split; reflexivity.
Qed.

Lemma nth_firstn_lt {A : Type} (l : list A) (n i : nat) (d : A) :
  (i < n)%nat -> nth i (firstn n l) d = nth i l d.
Proof.
  intro H. rewrite nth_firstn.
  destruct (i <? n)%nat eqn:E; [reflexivity|].
  apply Nat.ltb_ge in E. lia.
Qed.

(** C8.  Every indicator value of day [t] (ATR, ATR percentage, its rolling
    median and their ratio, volatility regime, fast and slow moving
    averages, Donchian high and low, trend strength and state, and the risk
    columns) is the same on the full input and on the input truncated to its
    first [n] bars, for every truncation point [n > t]: bars after day [t]
    do not influence row [t]. *)
Theorem no_lookahead (cfg : Config) (df : list Bar) (n t : nat) :
  (t < n)%nat ->
  iloc (indicators cfg (firstn n df)) t = iloc (indicators cfg df) t.
Proof.
  intro Ht.
  destruct (volume_cols_firstn cfg df n) as (V1 & V2 & V3 & V4 & V5).
  destruct (tech_cols_firstn cfg df n) as (T1 & T2 & T3 & T4 & T5 & T6).
  destruct (momentum_cols_firstn cfg df n) as (M1 & M2 & M3 & M4).
  destruct (risk_cols_firstn cfg df n) as (R1 & R2 & R3 & R4).
  unfold iloc, indicators. cbv [df_bars df_vol df_tech df_mom df_risk].
  rewrite V1, V2, V3, V4, V5, T1, T2, T3, T4, T5, T6, M1, M2, M3, M4, R1, R2, R3, R4.
  rewrite <- firstn_map.
  rewrite !(nth_firstn_lt _ n t) by exact Ht.
  reflexivity.
Qed.

(** ** Rows of the indicator frame *)

Lemma nth_fin_col (l : list Q) (i : nat) :
  (i < length l)%nat -> nth i (fin_col l) NaN = Fin (nth i l 0).
Proof.
  intro H. unfold fin_col.
  rewrite (nth_indep (map Fin l) NaN (Fin 0)) by (rewrite length_map; exact H).
  apply map_nth.
Qed.

Ltac col_length :=
  unfold fin_col;
  repeat rewrite ?length_map, ?zip_with_length, ?compute_atr_length,
                 ?shift1_length, ?ewm_mean_length;
  lia.

(** The risk columns of a row, in terms of its close and ATR. *)
Lemma risk_row (cfg : Config) (df : list Bar) (i : nat) :
  (i < length df)%nat ->
  let row := iloc (indicators cfg df) i in
  r_dynamic_stop_loss row = r_close row - atr_multiple_stop cfg * r_atr row
  /\ r_take_profit_price row =
     r_close row + take_profit_multiple * atr_multiple_stop cfg * r_atr row
  /\ r_risk_reward_ratio row =
     fdiv (Fin (r_take_profit_price row - r_close row))
          (Fin (r_close row - r_dynamic_stop_loss row)).
Proof.
  intro Hi. unfold iloc, indicators.
  cbv [df_bars df_vol df_tech df_mom df_risk r_dynamic_stop_loss r_take_profit_price
       r_risk_reward_ratio r_close r_atr].
  unfold calculate_risk_indicators, calculate_volume_indicators.
  cbv [dynamic_stop_loss take_profit_price risk_reward_ratio atr].
  split; [|split].
  - rewrite (nth_zip_with (fun c a => c - atr_multiple_stop cfg * a) _ _ i 0 0 0)
      by col_length.
    reflexivity.
  - rewrite (nth_zip_with
               (fun c a => c + take_profit_multiple * atr_multiple_stop cfg * a)
               _ _ i 0 0 0) by col_length.
    reflexivity.
  - rewrite (nth_zip_with fdiv _ _ i NaN NaN NaN) by col_length.
    rewrite !nth_fin_col by col_length.
    rewrite !(nth_zip_with Qminus _ _ i 0 0 0) by col_length.
    reflexivity.
Qed.

Lemma generate_signals_length (cfg : Config) (df : list Bar) :
  length (generate_signals cfg df) = length df.
Proof.
  unfold generate_signals. rewrite length_map, length_seq. reflexivity.
Qed.

Lemma generate_signals_nth (cfg : Config) (df : list Bar) (i : nat) :
  (i < length df)%nat ->
  nth_error (generate_signals cfg df) i = Some (signal_at cfg (indicators cfg df) i).
Proof.
  intro Hi. unfold generate_signals.
  rewrite nth_error_map, nth_error_seq.
  apply Nat.ltb_lt in Hi. rewrite Hi. reflexivity.
Qed.

(** ** The decision rules *)

(** C5.  For every valid configuration (an ATR window of at least 1) the
    engine emits one record per day, holding exactly one action from
    {BUY, SELL, ADD, HOLD}.  Every day with index below
    max(slow_ma_window, vol_lookback_for_filter) keeps the initial HOLD
    record, whatever its indicators.  From that index on the action is the
    first match of the checks in the order BUY, SELL, ADD:
    - BUY exactly when fast_ma > slow_ma, close > fast_ma,
      vol_min_pct <= atr_filter_ratio <= vol_max_pct and
      risk_reward_ratio > 1.5;
    - SELL exactly when that fails and close < dynamic_stop_loss, or
      close < donchian_low, or close > take_profit_price, or
      trend_strength < -0.02;
    - ADD exactly when both fail and trend_strength > 0.02 * 1.5 and
      atr_filter_ratio > vol_expand_multiple_for_add;
    - HOLD exactly when all three fail. *)
Theorem one_action_first_match (cfg : Config) (df : list Bar) (i : nat) :
  (1 <= atr_window cfg)%nat ->
  (i < length df)%nat ->
  length (generate_signals cfg df) = length df
  /\ exists r,
       nth_error (generate_signals cfg df) i = Some r
       /\ let row := iloc (indicators cfg df) i in
          let lookback := Nat.max (slow_ma_window cfg) (vol_lookback_for_filter cfg) in
          let buy :=
            fgt (r_fast_ma row) (r_slow_ma row)
            && fgt (Fin (r_close row)) (r_fast_ma row)
            && (fle (Fin (vol_min_pct cfg)) (r_atr_filter_ratio row)
                && fle (r_atr_filter_ratio row) (Fin (vol_max_pct cfg)))
            && fgt (r_risk_reward_ratio row) (Fin (15 # 10)) in
          let sell :=
            Qltb (r_close row) (r_dynamic_stop_loss row)
            || flt (Fin (r_close row)) (r_donchian_low row)
            || Qltb (r_take_profit_price row) (r_close row)
            || flt (r_trend_strength row) (Fin (- (2 # 100))) in
          let add :=
            fgt (r_trend_strength row) (Fin ((2 # 100) * (15 # 10)))
            && fgt (r_atr_filter_ratio row) (Fin (vol_expand_multiple_for_add cfg)) in
          ((i < lookback)%nat -> r = hold_record)
          /\ ((lookback <= i)%nat ->
              (signal r = BUY <-> buy = true)
              /\ (signal r = SELL <-> buy = false /\ sell = true)
              /\ (signal r = ADD <-> buy = false /\ sell = false /\ add = true)
              /\ (signal r = HOLD <-> buy = false /\ sell = false /\ add = false)).
Proof.
  intros _ Hi. split; [apply generate_signals_length|].
  exists (signal_at cfg (indicators cfg df) i).
  split; [apply generate_signals_nth; exact Hi|].
  cbv zeta. unfold signal_at, min_lookback.
  destruct (i <? Nat.max (slow_ma_window cfg) (vol_lookback_for_filter cfg))%nat eqn:Hlt.
  - apply Nat.ltb_lt in Hlt. split; [reflexivity | intro; lia].
  - apply Nat.ltb_ge in Hlt. split; [intro; lia|]. intros _.
    unfold decide, buy_condition, sell_condition, add_condition,
      ma_condition, trend_condition, vol_condition, risk_reward_ok,
      below_stop, break_low, above_take_profit, trend_reversal,
      trend_strength_threshold.
    set (row := iloc (indicators cfg df) i).
    set (buy := (_ && _ && _ && _)%bool).
    set (sell := (_ || _ || _ || _)%bool).
    set (add := (fgt (r_trend_strength row) _ && _)%bool).
    destruct buy; [|destruct sell; [|destruct add]]; simpl;
      repeat split; try discriminate; try reflexivity;
        intro H; try discriminate; try reflexivity;
          destruct H as (H1 & H2); try discriminate;
            try (destruct H2; discriminate).
Qed.

(** ** ATR sign and the risk/reward ratio *)

(** The smoothing of a span of at least 1 is a convex combination. *)
Section AtrSign.

Variable span : nat.
Hypothesis span_ok : (1 <= span)%nat.

Lemma ewm_alpha_range : 0 < ewm_alpha span /\ ewm_alpha span <= 1.
Proof.
  unfold ewm_alpha.
  assert (Hz : 1 <= inject_Z (Z.of_nat span)).
  { unfold Qle, inject_Z. simpl. lia. }
  split.
  - apply Qlt_shift_div_l; lra.
  - apply Qle_shift_div_r; lra.
Qed.

Lemma ewm_from_nonneg (xs : list Q) :
  Forall (fun x => 0 <= x) xs ->
  forall prev, 0 <= prev ->
               Forall (fun y => 0 <= y) (ewm_from (ewm_alpha span) prev xs).
Proof.
  destruct ewm_alpha_range as [Ha0 Ha1].
  intros Hxs. induction Hxs as [|x rest Hx Hrest IH]; intros prev Hprev; simpl.
  - constructor.
  - assert (Hy : 0 <= (1 - ewm_alpha span) * prev + ewm_alpha span * x).
    { assert (0 <= (1 - ewm_alpha span) * prev) by (apply Qmult_le_0_compat; lra).
      assert (0 <= ewm_alpha span * x) by (apply Qmult_le_0_compat; lra).
      lra. }
    constructor; [exact Hy | apply IH; exact Hy].
Qed.

Lemma ewm_mean_nonneg (xs : list Q) :
  Forall (fun x => 0 <= x) xs -> Forall (fun y => 0 <= y) (ewm_mean span xs).
Proof.
  intros Hxs. destruct Hxs as [|x rest Hx Hrest]; simpl.
  - constructor.
  - constructor; [exact Hx|].
    apply ewm_from_nonneg; assumption.
Qed.

End AtrSign.

Lemma true_range_nonneg (b : Bar) (pc : option Q) :
  low b <= high b -> 0 <= true_range b pc.
Proof.
  intro H. unfold true_range. destruct pc as [c|].
  - eapply Qle_trans; [|apply Q.le_max_l]. lra.
  - lra.
Qed.

Lemma zip_with_Forall {A B C : Type} (P : A -> Prop) (R : C -> Prop)
      (f : A -> B -> C) (xs : list A) (ys : list B) :
  (forall a b, P a -> R (f a b)) ->
  Forall P xs -> Forall R (zip_with f xs ys).
Proof.
  intros Hf Hxs. revert ys.
  induction Hxs as [|x rest Hx Hrest IH]; intros ys.
  - constructor.
  - destruct ys as [|y ys']; [constructor|].
    unfold zip_with. simpl. constructor; [apply Hf; exact Hx | apply IH].
Qed.

Lemma compute_atr_nonneg (df : list Bar) (window : nat) :
  (1 <= window)%nat ->
  Forall (fun b => low b <= high b) df ->
  Forall (fun a => 0 <= a) (_compute_atr df window).
Proof.
  intros Hw Hdf. unfold _compute_atr.
  apply ewm_mean_nonneg; [exact Hw|].
  apply zip_with_Forall with (P := fun b => low b <= high b); [|exact Hdf].
  intros b pc Hb. apply true_range_nonneg. exact Hb.
Qed.

Lemma row_atr_nonneg (cfg : Config) (df : list Bar) (i : nat) :
  (1 <= atr_window cfg)%nat ->
  Forall (fun b => low b <= high b) df ->
  0 <= r_atr (iloc (indicators cfg df) i).
Proof.
  intros Hw Hdf. simpl.
  pose proof (compute_atr_nonneg df (atr_window cfg) Hw Hdf) as H.
  rewrite Forall_forall in H.
  destruct (Nat.lt_ge_cases i (length (_compute_atr df (atr_window cfg)))) as [Hi|Hi].
  - apply H. apply nth_In. exact Hi.
  - rewrite nth_overflow by exact Hi. apply Qle_refl.
Qed.

(** C9.  With an ATR window of at least 1 and a non-negative stop multiple
    (the defaults are 14 and 3.0), on every input whose bars satisfy
    high >= low: the ATR of every row is non-negative; the SELL
    subconditions [close < dynamic_stop_loss] and
    [close > take_profit_price] are false on every row; so no signal ever
    carries the stop-loss or the take-profit reason, and a SELL is emitted
    only on a Donchian-low break or a trend reversal, with that reason. *)
Theorem sell_only_on_break_or_reversal (cfg : Config) (df : list Bar) (i : nat) :
  (1 <= atr_window cfg)%nat ->
  0 <= atr_multiple_stop cfg ->
  Forall (fun b => low b <= high b) df ->
  (i < length df)%nat ->
  let row := iloc (indicators cfg df) i in
  0 <= r_atr row
  /\ below_stop row = false
  /\ above_take_profit row = false
  /\ exists r,
       nth_error (generate_signals cfg df) i = Some r
       /\ signal_reason r <> reason_stop_loss
       /\ signal_reason r <> reason_take_profit
       /\ (signal r = SELL ->
           (break_low row = true /\ signal_reason r = reason_break_low)
           \/ (break_low row = false /\ trend_reversal row = true
               /\ signal_reason r = reason_trend_reversal)).
Proof.
  intros Hw Hm Hdf Hi row.
  pose proof (row_atr_nonneg cfg df i Hw Hdf) as Ha. fold row in Ha.
  destruct (risk_row cfg df i Hi) as (Hsl & Htp & _). fold row in Hsl, Htp.
  assert (Hprod : 0 <= atr_multiple_stop cfg * r_atr row)
    by (apply Qmult_le_0_compat; assumption).
  assert (Hbs : below_stop row = false).
  { unfold below_stop. apply Qltb_false. rewrite Hsl. lra. }
  assert (Htk : above_take_profit row = false).
  { unfold above_take_profit. apply Qltb_false. rewrite Htp.
    unfold take_profit_multiple. lra. }
  split; [exact Ha|]. split; [exact Hbs|]. split; [exact Htk|].
  exists (signal_at cfg (indicators cfg df) i).
  split; [apply generate_signals_nth; exact Hi|].
  unfold signal_at. fold row.
  destruct (i <? min_lookback cfg)%nat.
  - simpl. repeat split; discriminate.
  - unfold decide.
    destruct (buy_condition cfg row).
    + simpl. repeat split; discriminate.
    + destruct (sell_condition row) eqn:Hsell.
      * simpl. unfold sell_reason. unfold sell_condition in Hsell.
        rewrite Hbs, Htk in *. simpl in Hsell.
        destruct (break_low row) eqn:Hbl.
        -- repeat split; try discriminate. intros _. left. split; reflexivity.
        -- simpl in Hsell. repeat split; try discriminate.
           intros _. right. repeat split. exact Hsell.
      * destruct (add_condition cfg row); simpl; repeat split; discriminate.
Qed.

(** *** The ratio in binary64 *)

Lemma SFmul_degenerate (x y : spec_float) :
  Binary64.zero_or_nan y = true -> Binary64.zero_or_nan (SF64mul x y) = true.
Proof. destruct x, y; try discriminate; reflexivity. Qed.

(** [x - x] is a zero, or [nan] when [x] is not finite. *)
Lemma SFsub_self (x : spec_float) : Binary64.zero_or_nan (SF64sub x x) = true.
Proof.
  destruct x as [sx|sx| |sx mx ex]; try (destruct sx; reflexivity); [reflexivity|].
  unfold SF64sub, SFsub.
  match goal with
  | |- context [binary_normalize _ _ ?z _ _] =>
      assert (Hz : z = 0%Z) by apply Z.sub_diag; rewrite Hz
  end.
  reflexivity.
Qed.

(** [c - (c - y)] and [(c + y) - c] for a [y] that is a zero or [nan]. *)
Lemma stop_distance_degenerate (c y : spec_float) :
  Binary64.zero_or_nan y = true ->
  Binary64.zero_or_nan (SF64sub c (SF64sub c y)) = true.
Proof.
  intro Hy. destruct y as [sy|sy| |sy my ey]; try discriminate.
  - destruct c as [sc|sc| |sc mc ec].
    + destruct sc, sy; reflexivity.
    + destruct sc; reflexivity.
    + reflexivity.
    + change (SF64sub (S754_finite sc mc ec) (S754_zero sy))
        with (S754_finite sc mc ec).
      apply SFsub_self.
  - destruct c; reflexivity.
Qed.

Lemma target_distance_degenerate (c y : spec_float) :
  Binary64.zero_or_nan y = true ->
  Binary64.zero_or_nan (SF64sub (SF64add c y) c) = true.
Proof.
  intro Hy. destruct y as [sy|sy| |sy my ey]; try discriminate.
  - destruct c as [sc|sc| |sc mc ec].
    + destruct sc, sy; reflexivity.
    + destruct sc; reflexivity.
    + reflexivity.
    + change (SF64add (S754_finite sc mc ec) (S754_zero sy))
        with (S754_finite sc mc ec).
      apply SFsub_self.
  - destruct c; reflexivity.
Qed.

Lemma SFdiv_degenerate (x y : spec_float) :
  Binary64.zero_or_nan x = true -> Binary64.zero_or_nan y = true ->
  SF64div x y = S754_nan.
Proof. destruct x, y; try discriminate; reflexivity. Qed.

Lemma SFeqb_refl_finite (sx : bool) (mx : positive) (ex : Z) :
  SFeqb (S754_finite sx mx ex) (S754_finite sx mx ex) = true.
Proof.
  unfold SFeqb, SFcompare.
  change (IntDef.Z.compare ex ex) with (Z.compare ex ex).
  change (PosDef.Pos.compare_cont Eq mx mx) with (Pos.compare_cont Eq mx mx).
  rewrite Z.compare_refl, Pos.compare_cont_refl.
  destruct sx; reflexivity.
Qed.

Lemma atr_degenerate (a : float) :
  (a =? 0)%float = true \/ is_nan a = true ->
  Binary64.zero_or_nan (Prim2SF a) = true.
Proof.
  unfold is_nan. rewrite !FloatAxioms.eqb_spec.
  change (Prim2SF 0) with (S754_zero false).
  destruct (Prim2SF a) as [sa|sa| |sa ma ea]; try reflexivity.
  - destruct sa; intros [H|H]; discriminate.
  - intros [H|H].
    + destruct sa; discriminate.
    + rewrite SFeqb_refl_finite in H. discriminate.
Qed.

(** Without an ATR there is no ratio, in binary64 as in exact arithmetic:
    whatever the close and the stop multiple, an ATR that is zero or [nan]
    gives the ratio [nan], which fails the check. *)
Lemma binary64_no_atr_no_ratio (m c a : float) :
  (a =? 0)%float = true \/ is_nan a = true ->
  is_nan (Binary64.risk_reward_ratio m c a) = true
  /\ Binary64.risk_reward_ok (Binary64.risk_reward_ratio m c a) = false.
Proof.
  intro Ha. apply atr_degenerate in Ha.
  assert (Hrr : Prim2SF (Binary64.risk_reward_ratio m c a) = S754_nan).
  { unfold Binary64.risk_reward_ratio, Binary64.take_profit_price,
      Binary64.dynamic_stop_loss.
    rewrite div_spec, !sub_spec, add_spec, !mul_spec.
    apply SFdiv_degenerate.
    - apply target_distance_degenerate. apply SFmul_degenerate. exact Ha.
    - apply stop_distance_degenerate. apply SFmul_degenerate. exact Ha. }
  unfold Binary64.risk_reward_ok, is_nan.
  rewrite FloatAxioms.eqb_spec, ltb_spec, Hrr.
  split; [reflexivity|].
  unfold SFltb, SFcompare. destruct (Prim2SF 1.5); reflexivity.
Qed.

(** C10, as amended.  In exact arithmetic, with a stop multiple different
    from zero (3.0 by default), on every row with ATR > 0 the risk/reward
    ratio is a finite number equal to take_profit_multiple (2.0), whatever
    the close and the ATR, so the BUY check [risk_reward_ratio > 1.5] holds
    on that row; on a row with ATR = 0 the ratio is undefined (0/0) and the
    check fails.  In the binary64 arithmetic of the code the second half
    holds as it is - an ATR that is zero or [nan] gives [nan] for every
    close and every multiple - but the first half holds up to rounding only:
    at close 14 and ATR 32/9 the ratio is 1.9999999999999996 (the check
    still holds), and when the ATR is lost against the close the ratio is
    1.0 (ATR 3e-16 at close 10) or [nan] (ATR 2^-53), both rejected, or
    infinite (ATR 2e-16, where the stop equals the close), which passes. *)
Theorem risk_reward_two_up_to_rounding (cfg : Config) (df : list Bar) (i : nat) :
  ~ atr_multiple_stop cfg == 0 ->
  (i < length df)%nat ->
  let row := iloc (indicators cfg df) i in
  let ratio64 := Binary64.risk_reward_ratio 3%float in
  ((0 < r_atr row ->
    (exists q, r_risk_reward_ratio row = Fin q /\ q == take_profit_multiple /\ q == 2)
    /\ risk_reward_ok row = true)
   /\ (r_atr row == 0 ->
       r_risk_reward_ratio row = NaN /\ risk_reward_ok row = false))
  /\ (forall m c a : float,
        (a =? 0)%float = true \/ is_nan a = true ->
        is_nan (Binary64.risk_reward_ratio m c a) = true
        /\ Binary64.risk_reward_ok (Binary64.risk_reward_ratio m c a) = false)
  /\ ((0 <? Samples.atr_32_9)%float = true
      /\ ratio64 14%float Samples.atr_32_9 = 0x1.ffffffffffffep+0%float
      /\ (ratio64 14%float Samples.atr_32_9 =? 2)%float = false
      /\ Binary64.risk_reward_ok (ratio64 14%float Samples.atr_32_9) = true)
  /\ ((0 <? Samples.atr_3e_16)%float = true
      /\ ratio64 10%float Samples.atr_3e_16 = 1%float
      /\ Binary64.risk_reward_ok (ratio64 10%float Samples.atr_3e_16) = false)
  /\ ((0 <? Samples.atr_2p_53)%float = true
      /\ is_nan (ratio64 10%float Samples.atr_2p_53) = true
      /\ Binary64.risk_reward_ok (ratio64 10%float Samples.atr_2p_53) = false)
  /\ ((0 <? Samples.atr_2e_16)%float = true
      /\ Binary64.dynamic_stop_loss 3%float 10%float Samples.atr_2e_16 = 10%float
      /\ ratio64 10%float Samples.atr_2e_16 = infinity
      /\ Binary64.risk_reward_ok (ratio64 10%float Samples.atr_2e_16) = true).
Proof.
  intros Hm Hi row ratio64.
  split; [|split; [intros m c a; apply binary64_no_atr_no_ratio|
                   unfold ratio64; vm_compute; repeat split]].
  destruct (risk_row cfg df i Hi) as (Hsl & Htp & Hrr).
  fold row in Hsl, Htp, Hrr.
  set (c := r_close row) in *. set (a := r_atr row) in *.
  set (m := atr_multiple_stop cfg) in *.
  assert (Hden : r_close row - r_dynamic_stop_loss row == m * a).
  { fold c. rewrite Hsl. ring. }
  assert (Hnum : r_take_profit_price row - r_close row == 2 * (m * a)).
  { fold c. rewrite Htp. unfold take_profit_multiple. ring. }
  fold c in Hden, Hnum.
  split.
  - intro Ha.
    assert (Hma : ~ m * a == 0).
    { intro H0. apply Qmult_integral in H0. destruct H0; [contradiction | lra]. }
    assert (Hz : is_zero (c - r_dynamic_stop_loss row) = false).
    { apply is_zero_false. rewrite Hden. exact Hma. }
    assert (Hq : (r_take_profit_price row - c) / (c - r_dynamic_stop_loss row) == 2).
    { rewrite Hnum, Hden. field. split; [lra | exact Hm]. }
    unfold risk_reward_ok. rewrite Hrr. unfold fdiv. rewrite Hz.
    split.
    + eexists. split; [reflexivity|]. unfold take_profit_multiple. split; exact Hq.
    + unfold fgt, flt. apply Qltb_true. rewrite Hq. reflexivity.
  - intro Ha.
    assert (Hz : is_zero (c - r_dynamic_stop_loss row) = true).
    { apply is_zero_true. rewrite Hden, Ha. ring. }
    assert (Hz' : is_zero (r_take_profit_price row - c) = true).
    { apply is_zero_true. rewrite Hnum, Ha. ring. }
    unfold risk_reward_ok. rewrite Hrr. unfold fdiv. rewrite Hz, Hz'.
    split; reflexivity.
Qed.

(** C10 as stated fails on the code's floats: with the default multiple 3.0,
    at close 10 and ATR 3e-16 (> 0) the ratio is 1.0, not 2.0, and the
    check [risk_reward_ratio > 1.5] rejects the row. *)
Lemma risk_reward_not_two_in_binary64 :
  ~ (forall close atr : float,
       (0 <? atr)%float = true ->
       (Binary64.risk_reward_ratio 3%float close atr =? 2)%float = true
       /\ Binary64.risk_reward_ok (Binary64.risk_reward_ratio 3%float close atr) = true).
Proof.
  intro H.
  destruct (H 10%float Samples.atr_3e_16 eq_refl) as [H2 Hok].
  vm_compute in Hok. discriminate.
Qed.

(* ================================================================== *)
(** * The statements on the sample inputs *)
(* ================================================================== *)

Ltac q_closed := vm_compute; discriminate.

(** C2 on a ledger with cash 1,000,000: an ADD at 10.00 changes nothing but
    the snapshot list, while a BUY at 10.00 opens a lot of 10,000 shares. *)
Lemma add_signal_not_executed_witness :
  let e := reset 1000000 in
  (exists e',
     step e (mkSignal 0 ADD 10 reason_add 1) = Some e'
     /\ cash e' = cash e
     /\ positions e' = positions e
     /\ trades e' = trades e
     /\ portfolio_value e' =
        portfolio_value e ++
        [mkSnapshot 0 (current_value e (mkSignal 0 ADD 10 reason_add 1)) (cash e)
                    (length (positions e))])
  /\ (exists e',
        step e (mkSignal 0 BUY 10 reason_buy 1) = Some e'
        /\ (0 < py_int (py_min (cash e * (1 # 10) * 1) (cash e) / 10))%Z
        /\ positions e' =
           dict_set 0 (mkPosition (py_int (py_min (cash e * (1 # 10) * 1) (cash e) / 10))
                                  10 0) (positions e)
        /\ cash e' =
           cash e - inject_Z (py_int (py_min (cash e * (1 # 10) * 1) (cash e) / 10)) * 10
        /\ exists t,
             trades e' = trades e ++ [t]
             /\ t_action t = BUY
             /\ t_shares t = py_int (py_min (cash e * (1 # 10) * 1) (cash e) / 10)
             /\ t_price t = 10).
Proof.
  cbv zeta. split.
  - apply (add_signal_not_executed (reset 1000000) (mkSignal 0 ADD 10 reason_add 1)).
    reflexivity.
  - destruct (step (reset 1000000) (mkSignal 0 BUY 10 reason_buy 1)) as [e'|] eqn:Hstep;
      [|vm_compute in Hstep; discriminate].
    exists e'. split; [reflexivity|].
    assert (Hn : (0 < py_int (py_min (cash (reset 1000000) * (1 # 10) * 1)
                                     (cash (reset 1000000)) / 10))%Z)
      by (vm_compute; reflexivity).
    split; [exact Hn|].
    apply (add_signal_not_executed (reset 1000000) (mkSignal 0 BUY 10 reason_buy 1));
      [exact Hstep|].
    split; [reflexivity|]. split; [vm_compute; reflexivity | exact Hn].
Defined.

(** C3 on [sample_signals] from cash 1000, after the first two signals. *)
Lemma cash_never_negative_witness :
  (exists e,
     backtest_signals 1000 (firstn 2 sample_signals) = Some e
     /\ 0 <= cash e
     /\ Forall (fun pv => 0 <= pv_cash pv) (portfolio_value e))
  /\ (forall e0 s0,
        0 < sg_price s0 -> (0 < buy_shares e0 s0)%Z ->
        inject_Z (buy_shares e0 s0) * sg_price s0 <= cash e0).
Proof.
  apply (cash_never_negative 1000 sample_signals 2).
  - q_closed.
  - repeat (constructor; [vm_compute; reflexivity|]). constructor.
Defined.

(** C4 on the run over [sample_signals]: the snapshot of the ADD day. *)
Lemma snapshot_value_identity_witness :
  exists s e_k,
    nth_error sample_signals 1 = Some s
    /\ backtest_signals 1000 (firstn 2 sample_signals) = Some e_k
    /\ pv_date sample_snapshot = sg_date s
    /\ pv_cash sample_snapshot = cash e_k
    /\ pv_positions sample_snapshot = length (positions e_k)
    /\ pv_value sample_snapshot
       == cash e_k + open_lots_value (positions e_k) (sg_price s).
Proof.
  apply (snapshot_value_identity 1000 sample_signals sample_final 1 sample_snapshot).
  - unfold in_date_order. simpl. repeat (constructor; try lia).
  - vm_compute. reflexivity.
  - vm_compute. reflexivity.
Defined.

(** C5 on [sample_bars] with a volatility lookback of 5 and a slow window of
    3: row 4, below the lookback. *)
Lemma one_action_first_match_witness :
  let cfg := Samples.late_filter_config in
  length (generate_signals cfg sample_bars) = length sample_bars
  /\ exists r,
       nth_error (generate_signals cfg sample_bars) 4 = Some r
       /\ let row := iloc (indicators cfg sample_bars) 4 in
          let lookback := Nat.max (slow_ma_window cfg) (vol_lookback_for_filter cfg) in
          let buy :=
            fgt (r_fast_ma row) (r_slow_ma row)
            && fgt (Fin (r_close row)) (r_fast_ma row)
            && (fle (Fin (vol_min_pct cfg)) (r_atr_filter_ratio row)
                && fle (r_atr_filter_ratio row) (Fin (vol_max_pct cfg)))
            && fgt (r_risk_reward_ratio row) (Fin (15 # 10)) in
          let sell :=
            Qltb (r_close row) (r_dynamic_stop_loss row)
            || flt (Fin (r_close row)) (r_donchian_low row)
            || Qltb (r_take_profit_price row) (r_close row)
            || flt (r_trend_strength row) (Fin (- (2 # 100))) in
          let add :=
            fgt (r_trend_strength row) (Fin ((2 # 100) * (15 # 10)))
            && fgt (r_atr_filter_ratio row) (Fin (vol_expand_multiple_for_add cfg)) in
          ((4 < lookback)%nat -> r = hold_record)
          /\ ((lookback <= 4)%nat ->
              (signal r = BUY <-> buy = true)
              /\ (signal r = SELL <-> buy = false /\ sell = true)
              /\ (signal r = ADD <-> buy = false /\ sell = false /\ add = true)
              /\ (signal r = HOLD <-> buy = false /\ sell = false /\ add = false)).
Proof.
  apply (one_action_first_match Samples.late_filter_config sample_bars 4).
  - simpl. lia.
  - simpl. lia.
Defined.

(** C6 on [sample_bars]: five snapshots, for days 4 to 8. *)
Lemma snapshot_per_signal_day_witness :
  exists e,
    backtest_strategy sample_config 100000 sample_bars = Some e
    /\ map pv_date (portfolio_value e) =
       non_hold_dates sample_bars (generate_signals sample_config sample_bars).
Proof.
  apply (snapshot_per_signal_day sample_config 100000 sample_bars).
  repeat (constructor; [intro H; vm_compute in H; discriminate|]). constructor.
Defined.

(** C7 on the run over [Samples.year_signals]: two SELL trades, one of them
    at a profit, and a reported win_rate of 50. *)
Lemma win_rate_is_percentage_witness :
  let pw := Samples.whole_power in
  let e := Samples.year_final in
  backtest_signals 1000 Samples.year_signals = Some e
  /\ calculate_performance pw e = perf_report Samples.sample_report
  /\ win_rate Samples.sample_report == 50
  /\ (calculate_performance pw e = perf_empty <-> Samples.year_signals = [])
  /\ (portfolio_value e = [] <-> Samples.year_signals = [])
  /\ (forall p,
        calculate_performance pw e = perf_report p ->
        Samples.year_signals <> []
        /\ sell_trades p = count_sells (trades e)
        /\ (count_sells (trades e) = 0%nat -> win_rate p = 0)
        /\ ((0 < count_sells (trades e))%nat ->
            win_rate p ==
            100 * (Qnat (count_winning_sells (trades e)) / Qnat (count_sells (trades e)))))
  /\ (Samples.year_signals <> [] -> 0 < 1000 ->
      Forall (fun pv => 0 < pv_value pv) (portfolio_value e) ->
      annual_return_pct pw 1000
        (last (map pv_value (portfolio_value e)) 0) (portfolio_value e) <> None ->
      exists p, calculate_performance pw e = perf_report p).
Proof.
  cbv zeta.
  split; [vm_compute; reflexivity|].
  split; [vm_compute; reflexivity|].
  split; [vm_compute; reflexivity|].
  apply (win_rate_is_percentage Samples.whole_power 1000 Samples.year_signals
           Samples.year_final).
  vm_compute. reflexivity.
Defined.

(** C8 on [sample_bars]: row 4 with and without the bars after day 4. *)
Lemma no_lookahead_witness :
  iloc (indicators sample_config (firstn 5 sample_bars)) 4 =
  iloc (indicators sample_config sample_bars) 4.
Proof.
  apply (no_lookahead sample_config sample_bars 5 4). lia.
Defined.

(** C9 on [sample_bars]: day 7, the SELL day. *)
Lemma sell_only_on_break_or_reversal_witness :
  let row := iloc (indicators sample_config sample_bars) 7 in
  0 <= r_atr row
  /\ below_stop row = false
  /\ above_take_profit row = false
  /\ exists r,
       nth_error (generate_signals sample_config sample_bars) 7 = Some r
       /\ signal_reason r <> reason_stop_loss
       /\ signal_reason r <> reason_take_profit
       /\ (signal r = SELL ->
           (break_low row = true /\ signal_reason r = reason_break_low)
           \/ (break_low row = false /\ trend_reversal row = true
               /\ signal_reason r = reason_trend_reversal)).
Proof.
  apply (sell_only_on_break_or_reversal sample_config sample_bars 7).
  - simpl. lia.
  - q_closed.
  - repeat (constructor; [q_closed|]). constructor.
  - simpl. lia.
Defined.

(** C10 on [sample_bars]: row 5, whose ATR is 8/3, and on a flat frame,
    whose ATR is 0. *)
Lemma risk_reward_two_up_to_rounding_witness :
  (let row := iloc (indicators sample_config sample_bars) 5 in
   0 < r_atr row
   /\ (exists q, r_risk_reward_ratio row = Fin q /\ q == take_profit_multiple /\ q == 2)
   /\ risk_reward_ok row = true)
  /\ (let row := iloc (indicators sample_config
                         [bar 1 10 10 10 10; bar 2 10 10 10 10]) 1 in
      r_atr row == 0
      /\ r_risk_reward_ratio row = NaN /\ risk_reward_ok row = false).
Proof.
  assert (Hm : ~ atr_multiple_stop sample_config == 0)
    by (intro H; vm_compute in H; discriminate).
  split.
  - assert (Ha : 0 < r_atr (iloc (indicators sample_config sample_bars) 5))
      by (vm_compute; reflexivity).
    split; [exact Ha|].
    apply (risk_reward_two_up_to_rounding sample_config sample_bars 5 Hm);
      [simpl; lia | exact Ha].
  - assert (Ha : r_atr (iloc (indicators sample_config
                                 [bar 1 10 10 10 10; bar 2 10 10 10 10]) 1) == 0)
      by (vm_compute; reflexivity).
    split; [exact Ha|].
    apply (risk_reward_two_up_to_rounding sample_config
             [bar 1 10 10 10 10; bar 2 10 10 10 10] 1 Hm);
      [simpl; lia | exact Ha].
Defined.

(** ** Further checks on concrete inputs *)

(** The signals of [sample_bars]: HOLD through the lookback, three BUY days
    in the rally, an ADD on the pull-back, a SELL on the drop. *)
Example sample_bars_actions :
  map signal (generate_signals sample_config sample_bars)
  = [HOLD; HOLD; HOLD; BUY; BUY; BUY; ADD; SELL].
Proof. vm_compute. reflexivity. Qed.

(** The lookback is the larger of the two windows, not the first row with
    defined indicators: with a slow window of 3 and a volatility lookback of
    5, row 4 of [sample_bars] has every indicator defined and passes the
    four buy checks, and is HOLD all the same; row 5 is the first BUY. *)
Example hold_below_the_larger_window :
  let cfg := Samples.late_filter_config in
  buy_condition cfg (iloc (indicators cfg sample_bars) 4) = true
  /\ map signal (generate_signals cfg sample_bars)
     = [HOLD; HOLD; HOLD; HOLD; HOLD; BUY; ADD; SELL].
Proof. vm_compute. split; reflexivity. Qed.

(** Where binary64 departs from the exact model of the ledger.  The float
    quotient of the share count can round up across a whole number: with
    cash 1000 the position size is 100.0, and at the price 0.1 the code
    takes int(100.0 / 0.1) = 1000 shares, one more than the exact quotient
    by the value of that float pays for (999). *)
Example binary64_share_count_rounds_up :
  Binary64.buy_position_size 1000 1 = 100%float
  /\ Binary64.buy_shares 1000 1 Binary64.one_tenth = Some 1000%Z
  /\ exists price,
       Binary64.exact_value Binary64.one_tenth = Some price
       /\ 1 # 10 < price
       /\ buy_shares (reset 1000) (mkSignal 1 BUY price reason_buy 1) = 999%Z.
Proof.
  split; [vm_compute; reflexivity|]. split; [vm_compute; reflexivity|].
  eexists. split; [vm_compute; reflexivity|].
  split; vm_compute; reflexivity.
Qed.

(** A quotient that overflows makes [int()] raise: a BUY at the positive
    price 1e-307 has no result in binary64, while the exact quotient is
    just a large number. *)
Example binary64_share_count_overflows :
  let price := 0x1.1fa182c40c60dp-1020%float in
  (0 <? price)%float = true
  /\ (Binary64.buy_position_size 1000 1 / price)%float = infinity
  /\ Binary64.buy_shares 1000 1 price = None.
Proof. vm_compute. repeat split. Qed.

(** The total return of the report and the one in the summary line of the
    chart are two formulas: equal in exact arithmetic, they differ in the
    last places in binary64 (5.0 and 5.0000000000000044 for a final value of
    1050 on 1000). *)
Example binary64_chart_return_differs :
  Binary64.total_return 1000 1050 = 5%float
  /\ Binary64.total_return_pct 1000 1050 = 0x1.4000000000005p+2%float
  /\ (Binary64.total_return 1000 1050 =? Binary64.total_return_pct 1000 1050)%float
     = false.
Proof. vm_compute. repeat split. Qed.

(** The SELL of [sample_bars] is tagged as a trend reversal (the close of
    the day is not below the two-day low, which includes the day itself). *)
Example sample_bars_sell_reason :
  option_map signal_reason (nth_error (generate_signals sample_config sample_bars) 7)
  = Some reason_trend_reversal.
Proof. vm_compute. reflexivity. Qed.

(** Flat bars with high = low: the ATR is 0, the risk/reward ratio is
    undefined and no BUY fires. *)
Example flat_bars_no_buy :
  let df := map (fun d => mkBar (Z.of_nat d) 10 10 10 10 1000) (seq 1 6) in
  map signal (generate_signals sample_config df) = repeat HOLD 6
  /\ nth 4 (risk_reward_ratio (df_risk (indicators sample_config df))) (Fin 0) = NaN.
Proof. vm_compute. split; reflexivity. Qed.

(** Two open lots (100 shares at 10.00, 50 shares at 12.00) and a SELL at
    15.00: two SELL trades with profits 500 and 150, cash up by 2,250, both
    lots removed. *)
Example sell_closes_all_lots :
  let e := mkEngine 10000 5000
             [(1%Z, mkPosition 100 10 1); (2%Z, mkPosition 50 12 2)] [] [] in
  match step e (mkSignal 3 SELL 15 reason_break_low 1) with
  | Some e' =>
      positions e' = []
      /\ map (fun t => option_map Qred (t_profit t)) (trades e') = [Some 500; Some 150]
      /\ Qred (cash e' - cash e) = 2250
      /\ map (fun pv => Qred (pv_value pv)) (portfolio_value e') = [7250]
  | None => False
  end.
Proof. vm_compute. repeat split; reflexivity. Qed.

(** A BUY at price zero raises: the step has no result. *)
Example buy_at_zero_price_raises :
  step (reset 1000) (mkSignal 1 BUY 0 reason_buy 1) = None.
Proof. reflexivity. Qed.

(* ================================================================== *)
(** * Further properties of the ledger *)
(* ================================================================== *)

Import Charts Book.

Lemma filter_filter_and {A : Type} (f g : A -> bool) (l : list A) :
  filter g (filter f l) = filter (fun x => f x && g x) l.
Proof.
  induction l as [|a rest IH]; simpl; [reflexivity|].
  destruct (f a); simpl; [destruct (g a); rewrite IH; reflexivity | exact IH].
Qed.

Lemma close_lot_due (s : Signal) (e : Engine) (kv : Z * Position) :
  due s kv = true ->
  close_lot s e kv =
  {| initial_cash := initial_cash e;
     cash := cash e + inject_Z (pos_shares (snd kv)) * sg_price s;
     positions := dict_del (fst kv) (positions e);
     trades :=
       trades e ++
       [ {| t_date := sg_date s; t_action := SELL; t_price := sg_price s;
            t_shares := pos_shares (snd kv);
            t_profit := Some (closing_profit s kv);
            t_reason := sg_reason s;
            t_cash_after := cash e + inject_Z (pos_shares (snd kv)) * sg_price s |} ];
     portfolio_value := portfolio_value e |}.
Proof.
  destruct kv as [pd position]. unfold due, close_lot. simpl.
  intros ->. reflexivity.
Qed.

Lemma close_lot_not_due (s : Signal) (e : Engine) (kv : Z * Position) :
  due s kv = false -> close_lot s e kv = e.
Proof.
  destruct kv as [pd position]. unfold due, close_lot. simpl.
  intros ->. reflexivity.
Qed.

(** The SELL loop over a list of lots [l], from any ledger: cash grows by
    the value of the due lots, the lots with a closed key leave the book,
    and one SELL trade per due lot is logged, in order. *)
Lemma close_fold_general (s : Signal) (l : list (Z * Position)) :
  forall e,
    let e' := fold_left (close_lot s) l e in
    cash e' == cash e + open_lots_value (filter (due s) l) (sg_price s)
    /\ positions e' = filter (fun kv => negb (closed_by s l kv)) (positions e)
    /\ exists new,
         trades e' = trades e ++ new
         /\ map t_shares new = map (fun kv => pos_shares (snd kv)) (filter (due s) l)
         /\ map t_profit new = map (fun kv => Some (closing_profit s kv)) (filter (due s) l)
         /\ Forall (fun t => t_action t = SELL /\ t_date t = sg_date s
                             /\ t_price t = sg_price s) new.
Proof.
  induction l as [|x rest IH]; intro e; cbv zeta.
  - cbn [fold_left filter]. split; [simpl; ring|]. split.
    + symmetry.
      induction (positions e) as [|y ys IHy]; simpl; [reflexivity | f_equal; exact IHy].
    + exists []. rewrite app_nil_r. repeat split; constructor.
  - cbn [fold_left filter].
    destruct (IH (close_lot s e x)) as (Hc & Hp & new & Ht & Hs & Hpr & Hall).
    destruct (due s x) eqn:Hd.
    + rewrite (close_lot_due s e x Hd) in Hc, Hp, Ht |- *.
      cbn [cash positions trades] in Hc, Hp, Ht.
      split; [rewrite Hc; unfold open_lots_value; cbn [fold_right]; ring|].
      split.
      * rewrite Hp. unfold dict_del. rewrite filter_filter_and.
        apply filter_ext. intros kv. unfold closed_by. cbn [existsb].
        rewrite Hd. cbn [andb]. rewrite negb_orb. reflexivity.
      * eexists (_ :: new).
        split; [rewrite Ht, <- app_assoc; reflexivity|].
        split; [cbn [map t_shares]; rewrite Hs; reflexivity|].
        split; [cbn [map t_profit]; rewrite Hpr; reflexivity|].
        constructor; [cbn; repeat split | exact Hall].
    + rewrite (close_lot_not_due s e x Hd) in Hc, Hp, Ht |- *.
      split; [exact Hc|]. split.
      * rewrite Hp. apply filter_ext. intros kv. unfold closed_by. cbn [existsb].
        rewrite Hd. reflexivity.
      * exists new. repeat split; assumption.
Qed.

Lemma filter_all {A : Type} (f : A -> bool) (l : list A) :
  Forall (fun x => f x = true) l -> filter f l = l.
Proof.
  intro H. induction H as [|x rest Hx Hrest IH]; simpl; [reflexivity|].
  rewrite Hx, IH. reflexivity.
Qed.

Lemma filter_none {A : Type} (f : A -> bool) (l : list A) :
  Forall (fun x => f x = false) l -> filter f l = [].
Proof.
  intro H. induction H as [|x rest Hx Hrest IH]; simpl; [reflexivity|].
  rewrite Hx. exact IH.
Qed.

Lemma closed_by_self (s : Signal) (l : list (Z * Position)) (kv : Z * Position) :
  In kv l -> due s kv = true -> closed_by s l kv = true.
Proof.
  intros Hin Hdue. unfold closed_by. apply existsb_exists.
  exists kv. split; [exact Hin|]. rewrite Hdue, Z.eqb_refl. reflexivity.
Qed.

(** X3.  A SELL closes every open lot in one event.  When all open lots are
    dated up to the signal day (as in any run in date order), the step
    returns with no open lot left, cash increased by the value of all lots
    at the signal price, and one SELL trade per lot appended in book order,
    each with realized profit [(price - entry price) * shares]; the snapshot
    of the day records zero positions. *)
Theorem sell_closes_every_lot (e : Engine) (s : Signal) :
  sg_action s = SELL ->
  lots_upto (sg_date s) (positions e) ->
  exists e' new,
    step e s = Some e'
    /\ positions e' = []
    /\ cash e' == cash e + open_lots_value (positions e) (sg_price s)
    /\ trades e' = trades e ++ new
    /\ map t_shares new = map (fun kv => pos_shares (snd kv)) (positions e)
    /\ map t_profit new = map (fun kv => Some (closing_profit s kv)) (positions e)
    /\ Forall (fun t => t_action t = SELL /\ t_date t = sg_date s
                        /\ t_price t = sg_price s) new
    /\ exists before snap,
         portfolio_value e' = before ++ [snap]
         /\ pv_positions snap = 0%nat /\ pv_value snap = cash e'.
Proof.
  intros Ha Hup.
  assert (Hdue : filter (due s) (positions e) = positions e).
  { apply filter_all. unfold lots_upto in Hup. rewrite Forall_forall in *.
    intros kv Hkv. unfold due. apply Z.leb_le. apply Hup. exact Hkv. }
  destruct (close_fold_general s (positions e) e)
    as (Hc & Hp & new & Ht & Hs & Hpr & Hall).
  rewrite Hdue in Hc, Hs, Hpr.
  assert (Hempty : positions (fold_left (close_lot s) (positions e) e) = []).
  { rewrite Hp. apply filter_none. rewrite Forall_forall. intros kv Hkv.
    apply negb_false_iff. apply closed_by_self; [exact Hkv|].
    unfold due. apply Z.leb_le.
    unfold lots_upto in Hup. rewrite Forall_forall in Hup. apply Hup. exact Hkv. }
  unfold step, execute. rewrite Ha. simpl.
  destruct (positions e) as [|kv0 rest] eqn:Hpos.
  - simpl. exists (record_snapshot e s), []. simpl. rewrite Hpos.
    split; [reflexivity|]. split; [reflexivity|].
    split; [simpl; ring|]. split; [rewrite app_nil_r; reflexivity|].
    split; [reflexivity|]. split; [reflexivity|]. split; [constructor|].
    eexists. eexists. split; [reflexivity|].
    unfold current_value. simpl. rewrite ?Hpos. split; reflexivity.
  - simpl negb. cbv iota. unfold close_lots. rewrite ?Hpos.
    eexists. exists new. split; [reflexivity|].
    unfold record_snapshot. cbn [positions cash trades portfolio_value].
    split; [exact Hempty|]. split; [exact Hc|]. split; [exact Ht|].
    split; [exact Hs|]. split; [exact Hpr|]. split; [exact Hall|].
    eexists. eexists. split; [reflexivity|]. cbn [pv_positions pv_value].
    rewrite Hempty. split; [reflexivity|].
    unfold current_value. cbn [positions cash]. rewrite Hempty. reflexivity.
Qed.

(** ** The [positions] dict *)

Lemma dict_get_set_same (k : Z) (v : Position) (d : list (Z * Position)) :
  dict_get k (dict_set k v d) = Some v.
Proof.
  induction d as [|[k' v'] rest IH]; simpl.
  - rewrite Z.eqb_refl. reflexivity.
  - destruct (k' =? k)%Z eqn:E; simpl.
    + rewrite Z.eqb_refl. reflexivity.
    + rewrite E. exact IH.
Qed.

Lemma dict_set_present (k : Z) (v : Position) (d : list (Z * Position)) :
  has_key k d -> length (dict_set k v d) = length d.
Proof.
  unfold has_key. induction d as [|[k' v'] rest IH]; simpl; intro H.
  - contradiction.
  - destruct (k' =? k)%Z eqn:E; simpl; [reflexivity|].
    f_equal. apply IH. destruct H as [H|H]; [|exact H].
    apply Z.eqb_neq in E. contradiction.
Qed.

Lemma dict_set_absent (k : Z) (v : Position) (d : list (Z * Position)) :
  ~ has_key k d -> dict_set k v d = d ++ [(k, v)].
Proof.
  unfold has_key. induction d as [|[k' v'] rest IH]; simpl; intro H.
  - reflexivity.
  - destruct (k' =? k)%Z eqn:E.
    + apply Z.eqb_eq in E. exfalso. apply H. left. exact E.
    + f_equal. apply IH. intro Hin. apply H. right. exact Hin.
Qed.

(** X4.  A BUY that takes shares on a date that already keys an open lot
    replaces that lot: the book keeps its size and now holds the new lot
    under that date, while cash is still reduced by the new purchase and a
    BUY trade is logged (the replaced lot leaves the book without a SELL).
    On a date without a lot the new lot is appended to the book. *)
Theorem buy_on_open_date_replaces_lot (e : Engine) (s : Signal) :
  sg_action s = BUY -> 0 < cash e -> ~ sg_price s == 0 ->
  (0 < buy_shares e s)%Z ->
  let lot := mkPosition (buy_shares e s) (sg_price s) (sg_date s) in
  exists e',
    step e s = Some e'
    /\ cash e' == cash e - inject_Z (buy_shares e s) * sg_price s
    /\ length (trades e') = S (length (trades e))
    /\ dict_get (sg_date s) (positions e') = Some lot
    /\ (has_key (sg_date s) (positions e) ->
        length (positions e') = length (positions e))
    /\ (~ has_key (sg_date s) (positions e) ->
        positions e' = positions e ++ [(sg_date s, lot)]).
Proof.
  intros Ha Hc Hp Hn lot.
  unfold step, execute. rewrite Ha. simpl.
  apply Qltb_true in Hc. rewrite Hc.
  apply is_zero_false in Hp. rewrite Hp.
  apply Z.gtb_lt in Hn. rewrite Hn.
  eexists. split; [reflexivity|]. simpl.
  split; [reflexivity|].
  split; [rewrite length_app; simpl; lia|].
  split; [apply dict_get_set_same|].
  split; [apply dict_set_present | apply dict_set_absent].
Qed.

(** ** Conservation of shares *)

Lemma shares_held_app (a b : list (Z * Position)) :
  shares_held (a ++ b) = (shares_held a + shares_held b)%Z.
Proof.
  unfold shares_held. induction a as [|x rest IH]; simpl; [reflexivity|].
  rewrite IH. lia.
Qed.

Lemma shares_of_app (a b : list Trade) :
  shares_of (a ++ b) = (shares_of a + shares_of b)%Z.
Proof.
  unfold shares_of. induction a as [|x rest IH]; simpl; [reflexivity|].
  rewrite IH. lia.
Qed.

Lemma shares_held_split (f : Z * Position -> bool) (l : list (Z * Position)) :
  shares_held l =
  (shares_held (filter f l) + shares_held (filter (fun kv => negb (f kv)) l))%Z.
Proof.
  unfold shares_held. induction l as [|x rest IH]; simpl; [reflexivity|].
  destruct (f x); simpl; rewrite IH; lia.
Qed.

(** The SELL trades logged for the lots [l] carry the shares of [l]. *)
Lemma shares_of_closed (l : list (Z * Position)) (new : list Trade) :
  map t_shares new = map (fun kv => pos_shares (snd kv)) l ->
  shares_of new = shares_held l.
Proof.
  revert new. unfold shares_of, shares_held.
  induction l as [|x rest IH]; intros new H.
  - destruct new; [reflexivity | discriminate].
  - destruct new as [|t new']; [discriminate|].
    simpl in H. injection H as Ht Hrest.
    simpl. rewrite (IH _ Hrest), Ht. reflexivity.
Qed.

Lemma closed_by_due (s : Signal) (l : list (Z * Position)) (kv : Z * Position) :
  In kv l -> closed_by s l kv = due s kv.
Proof.
  intro Hin. destruct (due s kv) eqn:Hd.
  - apply closed_by_self; assumption.
  - destruct (closed_by s l kv) eqn:Hc; [|reflexivity].
    unfold closed_by in Hc. apply existsb_exists in Hc.
    destruct Hc as (kv' & _ & H). apply andb_true_iff in H. destruct H as [H1 H2].
    apply Z.eqb_eq in H2. unfold due in *. rewrite H2 in Hd. congruence.
Qed.

(** The SELL loop moves the shares of the closed lots from the book to the
    SELL trades. *)
Lemma close_lots_shares (e : Engine) (s : Signal) :
  share_balance (close_lots e s) = share_balance e.
Proof.
  unfold close_lots, share_balance.
  destruct (close_fold_general s (positions e) e)
    as (_ & Hp & new & Ht & Hsh & _ & Hall).
  rewrite Hp, Ht. unfold buy_list, sell_list. rewrite !filter_app.
  assert (Hsell : filter (fun t => is_sell (t_action t)) new = new).
  { apply filter_all. rewrite Forall_forall in Hall |- *.
    intros t Hin. destruct (Hall t Hin) as (Ha & _). rewrite Ha. reflexivity. }
  assert (Hbuy : filter (fun t => is_buy (t_action t)) new = []).
  { apply filter_none. rewrite Forall_forall in Hall |- *.
    intros t Hin. destruct (Hall t Hin) as (Ha & _). rewrite Ha. reflexivity. }
  rewrite Hsell, Hbuy, app_nil_r, shares_of_app.
  rewrite (filter_ext_in (fun kv => negb (closed_by s (positions e) kv))
                         (fun kv => negb (due s kv)))
    by (intros kv Hkv; rewrite (closed_by_due s _ kv Hkv); reflexivity).
  rewrite (shares_of_closed _ new Hsh).
  rewrite (shares_held_split (due s) (positions e)).
  lia.
Qed.

(** A step on a date that keys no open lot keeps the balance of shares. *)
Lemma step_shares (e : Engine) (s : Signal) (e' : Engine) :
  ~ has_key (sg_date s) (positions e) ->
  step e s = Some e' -> share_balance e' = share_balance e.
Proof.
  intros Hk Hstep.
  destruct (step_appends e s e' Hstep) as (x & Hx & _ & Hp & Ht & _).
  unfold share_balance at 1. rewrite Hp, Ht.
  fold (share_balance x).
  unfold execute in Hx.
  destruct (is_buy _ && _).
  - destruct (is_zero _); [discriminate|].
    destruct (_ >? _)%Z; injection Hx as <-; [|reflexivity].
    unfold share_balance, open_lot, buy_list, sell_list. cbn [positions trades].
    rewrite (dict_set_absent _ _ _ Hk), shares_held_app, !filter_app, !shares_of_app.
    unfold shares_held, shares_of. simpl. lia.
  - destruct (is_sell _ && _); injection Hx as <-.
    + apply close_lots_shares.
    + reflexivity.
Qed.

Lemma lots_before_no_key (d : Z) (l : list (Z * Position)) :
  Forall (fun kv => (fst kv < d)%Z) l -> ~ has_key d l.
Proof.
  unfold has_key. rewrite Forall_forall. intros H Hin.
  apply in_map_iff in Hin. destruct Hin as (kv & Hk & Hkv).
  specialize (H kv Hkv). lia.
Qed.

Lemma run_shares (signals : list Signal) :
  strictly_dated signals ->
  forall e e',
    Forall (fun kv => Forall (fun s => (fst kv < sg_date s)%Z) signals) (positions e) ->
    run_signals e signals = Some e' ->
    share_balance e' = share_balance e.
Proof.
  unfold strictly_dated.
  induction signals as [|s rest IH]; intros Hsorted e e' Hlots Hrun; simpl in *.
  - injection Hrun as <-. reflexivity.
  - inversion Hsorted as [|? ? Hrest Hall]; subst.
    destruct (step e s) as [e1|] eqn:H1; [|discriminate].
    assert (Hup : lots_upto (sg_date s) (positions e1)).
    { destruct (step_appends e s e1 H1) as (x & Hx & _ & Hp & _).
      rewrite Hp. eapply execute_lots_upto; [| |exact Hx]; [|lia].
      unfold lots_upto. rewrite Forall_forall in *.
      intros kv Hkv. specialize (Hlots kv Hkv). inversion Hlots; subst. lia. }
    assert (Hnext : Forall (fun kv => Forall (fun s' => (fst kv < sg_date s')%Z) rest)
                           (positions e1)).
    { unfold lots_upto in Hup. rewrite Forall_forall in Hup |- *.
      intros kv Hkv. specialize (Hup kv Hkv).
      rewrite Forall_forall in Hall |- *.
      intros s' Hs'. assert (sg_date s < sg_date s')%Z; [|lia].
      apply Hall. apply in_map. exact Hs'. }
    rewrite (IH Hrest e1 e' Hnext Hrun).
    apply (step_shares e s e1); [|exact H1].
    apply lots_before_no_key. rewrite Forall_forall in Hlots |- *.
    intros kv Hkv. specialize (Hlots kv Hkv).
    rewrite Forall_forall in Hlots. apply (Hlots s). left. reflexivity.
Qed.

(** X5.  Conservation of shares.  After any run over signals with strictly
    increasing dates - the signal list of a frame with increasing dates is
    one - the shares of the BUY trades are the shares of the SELL trades
    plus the shares of the lots still open: every share bought is either
    sold once or still held.  Share counts are whole numbers, so the
    identity does not depend on how prices and cash are rounded. *)
Theorem ledger_share_conservation (initial : Q) (signals : list Signal) (e : Engine) :
  strictly_dated signals ->
  backtest_signals initial signals = Some e ->
  shares_of (buy_list (trades e))
  = (shares_of (sell_list (trades e)) + shares_held (positions e))%Z.
Proof.
  intros Hs Hrun. unfold backtest_signals in Hrun.
  pose proof (run_shares signals Hs (reset initial) e (Forall_nil _) Hrun) as Hb.
  unfold share_balance in Hb. simpl in Hb. lia.
Qed.

(** An example outside the hypothesis of X5: two BUY signals on the same
    date.  The second lot replaces the first, whose 10 shares leave the
    book without having been sold. *)
Example same_date_buys_lose_shares :
  match backtest_signals 1000
          [mkSignal 1 BUY 10 reason_buy 1; mkSignal 1 BUY 10 reason_buy 1] with
  | Some e =>
      shares_of (buy_list (trades e)) = 19%Z
      /\ shares_of (sell_list (trades e)) = 0%Z
      /\ shares_held (positions e) = 9%Z
  | None => False
  end.
Proof. vm_compute. repeat split. Qed.

(** ** The performance report *)

(** What a report says about the ledger it was computed from. *)
Lemma calculate_performance_report (float_pow : Q -> Q -> option Q)
      (e : Engine) (p : Performance) :
  calculate_performance float_pow e = perf_report p ->
  portfolio_value e <> []
  /\ ~ initial_cash e == 0
  /\ initial_value p = initial_cash e
  /\ final_value p = last (map pv_value (portfolio_value e)) 0
  /\ total_return p = (final_value p - initial_cash e) / initial_cash e * 100
  /\ (exists pk, fold_left drawdown_step (portfolio_value e)
                           (Some (initial_cash e, 0)) = Some (pk, max_drawdown p))
  /\ win_rate p = win_rate_of (trades e)
  /\ total_trades p = length (trades e)
  /\ buy_trades p = length (buy_list (trades e))
  /\ sell_trades p = length (sell_list (trades e)).
Proof.
  unfold calculate_performance.
  destruct (portfolio_value e) as [|first others] eqn:Hpv; [discriminate|].
  assert (Hlast : pv_value (last (first :: others) first)
                  = last (map pv_value (first :: others)) 0).
  { clear Hpv. generalize first at 1 3. induction others as [|x xs IH]; intro a.
    - reflexivity.
    - change (last (a :: x :: xs) first) with (last (x :: xs) first).
      change (last (map pv_value (a :: x :: xs)) 0)
        with (last (map pv_value (x :: xs)) 0).
      destruct xs as [|y ys]; [reflexivity|].
      apply (IH x). }
  unfold py_div at 1.
  destruct (is_zero (initial_cash e)) eqn:Hz; [discriminate|].
  destruct (annual_return_pct _ _ _ _); [|discriminate].
  destruct (fold_left drawdown_step (first :: others) (Some (initial_cash e, 0)))
    as [[pk mdd]|] eqn:Hdd; [|discriminate].
  destruct (snapshot_returns (pv_value first) others); [|discriminate].
  intro H. injection H as <-. cbn [initial_value final_value total_return
    max_drawdown win_rate total_trades buy_trades sell_trades].
  split; [discriminate|].
  split; [apply is_zero_false; exact Hz|].
  split; [reflexivity|]. split; [exact Hlast|].
  split; [reflexivity|]. split; [exists pk; reflexivity|].
  repeat split.
Qed.

Lemma run_trade_kinds (signals : list Signal) :
  forall e e',
    Forall (fun t => is_buy (t_action t) || is_sell (t_action t) = true) (trades e) ->
    run_signals e signals = Some e' ->
    Forall (fun t => is_buy (t_action t) || is_sell (t_action t) = true) (trades e').
Proof.
  induction signals as [|s rest IH]; intros e e' He Hrun; simpl in Hrun.
  - injection Hrun as <-. exact He.
  - destruct (step e s) as [e1|] eqn:H1; [|discriminate].
    apply (IH e1 e'); [|exact Hrun].
    destruct (step_appends e s e1 H1) as (x & Hx & _ & _ & Ht & _).
    rewrite Ht. unfold execute in Hx.
    destruct (is_buy _ && _).
    + destruct (is_zero _); [discriminate|].
      destruct (_ >? _)%Z; injection Hx as <-; [|exact He].
      simpl. apply Forall_app. split; [exact He|]. repeat constructor.
    + destruct (is_sell _ && _); injection Hx as <-; [|exact He].
      unfold close_lots.
      destruct (close_fold_general s (positions e) e) as (_ & _ & new & Hnew & _ & _ & Hall).
      rewrite Hnew. apply Forall_app. split; [exact He|].
      rewrite Forall_forall in Hall |- *. intros t Hin.
      destruct (Hall t Hin) as (Ha & _). rewrite Ha. reflexivity.
Qed.

Lemma buy_sell_partition (ts : list Trade) :
  Forall (fun t => is_buy (t_action t) || is_sell (t_action t) = true) ts ->
  length ts = (length (buy_list ts) + length (sell_list ts))%nat.
Proof.
  unfold buy_list, sell_list.
  intro H. induction H as [|t rest Ht Hrest IH]; simpl; [reflexivity|].
  destruct (t_action t); simpl in *; try discriminate; rewrite IH; lia.
Qed.

Lemma dict_set_length_le (k : Z) (v : Position) (d : list (Z * Position)) :
  (length (dict_set k v d) <= S (length d))%nat.
Proof.
  induction d as [|[k' v'] rest IH]; simpl; [lia|].
  destruct (k' =? k)%Z; simpl; lia.
Qed.

Lemma filter_partition_length {A : Type} (f : A -> bool) (l : list A) :
  (length (filter f l) + length (filter (fun x => negb (f x)) l))%nat = length l.
Proof.
  induction l as [|a rest IH]; simpl; [reflexivity|].
  destruct (f a); simpl; lia.
Qed.

Lemma filter_app_length {A : Type} (f : A -> bool) (a b : list A) :
  length (filter f (a ++ b)) = (length (filter f a) + length (filter f b))%nat.
Proof. rewrite filter_app, length_app. reflexivity. Qed.

(** Every open lot was opened by a BUY trade and every SELL trade closed
    one: open lots plus SELL trades never outnumber the BUY trades. *)
Lemma run_lot_count (signals : list Signal) :
  forall e e',
    (length (positions e) + length (sell_list (trades e))
     <= length (buy_list (trades e)))%nat ->
    run_signals e signals = Some e' ->
    (length (positions e') + length (sell_list (trades e'))
     <= length (buy_list (trades e')))%nat.
Proof.
  induction signals as [|s rest IH]; intros e e' He Hrun; simpl in Hrun.
  - injection Hrun as <-. exact He.
  - destruct (step e s) as [e1|] eqn:H1; [|discriminate].
    apply (IH e1 e'); [|exact Hrun].
    destruct (step_appends e s e1 H1) as (x & Hx & _ & Hp & Ht & _).
    rewrite Hp, Ht. unfold execute in Hx.
    destruct (is_buy _ && _).
    + destruct (is_zero _); [discriminate|].
      destruct (_ >? _)%Z; injection Hx as <-; [|exact He].
      unfold open_lot, buy_list, sell_list. cbn [positions trades].
      rewrite !filter_app_length. simpl.
      pose proof (dict_set_length_le (sg_date s)
                    (mkPosition (buy_shares e s) (sg_price s) (sg_date s))
                    (positions e)).
      unfold buy_list, sell_list in He. lia.
    + destruct (is_sell _ && _); injection Hx as <-; [|exact He].
      unfold close_lots.
      destruct (close_fold_general s (positions e) e)
        as (_ & Hpos & new & Hnew & Hsh & _ & Hall).
      rewrite Hpos, Hnew. unfold buy_list, sell_list in *.
      rewrite !filter_app_length.
      rewrite (filter_ext_in (fun kv => negb (closed_by s (positions e) kv))
                             (fun kv => negb (due s kv)))
        by (intros kv Hkv; rewrite (closed_by_due s _ kv Hkv); reflexivity).
      assert (Hlen : length new = length (filter (due s) (positions e))).
      { rewrite <- (length_map t_shares new), Hsh, length_map. reflexivity. }
      assert (Hsell : filter (fun t => is_sell (t_action t)) new = new).
      { apply filter_all. rewrite Forall_forall in Hall |- *.
        intros t Hin. destruct (Hall t Hin) as (Ha & _). rewrite Ha. reflexivity. }
      assert (Hbuy : filter (fun t => is_buy (t_action t)) new = []).
      { apply filter_none. rewrite Forall_forall in Hall |- *.
        intros t Hin. destruct (Hall t Hin) as (Ha & _). rewrite Ha. reflexivity. }
      rewrite Hsell, Hbuy, Hlen. simpl.
      pose proof (filter_partition_length (due s) (positions e)). lia.
Qed.

(** X6.  In the report of a simulation the trade counts add up: every
    logged trade is a BUY or a SELL, so [total_trades] is the sum of
    [buy_trades] and [sell_trades]; and open lots plus SELL trades never
    outnumber the BUY trades (one SELL per closed lot, each lot opened by
    one BUY), so [sell_trades <= buy_trades]. *)
Theorem report_trade_counts (float_pow : Q -> Q -> option Q)
        (initial : Q) (signals : list Signal) (e : Engine) (p : Performance) :
  backtest_signals initial signals = Some e ->
  calculate_performance float_pow e = perf_report p ->
  total_trades p = (buy_trades p + sell_trades p)%nat
  /\ (length (positions e) + sell_trades p <= buy_trades p)%nat
  /\ Forall (fun t => t_action t = BUY \/ t_action t = SELL) (trades e).
Proof.
  intros Hrun Hrep.
  destruct (calculate_performance_report float_pow e p Hrep)
    as (_ & _ & _ & _ & _ & _ & _ & Ht & Hb & Hs).
  assert (Hk := run_trade_kinds signals (reset initial) e (Forall_nil _) Hrun).
  split; [|split].
  - rewrite Ht, Hb, Hs. apply buy_sell_partition. exact Hk.
  - rewrite Hb, Hs.
    apply (run_lot_count signals (reset initial) e); [simpl; lia | exact Hrun].
  - rewrite Forall_forall in Hk |- *. intros t Hin. specialize (Hk t Hin).
    destruct (t_action t); simpl in Hk; try discriminate; auto.
Qed.

(** X26.  The annual return needs the float power only for a run of at
    least two snapshots whose last one is dated after the first.  There the
    report stands or falls with the power [(final / initial) ** (365 /
    days)]: when it raises (an overflow), so does the performance
    computation, whatever the ledger holds; when it returns [x], the
    reported annual return is [(x - 1) * 100].  With a single snapshot, or
    when no day lies between the first and the last, the power is not
    evaluated: the annual return is 0 and the result does not depend on
    it. *)
Theorem annual_return_needs_the_power (float_pow : Q -> Q -> option Q)
        (e : Engine) (first : Snapshot) (others : list Snapshot) :
  portfolio_value e = first :: others ->
  ~ initial_cash e == 0 ->
  let final := pv_value (last others first) in
  let days := (pv_date (last others first) - pv_date first)%Z in
  let power := float_pow (final / initial_cash e) (365 / inject_Z days) in
  (others <> [] -> (0 < days)%Z ->
   (power = None -> calculate_performance float_pow e = perf_error)
   /\ (forall p,
         calculate_performance float_pow e = perf_report p ->
         exists x, power = Some x /\ annual_return p = (x - 1) * 100))
  /\ (others = [] \/ (days <= 0)%Z ->
      (forall p,
         calculate_performance float_pow e = perf_report p -> annual_return p = 0)
      /\ forall other_pow,
           calculate_performance other_pow e = calculate_performance float_pow e).
Proof.
  intros Hpv Hz. cbv zeta.
  assert (Hlast : last (first :: others) first = last others first).
  { destruct others; reflexivity. }
  apply is_zero_false in Hz.
  split.
  - intros Hne Hdays. apply Z.ltb_lt in Hdays.
    unfold calculate_performance. rewrite Hpv, Hlast. unfold py_div. rewrite Hz.
    unfold annual_return_pct. rewrite Hlast.
    destruct others as [|second rest]; [contradiction|].
    rewrite Hdays.
    destruct (float_pow _ _) as [x|].
    + split; [discriminate|]. intros p Hrep.
      exists x. split; [reflexivity|].
      destruct (fold_left drawdown_step _ _) as [[pk mdd]|]; [|discriminate].
      destruct (snapshot_returns _ _); [|discriminate].
      injection Hrep as <-. reflexivity.
    + split; [reflexivity | discriminate].
  - intro Hshort.
    assert (Har : forall pw,
              annual_return_pct pw (initial_cash e) (pv_value (last others first))
                                (first :: others) = Some 0).
    { intro pw. unfold annual_return_pct. rewrite Hlast.
      destruct others as [|second rest]; [reflexivity|].
      destruct Hshort as [H|H]; [discriminate|].
      apply Z.ltb_ge in H. rewrite H. reflexivity. }
    split.
    + intros p Hrep. unfold calculate_performance in Hrep.
      rewrite Hpv, Hlast in Hrep. unfold py_div in Hrep. rewrite Hz, Har in Hrep.
      destruct (fold_left drawdown_step _ _) as [[pk mdd]|]; [|discriminate].
      destruct (snapshot_returns _ _); [|discriminate].
      injection Hrep as <-. reflexivity.
    + intro other_pow. unfold calculate_performance.
      rewrite Hpv, Hlast. rewrite !Har. reflexivity.
Qed.

Lemma filter_length_le_and {A : Type} (f g : A -> bool) (l : list A) :
  (length (filter (fun x => f x && g x) l) <= length (filter f l))%nat.
Proof.
  induction l as [|a rest IH]; simpl; [lia|].
  destruct (f a); simpl; [destruct (g a); simpl; lia | exact IH].
Qed.

Lemma Qnat_nonneg (n : nat) : 0 <= Qnat n.
Proof. unfold Qnat, Qle, inject_Z. simpl. lia. Qed.

Lemma Qnat_le (m n : nat) : (m <= n)%nat -> Qnat m <= Qnat n.
Proof. intro H. unfold Qnat, Qle, inject_Z. simpl. lia. Qed.

Lemma Qnat_pos (n : nat) : (0 < n)%nat -> 0 < Qnat n.
Proof. intro H. unfold Qnat, Qlt, inject_Z. simpl. lia. Qed.

Lemma win_rate_of_range (ts : list Trade) :
  0 <= win_rate_of ts /\ win_rate_of ts <= 100
  /\ ((0 < count_sells ts)%nat ->
      (win_rate_of ts == 100 <-> count_winning_sells ts = count_sells ts))
  /\ (count_winning_sells ts = 0%nat -> win_rate_of ts == 0).
Proof.
  rewrite win_rate_of_counts.
  assert (Hle : (count_winning_sells ts <= count_sells ts)%nat).
  { unfold count_winning_sells, count_sells. apply filter_length_le_and. }
  destruct (count_sells ts =? 0)%nat eqn:E.
  - apply Nat.eqb_eq in E.
    split; [lra|]. split; [lra|]. split; [intro; lia|]. intros _. reflexivity.
  - apply Nat.eqb_neq in E.
    assert (Hs : 0 < Qnat (count_sells ts)) by (apply Qnat_pos; lia).
    pose proof (Qnat_nonneg (count_winning_sells ts)) as Hw0.
    pose proof (Qnat_le _ _ Hle) as Hw1.
    set (w := Qnat (count_winning_sells ts)) in *.
    set (n := Qnat (count_sells ts)) in *.
    assert (Hr0 : 0 <= w / n) by (apply Qle_shift_div_l; lra).
    assert (Hr1 : w / n <= 1) by (apply Qle_shift_div_r; lra).
    split; [lra|]. split; [lra|]. split.
    + intros _. split; intro H.
      * assert (Hwn : w == n).
        { assert (E1 : w / n == 1) by lra.
          assert (E2 : w == w / n * n) by (field; lra).
          rewrite E2, E1. ring. }
        unfold w, n, Qnat, Qeq, inject_Z in Hwn. simpl in Hwn. lia.
      * unfold w, n. rewrite H. fold n.
        assert (E1 : n / n == 1) by (field; lra). rewrite E1. reflexivity.
    + intro H0. unfold w. rewrite H0.
      unfold Qnat. simpl. unfold Qdiv. ring.
Qed.

(** X7.  The reported win rate is a percentage: it lies between 0 and 100,
    it is 100 exactly when there is a SELL trade and every SELL trade has a
    positive realized profit, and it is 0 when no SELL trade has one. *)
Theorem win_rate_range (float_pow : Q -> Q -> option Q)
        (e : Engine) (p : Performance) :
  calculate_performance float_pow e = perf_report p ->
  0 <= win_rate p /\ win_rate p <= 100
  /\ ((0 < sell_trades p)%nat ->
      (win_rate p == 100 <-> count_winning_sells (trades e) = sell_trades p))
  /\ (count_winning_sells (trades e) = 0%nat -> win_rate p == 0).
Proof.
  intro Hrep.
  destruct (calculate_performance_report float_pow e p Hrep)
    as (_ & _ & _ & _ & _ & _ & Hw & _ & _ & Hs).
  rewrite Hw, Hs. apply win_rate_of_range.
Qed.

(** ** Maximum drawdown *)







(** ** Frames without signals, and a ledger without cash *)

Lemma signals_of_frame_all_hold (df : list Bar) (recs : list SignalRecord) :
  Forall (fun r => signal r = HOLD) recs -> signals_of_frame df recs = [].
Proof.
  unfold signals_of_frame. intro H. revert df.
  induction H as [|r rest Hr Hrest IH]; intro df.
  - destruct df; reflexivity.
  - destruct df as [|b df']; [reflexivity|].
    simpl. unfold signal_of_row at 1. rewrite Hr. simpl. apply IH.
Qed.

(** X10.  With an ATR window of at least 1, a frame with no more rows than
    max(slow_ma_window, vol_lookback_for_filter) - 60 rows with the
    defaults - keeps the initial HOLD record on every row, whatever its
    bars, also on rows whose indicators are all defined; the signal list of
    the backtest is then empty and the simulation loop leaves the ledger as
    it was reset: the cash untouched, no lot, no trade and no snapshot. *)
Theorem short_frame_gives_nothing (cfg : Config) (initial : Q) (df : list Bar) :
  (1 <= atr_window cfg)%nat ->
  (length df <= Nat.max (slow_ma_window cfg) (vol_lookback_for_filter cfg))%nat ->
  Forall (fun r => r = hold_record) (generate_signals cfg df)
  /\ signals_of_frame df (generate_signals cfg df) = []
  /\ exists e,
       backtest_strategy cfg initial df = Some e
       /\ cash e = initial /\ positions e = [] /\ trades e = []
       /\ portfolio_value e = [].
Proof.
  intros _ Hlen.
  assert (Hall : Forall (fun r => r = hold_record) (generate_signals cfg df)).
  { unfold generate_signals. rewrite Forall_forall. intros r Hin.
    apply in_map_iff in Hin. destruct Hin as (i & <- & Hi).
    apply in_seq in Hi. unfold signal_at, min_lookback.
    assert (Hlt : (i <? Nat.max (slow_ma_window cfg) (vol_lookback_for_filter cfg))%nat
                  = true) by (apply Nat.ltb_lt; lia).
    rewrite Hlt. reflexivity. }
  assert (Hnone : signals_of_frame df (generate_signals cfg df) = []).
  { apply signals_of_frame_all_hold.
    rewrite Forall_forall in Hall |- *. intros r Hin. rewrite (Hall r Hin). reflexivity. }
  split; [exact Hall|]. split; [exact Hnone|].
  exists (reset initial). unfold backtest_strategy. rewrite Hnone.
  repeat split.
Qed.

(** A ledger with no cash and no lot does nothing but record snapshots. *)
Lemma run_without_cash (signals : list Signal) :
  forall e,
    ~ 0 < cash e -> positions e = [] ->
    exists e',
      run_signals e signals = Some e'
      /\ cash e' = cash e /\ positions e' = [] /\ trades e' = trades e
      /\ initial_cash e' = initial_cash e
      /\ length (portfolio_value e') = (length (portfolio_value e) + length signals)%nat.
Proof.
  induction signals as [|s rest IH]; intros e Hc Hp.
  - exists e. simpl. repeat split; try assumption. lia.
  - assert (Hstep : step e s = Some (record_snapshot e s)).
    { unfold step, execute.
      assert (Hq : Qltb 0 (cash e) = false).
      { apply Qltb_false. apply Qnot_lt_le. exact Hc. }
      rewrite Hq, andb_false_r, Hp, andb_false_r. reflexivity. }
    destruct (IH (record_snapshot e s)) as (e' & H1 & H2 & H3 & H4 & H5 & H6).
    + exact Hc.
    + exact Hp.
    + exists e'. simpl run_signals. rewrite Hstep.
      split; [exact H1|]. split; [exact H2|]. split; [exact H3|].
      split; [exact H4|]. split; [exact H5|].
      rewrite H6. simpl. rewrite length_app. simpl. lia.
Qed.

(** X11.  With an initial cash of zero nothing is ever traded - no BUY is
    sized, so no lot exists for a SELL - and no price can make the run
    raise; but as soon as one day carries a signal other than HOLD, the
    performance computation divides by the initial cash and raises. *)
Theorem zero_cash_run_fails_in_report (float_pow : Q -> Q -> option Q)
        (cfg : Config) (initial : Q) (df : list Bar) :
  initial == 0 ->
  non_hold_dates df (generate_signals cfg df) <> [] ->
  exists e,
    backtest_strategy cfg initial df = Some e
    /\ trades e = [] /\ positions e = [] /\ cash e = initial
    /\ calculate_performance float_pow e = perf_error.
Proof.
  intros H0 Hsig. unfold backtest_strategy, backtest_signals.
  set (signals := signals_of_frame df (generate_signals cfg df)).
  destruct (run_without_cash signals (reset initial))
    as (e & Hrun & Hc & Hp & Ht & Hi & Hlen).
  { simpl. rewrite H0. apply Qlt_irrefl. }
  { reflexivity. }
  exists e. split; [exact Hrun|]. split; [exact Ht|]. split; [exact Hp|].
  split; [exact Hc|].
  assert (Hne : signals <> []).
  { intro E. apply Hsig. rewrite <- signals_of_frame_dates. fold signals.
    rewrite E. reflexivity. }
  unfold calculate_performance.
  destruct (portfolio_value e) as [|first others] eqn:Hpv.
  - simpl in Hlen. destruct signals; [contradiction | simpl in Hlen; lia].
  - unfold py_div.
    assert (Hz : is_zero (initial_cash e) = true).
    { apply is_zero_true. rewrite Hi. simpl. exact H0. }
    rewrite Hz. reflexivity.
Qed.

(** ** The chart summary *)

Lemma last_map_default {A B : Type} (f : A -> B) (l : list A) (d : B) (d' : B) :
  l <> [] -> last (map f l) d = last (map f l) d'.
Proof.
  induction l as [|a rest IH]; intro H; [contradiction|].
  destruct rest as [|b rest']; [reflexivity|].
  change (last (map f (a :: b :: rest')) d) with (last (map f (b :: rest')) d).
  change (last (map f (a :: b :: rest')) d') with (last (map f (b :: rest')) d').
  apply IH. discriminate.
Qed.

Lemma last_map {A B : Type} (f : A -> B) (l : list A) (d : B) (a : A) :
  l <> [] -> last (map f l) d = f (last l a).
Proof.
  induction l as [|x rest IH]; intro H; [contradiction|].
  destruct rest as [|y rest']; [reflexivity|].
  change (last (map f (x :: y :: rest')) d) with (last (map f (y :: rest')) d).
  change (last (x :: y :: rest') a) with (last (y :: rest') a).
  apply IH. discriminate.
Qed.

(** X12.  Whenever the performance report exists, the combined chart is
    drawn from the same capital figures: it is computed relative to the
    report's [initial_value], its summary line shows the report's
    [final_value], the equity curve has one point per snapshot, the return
    [(value / initial - 1) * 100] of that snapshot, and the last point of
    the curve is the total return printed in the summary line. *)
Theorem chart_summary_agrees_with_report (float_pow : Q -> Q -> option Q)
        (e : Engine) (p : Performance) :
  calculate_performance float_pow e = perf_report p ->
  exists pct curve,
    plot_combined e = chart_data (initial_value p) (final_value p) pct curve
    /\ curve = map (fun pv => (pv_value pv / initial_value p - 1) * 100)
                   (portfolio_value e)
    /\ pct = (final_value p / initial_value p - 1) * 100
    /\ last curve 0 = pct.
Proof.
  intro Hrep.
  destruct (calculate_performance_report float_pow e p Hrep)
    as (Hne & Hz & Hinit & Hfinal & Htr & _).
  unfold plot_combined.
  destruct (portfolio_value e) as [|first others] eqn:Hpv; [contradiction|].
  assert (Hci : chart_initial e = initial_cash e).
  { unfold chart_initial. apply is_zero_false in Hz. rewrite Hz. reflexivity. }
  cbv zeta. rewrite Hci.
  apply is_zero_false in Hz. rewrite Hz.
  assert (Hf : last (map pv_value (first :: others)) (initial_cash e) = final_value p).
  { rewrite Hfinal. apply last_map_default. discriminate. }
  rewrite Hf, <- Hinit.
  eexists. eexists. split; [reflexivity|].
  split; [rewrite map_map; reflexivity|]. split; [reflexivity|].
  rewrite (last_map (fun v => (v / initial_value p - 1) * 100)
                    (map pv_value (first :: others)) 0 0) by discriminate.
  rewrite (last_map_default pv_value (first :: others) 0 (initial_cash e))
    by discriminate.
  rewrite Hf. reflexivity.
Qed.

(* ================================================================== *)
(** * Further properties of the signal engine *)
(* ================================================================== *)

(** ** Rolling windows *)

Lemma nth_rolling_from (w : nat) (agg : list Q -> fval) (xs : list fval) :
  forall hist i,
    (i < length xs)%nat ->
    nth i (rolling_from w agg hist xs) NaN
    = rolling_cell w agg (rev (firstn (S i) xs) ++ hist).
Proof.
  induction xs as [|x rest IH]; intros hist i Hi; simpl in Hi; [lia|].
  destruct i as [|i'].
  - reflexivity.
  - cbn [rolling_from nth]. rewrite IH by lia.
    change (firstn (S (S i')) (x :: rest)) with (x :: firstn (S i') rest).
    cbn [rev]. rewrite <- app_assoc. reflexivity.
Qed.

Lemma finite_window_fin (qs : list Q) : finite_window (map Fin qs) = Some qs.
Proof.
  induction qs as [|q rest IH]; simpl; [reflexivity|]. rewrite IH. reflexivity.
Qed.

(** A rolling column over finite values: [NaN] until [w] rows are
    available, then the aggregate of the [w] most recent values. *)
Lemma rolling_fin_col (w : nat) (agg : list Q -> fval) (qs : list Q) (i : nat) :
  (i < length qs)%nat ->
  nth i (rolling w agg (fin_col qs)) NaN
  = if (w =? 0)%nat || (S i <? w)%nat then NaN else agg (trailing w i qs).
Proof.
  intro Hi. unfold rolling, fin_col.
  rewrite nth_rolling_from by (rewrite length_map; exact Hi).
  rewrite app_nil_r. unfold rolling_cell.
  rewrite length_rev, length_firstn, length_map.
  replace (Nat.min (S i) (length qs)) with (S i) by lia.
  destruct ((w =? 0)%nat || (S i <? w)%nat) eqn:E; [reflexivity|].
  apply orb_false_iff in E. destruct E as [_ E]. apply Nat.ltb_ge in E.
  rewrite firstn_rev, rev_involutive, length_firstn, length_map.
  replace (Nat.min (S i) (length qs)) with (S i) by lia.
  rewrite skipn_firstn_comm.
  replace (S i - (S i - w))%nat with w by lia.
  rewrite skipn_map, firstn_map, finite_window_fin.
  reflexivity.
Qed.

(** X13.  The four rolling columns look backward over exactly their
    window.  On row [i] of the frame, each of fast_ma, slow_ma,
    donchian_high and donchian_low is [NaN] while fewer than [w] rows are
    available (and for a window of 0), and otherwise is the mean of the
    last [w] closes, the maximum of the last [w] highs, or the minimum of
    the last [w] lows, the current day included. *)
Theorem rolling_columns_window (cfg : Config) (df : list Bar) (i : nat) :
  (i < length df)%nat ->
  let row := iloc (indicators cfg df) i in
  let cell (w : nat) (agg : list Q -> fval) (col : list Q) :=
    if (w =? 0)%nat || (S i <? w)%nat then NaN else agg (trailing w i col) in
  r_fast_ma row = cell (fast_ma_window cfg) agg_mean (map close df)
  /\ r_slow_ma row = cell (slow_ma_window cfg) agg_mean (map close df)
  /\ r_donchian_high row = cell (entry_breakout_window cfg) agg_max (map high df)
  /\ r_donchian_low row = cell (exit_break_window cfg) agg_min (map low df).
Proof.
  intro Hi. cbv zeta. unfold iloc, indicators.
  cbn [df_tech r_fast_ma r_slow_ma r_donchian_high r_donchian_low].
  unfold calculate_technical_indicators.
  cbn [fast_ma slow_ma donchian_high donchian_low].
  repeat split; apply rolling_fin_col; rewrite length_map; exact Hi.
Qed.

(** ** The Donchian channel *)

Lemma fold_min_le (rest : list Q) :
  forall q x, In x (q :: rest) -> fold_left Qmin rest q <= x.
Proof.
  induction rest as [|y rest' IH]; intros q x Hin; simpl.
  - destruct Hin as [<-|[]]. apply Qle_refl.
  - destruct Hin as [<-|[<-|Hin]].
    + eapply Qle_trans; [apply IH; left; reflexivity | apply Q.le_min_l].
    + eapply Qle_trans; [apply IH; left; reflexivity | apply Q.le_min_r].
    + apply IH. right. exact Hin.
Qed.

Lemma fold_max_ge (rest : list Q) :
  forall q x, In x (q :: rest) -> x <= fold_left Qmax rest q.
Proof.
  induction rest as [|y rest' IH]; intros q x Hin; simpl.
  - destruct Hin as [<-|[]]. apply Qle_refl.
  - destruct Hin as [<-|[<-|Hin]].
    + eapply Qle_trans; [apply Q.le_max_l | apply IH; left; reflexivity].
    + eapply Qle_trans; [apply Q.le_max_r | apply IH; left; reflexivity].
    + apply IH. right. exact Hin.
Qed.

(** The window that ends at row [i] holds the value of row [i]. *)
Lemma trailing_has_current (w i : nat) (qs : list Q) :
  (i < length qs)%nat -> (1 <= w)%nat -> (w <= S i)%nat ->
  In (nth i qs 0) (trailing w i qs).
Proof.
  intros Hi Hw1 Hw2. unfold trailing.
  assert (Hlen : length (firstn w (skipn (S i - w) qs)) = w).
  { rewrite length_firstn, length_skipn. lia. }
  replace (nth i qs 0) with (nth (w - 1) (firstn w (skipn (S i - w) qs)) 0).
  - apply nth_In. lia.
  - rewrite nth_firstn_lt by lia. rewrite nth_skipn. f_equal. lia.
Qed.

Lemma nth_map_bar (f : Bar -> Q) (df : list Bar) (i : nat) :
  f no_bar = 0 -> nth i (map f df) 0 = f (nth i df no_bar).
Proof. intro H. rewrite <- H. apply map_nth. Qed.

Lemma row_close (cfg : Config) (df : list Bar) (i : nat) :
  r_close (iloc (indicators cfg df) i) = close (nth i df no_bar).
Proof.
  unfold iloc, indicators. cbn [r_close df_bars].
  apply (nth_map_bar close df i eq_refl).
Qed.

Lemma donchian_low_bound (cfg : Config) (df : list Bar) (i : nat) :
  (i < length df)%nat ->
  let row := iloc (indicators cfg df) i in
  r_donchian_low row = NaN
  \/ exists m, r_donchian_low row = Fin m /\ m <= low (nth i df no_bar).
Proof.
  intros Hi row.
  assert (Hl : r_donchian_low row
               = if (exit_break_window cfg =? 0)%nat
                    || (S i <? exit_break_window cfg)%nat
                 then NaN
                 else agg_min (trailing (exit_break_window cfg) i (map low df))).
  { change (r_donchian_low row)
      with (nth i (rolling (exit_break_window cfg) agg_min (fin_col (map low df))) NaN).
    apply rolling_fin_col. rewrite length_map. exact Hi. }
  rewrite Hl.
  destruct ((exit_break_window cfg =? 0)%nat || (S i <? exit_break_window cfg)%nat)
    eqn:E; [left; reflexivity|].
  apply orb_false_iff in E. destruct E as [E1 E2].
  apply Nat.eqb_neq in E1. apply Nat.ltb_ge in E2.
  pose proof (trailing_has_current (exit_break_window cfg) i (map low df)) as Hin.
  rewrite length_map in Hin. specialize (Hin Hi ltac:(lia) E2).
  rewrite (nth_map_bar low df i eq_refl) in Hin.
  destruct (trailing (exit_break_window cfg) i (map low df)) as [|q rest];
    [contradiction|].
  right. eexists. split; [reflexivity|]. apply fold_min_le. exact Hin.
Qed.

Lemma donchian_high_bound (cfg : Config) (df : list Bar) (i : nat) :
  (i < length df)%nat ->
  let row := iloc (indicators cfg df) i in
  r_donchian_high row = NaN
  \/ exists M, r_donchian_high row = Fin M /\ high (nth i df no_bar) <= M.
Proof.
  intros Hi row.
  assert (Hh : r_donchian_high row
               = if (entry_breakout_window cfg =? 0)%nat
                    || (S i <? entry_breakout_window cfg)%nat
                 then NaN
                 else agg_max (trailing (entry_breakout_window cfg) i (map high df))).
  { change (r_donchian_high row)
      with (nth i (rolling (entry_breakout_window cfg) agg_max (fin_col (map high df))) NaN).
    apply rolling_fin_col. rewrite length_map. exact Hi. }
  rewrite Hh.
  destruct ((entry_breakout_window cfg =? 0)%nat
            || (S i <? entry_breakout_window cfg)%nat)
    eqn:E; [left; reflexivity|].
  apply orb_false_iff in E. destruct E as [E1 E2].
  apply Nat.eqb_neq in E1. apply Nat.ltb_ge in E2.
  pose proof (trailing_has_current (entry_breakout_window cfg) i (map high df)) as Hin.
  rewrite length_map in Hin. specialize (Hin Hi ltac:(lia) E2).
  rewrite (nth_map_bar high df i eq_refl) in Hin.
  destruct (trailing (entry_breakout_window cfg) i (map high df)) as [|q rest];
    [contradiction|].
  right. eexists. split; [reflexivity|]. apply fold_max_ge. exact Hin.
Qed.

Lemma break_low_false (cfg : Config) (df : list Bar) (i : nat) :
  (i < length df)%nat ->
  low (nth i df no_bar) <= close (nth i df no_bar) ->
  break_low (iloc (indicators cfg df) i) = false.
Proof.
  intros Hi Hlc. unfold break_low. rewrite row_close.
  destruct (donchian_low_bound cfg df i Hi) as [->|(m & -> & Hm)]; [reflexivity|].
  unfold flt. apply Qltb_false. lra.
Qed.

(** X14.  The Donchian channel of a day contains the day's own bar: when
    defined, donchian_low is at most the day's low and donchian_high at
    least the day's high (both are [NaN] or finite).  Hence on a bar with
    low <= close the check [close < donchian_low] is false, and on a bar
    with close <= high the close never exceeds donchian_high. *)
Theorem channel_contains_bar (cfg : Config) (df : list Bar) (i : nat) :
  (i < length df)%nat ->
  let row := iloc (indicators cfg df) i in
  let b := nth i df no_bar in
  (r_donchian_low row = NaN \/ exists m, r_donchian_low row = Fin m /\ m <= low b)
  /\ (r_donchian_high row = NaN \/ exists M, r_donchian_high row = Fin M /\ high b <= M)
  /\ (low b <= close b -> break_low row = false)
  /\ (close b <= high b -> fgt (Fin (r_close row)) (r_donchian_high row) = false).
Proof.
  intros Hi row b.
  pose proof (donchian_low_bound cfg df i Hi) as Hlow.
  pose proof (donchian_high_bound cfg df i Hi) as Hhigh.
  fold row b in Hlow, Hhigh.
  split; [exact Hlow|]. split; [exact Hhigh|]. split.
  - intro Hlc. apply break_low_false; assumption.
  - intro Hch. unfold fgt. unfold row. rewrite row_close. fold b. fold row.
    destruct Hhigh as [->|(M & -> & HM)]; [reflexivity|].
    unfold flt. apply Qltb_false. lra.
Qed.

Lemma stop_and_target_false (cfg : Config) (df : list Bar) (i : nat) :
  (1 <= atr_window cfg)%nat ->
  0 <= atr_multiple_stop cfg ->
  Forall (fun b => low b <= high b) df ->
  (i < length df)%nat ->
  below_stop (iloc (indicators cfg df) i) = false
  /\ above_take_profit (iloc (indicators cfg df) i) = false.
Proof.
  intros Hw Hm Hdf Hi.
  pose proof (row_atr_nonneg cfg df i Hw Hdf) as Ha.
  destruct (risk_row cfg df i Hi) as (Hsl & Htp & _).
  set (row := iloc (indicators cfg df) i) in *.
  assert (Hprod : 0 <= atr_multiple_stop cfg * r_atr row)
    by (apply Qmult_le_0_compat; assumption).
  split.
  - unfold below_stop. apply Qltb_false. rewrite Hsl. lra.
  - unfold above_take_profit. apply Qltb_false. rewrite Htp.
    unfold take_profit_multiple. lra.
Qed.

(** X15.  On well-formed bars (low <= close and low <= high), with an ATR
    window of at least 1 and a non-negative stop multiple, the only SELL
    the engine can emit is a trend reversal: three of the four SELL checks
    (stop-loss, support break, take-profit) are false on every row, so every
    SELL record carries the trend-reversal reason and its row has
    trend_strength < -trend_strength_threshold. *)
Theorem sell_means_trend_reversal (cfg : Config) (df : list Bar) (i : nat)
        (r : SignalRecord) :
  (1 <= atr_window cfg)%nat ->
  0 <= atr_multiple_stop cfg ->
  Forall (fun b => low b <= close b /\ low b <= high b) df ->
  nth_error (generate_signals cfg df) i = Some r ->
  let row := iloc (indicators cfg df) i in
  below_stop row = false /\ break_low row = false /\ above_take_profit row = false
  /\ (signal r = SELL ->
      signal_reason r = reason_trend_reversal /\ trend_reversal row = true).
Proof.
  intros Hw Hm Hdf Hr row.
  assert (Hi : (i < length df)%nat).
  { rewrite <- (generate_signals_length cfg df). apply nth_error_Some. congruence. }
  assert (Hhl : Forall (fun b => low b <= high b) df).
  { rewrite Forall_forall in Hdf |- *. intros b Hb. apply (Hdf b Hb). }
  destruct (stop_and_target_false cfg df i Hw Hm Hhl Hi) as [Hbs Htk].
  assert (Hbl : break_low row = false).
  { apply break_low_false; [exact Hi|].
    rewrite Forall_forall in Hdf. apply (Hdf (nth i df no_bar)).
    apply nth_In. exact Hi. }
  fold row in Hbs, Htk.
  split; [exact Hbs|]. split; [exact Hbl|]. split; [exact Htk|].
  rewrite (generate_signals_nth cfg df i Hi) in Hr. injection Hr as <-.
  unfold signal_at. fold row.
  destruct (i <? min_lookback cfg)%nat; [discriminate|].
  unfold decide.
  destruct (buy_condition cfg row); [discriminate|].
  destruct (sell_condition row) eqn:Hsell.
  - intros _. cbn [signal_reason]. unfold sell_reason.
    unfold sell_condition in Hsell. rewrite Hbs, Hbl, Htk in *.
    simpl in Hsell. split; [reflexivity | exact Hsell].
  - destruct (add_condition cfg row); discriminate.
Qed.

(** ** Trend state and volatility regime *)

Lemma Qle_bool_false (a b : Q) : Qle_bool a b = false -> b < a.
Proof.
  intro H. apply Qnot_le_lt. intro Hle. apply Qle_bool_iff in Hle. congruence.
Qed.

Ltac q_bools :=
  repeat match goal with
         | H : Qltb _ _ = true |- _ => apply Qltb_true in H
         | H : Qltb _ _ = false |- _ => apply Qltb_false in H
         | H : Qle_bool _ _ = true |- _ => apply Qle_bool_iff in H
         | H : Qle_bool _ _ = false |- _ => apply Qle_bool_false in H
         end.

Lemma trend_state_of_cases (ts : fval) :
  (trend_state_of ts = neutral <-> ts = NaN)
  /\ (trend_state_of ts = strong_uptrend <->
      fgt ts (Fin trend_strength_threshold) = true)
  /\ (trend_state_of ts = weak_uptrend <->
      fge ts (Fin 0) && fle ts (Fin trend_strength_threshold) = true)
  /\ (trend_state_of ts = weak_downtrend <->
      flt ts (Fin 0) && fge ts (Fin (- trend_strength_threshold)) = true)
  /\ (trend_state_of ts = strong_downtrend <->
      flt ts (Fin (- trend_strength_threshold)) = true).
Proof.
  destruct ts as [q| | |].
  - unfold trend_state_of, fgt, fge, flt, fle, fneg, trend_strength_threshold.
    destruct (Qltb (2 # 100) q) eqn:A;
      destruct (Qltb q (- (2 # 100))) eqn:B;
      destruct (Qle_bool 0 q) eqn:C;
      destruct (Qle_bool q (2 # 100)) eqn:D;
      destruct (Qltb q 0) eqn:E;
      destruct (Qle_bool (- (2 # 100)) q) eqn:F;
      cbn [andb];
      try (q_bools; exfalso; lra);
      repeat split; intro; (discriminate || reflexivity).
  - vm_compute. repeat split; intro; (discriminate || reflexivity).
  - vm_compute. repeat split; intro; (discriminate || reflexivity).
  - vm_compute. repeat split; intro; (discriminate || reflexivity).
Qed.

(** X16.  The trend state of a row is decided by its trend strength alone,
    and the four assignments of the source never compete: a row is
    [strong_uptrend] exactly when strength > 0.02, [weak_uptrend] exactly
    when 0 <= strength <= 0.02, [weak_downtrend] exactly when
    -0.02 <= strength < 0, [strong_downtrend] exactly when
    strength < -0.02, and keeps the initial [neutral] exactly when the
    strength is [NaN] (no slow moving average yet, or 0/0). *)
Theorem trend_state_partition (cfg : Config) (df : list Bar) (i : nat) :
  let row := iloc (indicators cfg df) i in
  let ts := r_trend_strength row in
  let st := r_trend_state row in
  (st = neutral <-> ts = NaN)
  /\ (st = strong_uptrend <-> fgt ts (Fin (2 # 100)) = true)
  /\ (st = weak_uptrend <-> fge ts (Fin 0) && fle ts (Fin (2 # 100)) = true)
  /\ (st = weak_downtrend <-> flt ts (Fin 0) && fge ts (Fin (- (2 # 100))) = true)
  /\ (st = strong_downtrend <-> flt ts (Fin (- (2 # 100))) = true).
Proof.
  cbv zeta.
  assert (H : r_trend_state (iloc (indicators cfg df) i)
              = trend_state_of (r_trend_strength (iloc (indicators cfg df) i))).
  { unfold iloc, indicators. cbn [r_trend_state r_trend_strength df_mom].
    unfold calculate_momentum_indicators. cbn [trend_state trend_strength].
    change neutral with (trend_state_of NaN). apply map_nth. }
  rewrite H. apply trend_state_of_cases.
Qed.

Lemma fle_not_flt (a b : fval) : fle a b = true -> flt b a = false.
Proof.
  destruct a as [x| | |], b as [y| | |]; simpl; try discriminate; try reflexivity.
  intro H. apply Qltb_false. apply Qle_bool_iff. exact H.
Qed.

Lemma flt_trans_fin (a : fval) (x y : Q) :
  flt a (Fin x) = true -> x <= y -> flt a (Fin y) = true.
Proof.
  destruct a as [q| | |]; simpl; try discriminate; try reflexivity.
  intros H Hxy. apply Qltb_true in H. apply Qltb_true. lra.
Qed.

Lemma flt_asym (a b : fval) : flt a b = true -> flt b a = false.
Proof.
  destruct a as [x| | |], b as [y| | |]; simpl; try discriminate; try reflexivity.
  intro H. apply Qltb_true in H. apply Qltb_false. lra.
Qed.

Lemma row_regime (cfg : Config) (df : list Bar) (i : nat) :
  r_volatility_regime (iloc (indicators cfg df) i)
  = regime_of cfg (r_atr_filter_ratio (iloc (indicators cfg df) i)).
Proof.
  unfold iloc, indicators. cbn [r_volatility_regime r_atr_filter_ratio df_vol].
  unfold calculate_volume_indicators. cbn [volatility_regime atr_filter_ratio].
  change vol_normal with (regime_of cfg NaN). apply map_nth.
Qed.

(** X17.  The volatility regime of the rows that carry a signal.  A BUY row
    is always in the [normal] regime - its ATR ratio lies inside
    [vol_min_pct, vol_max_pct] - so the position size of a BUY never uses
    the 0.8 or 1.2 volatility multiplier.  When
    [vol_min_pct <= vol_expand_multiple_for_add] (0.7 and 1.1 by default)
    an ADD row is never in the [low] regime. *)
Theorem signal_rows_regime (cfg : Config) (df : list Bar) (i : nat)
        (r : SignalRecord) :
  nth_error (generate_signals cfg df) i = Some r ->
  let row := iloc (indicators cfg df) i in
  (signal r = BUY -> r_volatility_regime row = vol_normal)
  /\ (vol_min_pct cfg <= vol_expand_multiple_for_add cfg ->
      signal r = ADD -> r_volatility_regime row <> vol_low).
Proof.
  intros Hr row.
  assert (Hi : (i < length df)%nat).
  { rewrite <- (generate_signals_length cfg df). apply nth_error_Some. congruence. }
  rewrite (generate_signals_nth cfg df i Hi) in Hr. injection Hr as <-.
  unfold signal_at. fold row.
  destruct (i <? min_lookback cfg)%nat; [split; [|intros _]; discriminate|].
  assert (Hreg : r_volatility_regime row = regime_of cfg (r_atr_filter_ratio row))
    by apply row_regime.
  rewrite Hreg. unfold decide.
  destruct (buy_condition cfg row) eqn:Hbuy.
  - split; [|intros _; discriminate]. intros _.
    unfold buy_condition in Hbuy.
    apply andb_true_iff in Hbuy. destruct Hbuy as [Hbuy _].
    apply andb_true_iff in Hbuy. destruct Hbuy as [_ Hvol].
    unfold vol_condition in Hvol. apply andb_true_iff in Hvol.
    destruct Hvol as [H1 H2].
    unfold regime_of, fgt.
    rewrite (fle_not_flt _ _ H1), (fle_not_flt _ _ H2). reflexivity.
  - destruct (sell_condition row); [split; [|intros _]; discriminate|].
    destruct (add_condition cfg row) eqn:Hadd; [|split; [|intros _]; discriminate].
    split; [discriminate|]. intros Hcfg _.
    unfold add_condition in Hadd. apply andb_true_iff in Hadd.
    destruct Hadd as [_ Hexp]. unfold fgt in Hexp.
    assert (Hlow : flt (r_atr_filter_ratio row) (Fin (vol_min_pct cfg)) = false).
    { destruct (flt (r_atr_filter_ratio row) (Fin (vol_min_pct cfg))) eqn:E;
        [|reflexivity].
      pose proof (flt_trans_fin _ _ _ E Hcfg) as E'.
      apply flt_asym in E'. congruence. }
    unfold regime_of. rewrite Hlow.
    destruct (fgt (r_atr_filter_ratio row) (Fin (vol_max_pct cfg))); discriminate.
Qed.

(** ** Position size *)



(** ** Signal strength *)






(** ** Rows that cannot be bought *)

(** X20.  A row without ATR cannot be bought.  On a row whose ATR is 0
    (a flat market), or under a configuration whose atr_multiple_stop is 0,
    stop-loss and take-profit both coincide with the close, the risk/reward
    ratio is 0/0, and the row is never a BUY - whatever the moving averages
    and the volatility ratio are. *)
Theorem no_buy_without_stop_distance (cfg : Config) (df : list Bar) (i : nat)
        (r : SignalRecord) :
  nth_error (generate_signals cfg df) i = Some r ->
  let row := iloc (indicators cfg df) i in
  r_atr row == 0 \/ atr_multiple_stop cfg == 0 ->
  r_dynamic_stop_loss row == r_close row
  /\ r_take_profit_price row == r_close row
  /\ r_risk_reward_ratio row = NaN
  /\ signal r <> BUY.
Proof.
  intros Hr row Hzero.
  assert (Hi : (i < length df)%nat).
  { rewrite <- (generate_signals_length cfg df). apply nth_error_Some. congruence. }
  destruct (risk_row cfg df i Hi) as (Hsl & Htp & Hrr).
  fold row in Hsl, Htp, Hrr.
  assert (Hprod : atr_multiple_stop cfg * r_atr row == 0).
  { destruct Hzero as [H|H]; rewrite H; ring. }
  assert (E1 : r_dynamic_stop_loss row == r_close row).
  { rewrite Hsl. lra. }
  assert (E2 : r_take_profit_price row == r_close row).
  { rewrite Htp. unfold take_profit_multiple.
    assert (2 * atr_multiple_stop cfg * r_atr row
            == 2 * (atr_multiple_stop cfg * r_atr row)) by ring.
    lra. }
  assert (Hnan : r_risk_reward_ratio row = NaN).
  { rewrite Hrr. unfold fdiv.
    assert (Z1 : is_zero (r_close row - r_dynamic_stop_loss row) = true)
      by (apply is_zero_true; lra).
    assert (Z2 : is_zero (r_take_profit_price row - r_close row) = true)
      by (apply is_zero_true; lra).
    rewrite Z1, Z2. reflexivity. }
  split; [exact E1|]. split; [exact E2|]. split; [exact Hnan|].
  rewrite (generate_signals_nth cfg df i Hi) in Hr. injection Hr as <-.
  unfold signal_at. fold row.
  destruct (i <? min_lookback cfg)%nat; [discriminate|].
  unfold decide.
  assert (Hbuy : buy_condition cfg row = false).
  { unfold buy_condition, risk_reward_ok. rewrite Hnan.
    rewrite andb_false_r. reflexivity. }
  rewrite Hbuy.
  destruct (sell_condition row); [discriminate|].
  destruct (add_condition cfg row); discriminate.
Qed.

(** ** The statistics of the signal frame *)

Lemma count_actions_total (recs : list SignalRecord) :
  (count_signal BUY recs + count_signal SELL recs + count_signal ADD recs
   + count_signal HOLD recs)%nat = length recs.
Proof.
  unfold count_signal. induction recs as [|r rest IH]; simpl; [reflexivity|].
  destruct (signal r); simpl; lia.
Qed.

Lemma count_risk_total (recs : list SignalRecord) :
  (count_risk LOW recs + count_risk MEDIUM recs + count_risk HIGH recs)%nat
  = length recs.
Proof.
  unfold count_risk. induction recs as [|r rest IH]; simpl; [reflexivity|].
  destruct (risk_level r); simpl; lia.
Qed.

Lemma signals_of_frame_length (df : list Bar) (recs : list SignalRecord) :
  length df = length recs ->
  length (signals_of_frame df recs) = total_signals recs.
Proof.
  unfold signals_of_frame, total_signals, count_signal.
  revert recs. induction df as [|b df' IH]; intros recs Hlen.
  - destruct recs; [reflexivity | discriminate].
  - destruct recs as [|r recs']; [discriminate|].
    simpl in Hlen. injection Hlen as Hlen.
    cbn [combine flat_map fst snd filter]. rewrite length_app, (IH recs' Hlen).
    unfold signal_of_row. destruct (signal r); simpl; lia.
Qed.

Lemma risk_only_on_buy (cfg : Config) (row : Row) :
  risk_level (decide cfg row) <> LOW -> signal (decide cfg row) = BUY.
Proof.
  unfold decide.
  destruct (buy_condition cfg row); [reflexivity|].
  destruct (sell_condition row); [intro H; exfalso; apply H; reflexivity|].
  destruct (add_condition cfg row); intro H; exfalso; apply H; reflexivity.
Qed.

(** X21.  The counts printed by the visualizer.  Over the signal frame of
    any input: the BUY, SELL, ADD and HOLD days add up to the trading days
    and so do the LOW, MEDIUM and HIGH risk days; [total_signals]
    (BUY + SELL + ADD) is the number of entries the backtest feeds to the
    ledger; and since the risk level is assessed on BUY rows only, the
    MEDIUM and HIGH days together never outnumber the BUY signals - every
    SELL, ADD or HOLD day counts as LOW risk. *)
Theorem signal_frame_statistics (cfg : Config) (df : list Bar) :
  let recs := generate_signals cfg df in
  (count_signal BUY recs + count_signal SELL recs + count_signal ADD recs
   + count_signal HOLD recs)%nat = length df
  /\ (count_risk LOW recs + count_risk MEDIUM recs + count_risk HIGH recs)%nat
     = length df
  /\ total_signals recs = length (signals_of_frame df recs)
  /\ (count_risk MEDIUM recs + count_risk HIGH recs <= count_signal BUY recs)%nat.
Proof.
  cbv zeta.
  pose proof (generate_signals_length cfg df) as Hlen.
  split; [rewrite count_actions_total; exact Hlen|].
  split.
  { rewrite count_risk_total. exact Hlen. }
  split; [symmetry; apply signals_of_frame_length; symmetry; exact Hlen|].
  assert (Hrisk : Forall (fun r => risk_level r <> LOW -> signal r = BUY)
                         (generate_signals cfg df)).
  { unfold generate_signals. rewrite Forall_forall. intros r Hin.
    apply in_map_iff in Hin. destruct Hin as (i & <- & _).
    unfold signal_at. destruct (i <? min_lookback cfg)%nat.
    - intro H. exfalso. apply H. reflexivity.
    - apply risk_only_on_buy. }
  unfold count_risk, count_signal. clear Hlen.
  induction Hrisk as [|r rest Hr Hrest IH]; simpl; [lia|].
  destruct (risk_level r) eqn:Ek; simpl.
  - destruct (action_eqb (signal r) BUY); simpl; lia.
  - rewrite Hr by discriminate. simpl. lia.
  - rewrite Hr by discriminate. simpl. lia.
Qed.

(** ** The signal list of a dated frame *)

Lemma non_hold_dates_sublist (df : list Bar) (recs : list SignalRecord) :
  forall P : Z -> Prop,
    Forall P (map date df) -> Forall P (non_hold_dates df recs).
Proof.
  intros P H. unfold non_hold_dates. rewrite Forall_forall in *.
  intros d Hd. apply in_map_iff in Hd. destruct Hd as ([b r] & <- & Hin).
  apply filter_In in Hin. destruct Hin as [Hin _].
  apply in_combine_l in Hin. apply H. apply in_map. exact Hin.
Qed.

Lemma non_hold_dates_sorted (df : list Bar) :
  StronglySorted Z.lt (map date df) ->
  forall recs, StronglySorted Z.lt (non_hold_dates df recs).
Proof.
  induction df as [|b df' IH]; intros Hs recs.
  - constructor.
  - destruct recs as [|r recs']; [constructor|].
    simpl in Hs. inversion Hs as [|? ? Hrest Hall]; subst.
    unfold non_hold_dates. cbn [combine filter fst snd].
    destruct (negb (is_hold (signal r))).
    + cbn [map fst]. constructor; [apply IH; exact Hrest|].
      apply non_hold_dates_sublist. exact Hall.
    + apply IH. exact Hrest.
Qed.

(** X22.  The signal list keeps the order of the frame.  For a frame with
    strictly increasing dates, the list that [backtest_strategy] feeds to
    the ledger has strictly increasing dates too (so it is in date order),
    never contains a HOLD, and every entry carries the close of a bar of the
    frame as its price and the strength 1.0. *)
Theorem signal_list_keeps_frame_order (cfg : Config) (df : list Bar) :
  StronglySorted Z.lt (map date df) ->
  let signals := signals_of_frame df (generate_signals cfg df) in
  strictly_dated signals
  /\ in_date_order signals
  /\ Forall (fun s => sg_action s <> HOLD /\ sg_strength s = 1
                      /\ exists b, In b df /\ sg_date s = date b
                                   /\ sg_price s = close b) signals.
Proof.
  intros Hs signals.
  assert (Hstrict : strictly_dated signals).
  { unfold strictly_dated, signals. rewrite signals_of_frame_dates.
    apply non_hold_dates_sorted. exact Hs. }
  split; [exact Hstrict|]. split.
  - unfold in_date_order. apply StronglySorted_Sorted.
    unfold strictly_dated in Hstrict.
    induction Hstrict as [|d rest Hrest IH Hall]; constructor; [exact IH|].
    rewrite Forall_forall in Hall |- *. intros x Hx. specialize (Hall x Hx). lia.
  - unfold signals, signals_of_frame. rewrite Forall_forall. intros s Hin.
    apply in_flat_map in Hin. destruct Hin as ([b r] & Hbr & Hs').
    apply in_combine_l in Hbr. unfold signal_of_row in Hs'. cbn [fst snd] in Hs'.
    destruct (signal r) eqn:Ea; simpl in Hs';
      try contradiction;
      destruct Hs' as [<-|[]]; cbn;
      (split; [discriminate|]; split; [reflexivity|];
       exists b; repeat split; exact Hbr).
Qed.

(** ** The ATR series *)




(** ** The record of a BUY day *)

(** X25.  The risk level of a BUY record depends on two numbers only.  A
    BUY row is in the normal volatility regime, which contributes 1 to the
    score, so the record is HIGH exactly when trend_strength < 0.01 and the
    stop distance is below 5% of the price, and LOW exactly when one of the
    two factors contributes 0 and the other at most 1. *)
Theorem buy_risk_level (cfg : Config) (df : list Bar) (i : nat) (r : SignalRecord) :
  nth_error (generate_signals cfg df) i = Some r ->
  signal r = BUY ->
  let row := iloc (indicators cfg df) i in
  let weak_trend := flt (r_trend_strength row) (Fin (1 # 100)) in
  let strong_trend := fgt (r_trend_strength row) (Fin (5 # 100)) in
  let tight_stop := flt (r_price_vs_stop_distance row) (Fin (5 # 100)) in
  let wide_stop := fgt (r_price_vs_stop_distance row) (Fin (15 # 100)) in
  (risk_level r = HIGH <-> weak_trend && tight_stop = true)
  /\ (risk_level r = LOW <->
      (negb weak_trend && strong_trend && negb tight_stop)
      || (negb tight_stop && wide_stop && negb weak_trend) = true).
Proof.
  intros Hr Hbuy row.
  assert (Hi : (i < length df)%nat).
  { rewrite <- (generate_signals_length cfg df). apply nth_error_Some. congruence. }
  assert (Hreg : r_volatility_regime row = vol_normal).
  { rewrite (generate_signals_nth cfg df i Hi) in Hr. injection Hr as Hr.
    rewrite <- Hr in Hbuy. unfold signal_at in Hbuy. fold row in Hbuy.
    destruct (i <? min_lookback cfg)%nat; [discriminate|].
    unfold decide in Hbuy.
    destruct (buy_condition cfg row) eqn:Hb.
    - unfold buy_condition in Hb.
      apply andb_true_iff in Hb. destruct Hb as [Hb _].
      apply andb_true_iff in Hb. destruct Hb as [_ Hvol].
      unfold vol_condition in Hvol. apply andb_true_iff in Hvol.
      destruct Hvol as [H1 H2].
      unfold row. rewrite row_regime. fold row. unfold regime_of, fgt.
      rewrite (fle_not_flt _ _ H1), (fle_not_flt _ _ H2). reflexivity.
    - destruct (sell_condition row); [discriminate|].
      destruct (add_condition cfg row); discriminate. }
  assert (Hrl : risk_level r = _assess_risk_level row).
  { rewrite (generate_signals_nth cfg df i Hi) in Hr. injection Hr as Hr.
    rewrite <- Hr in Hbuy |- *. unfold signal_at in *. fold row in Hbuy |- *.
    destruct (i <? min_lookback cfg)%nat; [discriminate|].
    unfold decide in *.
    destruct (buy_condition cfg row); [reflexivity|].
    destruct (sell_condition row); [discriminate|].
    destruct (add_condition cfg row); discriminate. }
  rewrite Hrl. unfold _assess_risk_level. rewrite Hreg. cbv zeta.
  destruct (flt (r_trend_strength row) (Fin (1 # 100)));
    destruct (fgt (r_trend_strength row) (Fin (5 # 100)));
    destruct (flt (r_price_vs_stop_distance row) (Fin (5 # 100)));
    destruct (fgt (r_price_vs_stop_distance row) (Fin (15 # 100)));
    simpl; split; split; intro; (discriminate || reflexivity).
Qed.

(* ================================================================== *)
(** * The further statements on the sample inputs *)
(* ================================================================== *)

Import Samples.

(** X3 on [two_lot_ledger]: a SELL at 15.00 on day 3. *)
Lemma sell_closes_every_lot_witness :
  exists e' new,
    step two_lot_ledger (mkSignal 3 SELL 15 reason_trend_reversal 1) = Some e'
    /\ positions e' = []
    /\ cash e' == cash two_lot_ledger
                  + open_lots_value (positions two_lot_ledger) 15
    /\ trades e' = trades two_lot_ledger ++ new
    /\ map t_shares new
       = map (fun kv => pos_shares (snd kv)) (positions two_lot_ledger)
    /\ map t_profit new
       = map (fun kv => Some (closing_profit
                                (mkSignal 3 SELL 15 reason_trend_reversal 1) kv))
             (positions two_lot_ledger)
    /\ Forall (fun t => t_action t = SELL /\ t_date t = 3%Z /\ t_price t = 15) new
    /\ exists before snap,
         portfolio_value e' = before ++ [snap]
         /\ pv_positions snap = 0%nat /\ pv_value snap = cash e'.
Proof.
  apply (sell_closes_every_lot two_lot_ledger
           (mkSignal 3 SELL 15 reason_trend_reversal 1)).
  - reflexivity.
  - unfold lots_upto. simpl. repeat (constructor; [simpl; lia|]). constructor.
Defined.

(** X4 on [two_lot_ledger]: a BUY dated day 2, which already keys a lot. *)
Lemma buy_on_open_date_replaces_lot_witness :
  let e := two_lot_ledger in
  let s := mkSignal 2 BUY 20 reason_buy 1 in
  let lot := mkPosition (buy_shares e s) (sg_price s) (sg_date s) in
  exists e',
    step e s = Some e'
    /\ cash e' == cash e - inject_Z (buy_shares e s) * sg_price s
    /\ length (trades e') = S (length (trades e))
    /\ dict_get (sg_date s) (positions e') = Some lot
    /\ (has_key (sg_date s) (positions e) ->
        length (positions e') = length (positions e))
    /\ (~ has_key (sg_date s) (positions e) ->
        positions e' = positions e ++ [(sg_date s, lot)]).
Proof.
  apply (buy_on_open_date_replaces_lot two_lot_ledger (mkSignal 2 BUY 20 reason_buy 1)).
  - reflexivity.
  - vm_compute. reflexivity.
  - intro H. vm_compute in H. discriminate.
  - vm_compute. reflexivity.
Defined.

(** X5 on the run over [year_signals]: 14 shares bought and sold. *)
Lemma ledger_share_conservation_witness :
  shares_of (buy_list (trades year_final))
  = (shares_of (sell_list (trades year_final)) + shares_held (positions year_final))%Z.
Proof.
  apply (ledger_share_conservation 1000 year_signals year_final).
  - unfold strictly_dated. simpl.
    repeat (constructor; [|repeat (constructor; try lia)]). constructor.
  - vm_compute. reflexivity.
Defined.

(** X6 on the run over [year_signals]. *)
Lemma report_trade_counts_witness :
  total_trades sample_report = (buy_trades sample_report + sell_trades sample_report)%nat
  /\ (length (positions year_final) + sell_trades sample_report
      <= buy_trades sample_report)%nat
  /\ Forall (fun t => t_action t = BUY \/ t_action t = SELL) (trades year_final).
Proof.
  apply (report_trade_counts whole_power 1000 year_signals year_final sample_report).
  - vm_compute. reflexivity.
  - vm_compute. reflexivity.
Defined.

(** X7 on the run over [year_signals]. *)
Lemma win_rate_range_witness :
  0 <= win_rate sample_report /\ win_rate sample_report <= 100
  /\ ((0 < sell_trades sample_report)%nat ->
      (win_rate sample_report == 100 <->
       count_winning_sells (trades year_final) = sell_trades sample_report))
  /\ (count_winning_sells (trades year_final) = 0%nat ->
      win_rate sample_report == 0).
Proof.
  apply (win_rate_range whole_power year_final sample_report).
  vm_compute. reflexivity.
Defined.



(** X26 on the run over [year_signals]: 365 days between the first and the
    last snapshot, a power of 1.03 and an annual return of 3 percent; and on
    the same ledger when the power overflows. *)
Lemma annual_return_needs_the_power_witness :
  (exists x,
     whole_power (1030 / 1000) (365 / inject_Z 365) = Some x
     /\ annual_return sample_report = (x - 1) * 100
     /\ x == 103 # 100)
  /\ calculate_performance (fun _ _ => None) year_final = perf_error.
Proof.
  assert (Hpv : exists first others,
             portfolio_value year_final = first :: others
             /\ others <> []
             /\ pv_value (last others first) = 1030
             /\ (pv_date (last others first) - pv_date first)%Z = 365%Z).
  { eexists. eexists. split; [vm_compute; reflexivity|].
    split; [discriminate|]. split; vm_compute; reflexivity. }
  destruct Hpv as (first & others & Hpv & Hne & Hfinal & Hdays).
  assert (Hz : ~ initial_cash year_final == 0)
    by (intro H; vm_compute in H; discriminate).
  split.
  - destruct (annual_return_needs_the_power whole_power year_final first others Hpv Hz)
      as [Hlong _].
    rewrite Hfinal, Hdays in Hlong.
    destruct (Hlong Hne eq_refl) as [_ Hrep].
    destruct (Hrep sample_report) as (x & Hx & Har); [vm_compute; reflexivity|].
    exists x. split; [exact Hx|]. split; [exact Har|].
    vm_compute in Hx. injection Hx as <-. vm_compute. reflexivity.
  - destruct (annual_return_needs_the_power (fun _ _ => None) year_final
                first others Hpv Hz) as [Hlong _].
    rewrite Hdays in Hlong.
    destruct (Hlong Hne eq_refl) as [Hfail _].
    apply Hfail. reflexivity.
Defined.

(** X10 on the first five rows of [sample_bars] with a volatility lookback
    of 5: rows 3 and 4 are past the slow window of 3. *)
Lemma short_frame_gives_nothing_witness :
  Forall (fun r => r = hold_record)
         (generate_signals late_filter_config (firstn 5 sample_bars))
  /\ signals_of_frame (firstn 5 sample_bars)
       (generate_signals late_filter_config (firstn 5 sample_bars)) = []
  /\ exists e,
       backtest_strategy late_filter_config 100000 (firstn 5 sample_bars) = Some e
       /\ cash e = 100000 /\ positions e = [] /\ trades e = []
       /\ portfolio_value e = [].
Proof.
  apply (short_frame_gives_nothing late_filter_config 100000 (firstn 5 sample_bars)).
  - vm_compute. lia.
  - vm_compute. lia.
Defined.

(** X11 on [sample_bars] without cash. *)
Lemma zero_cash_run_fails_in_report_witness :
  exists e,
    backtest_strategy sample_config 0 sample_bars = Some e
    /\ trades e = [] /\ positions e = [] /\ cash e = 0
    /\ calculate_performance whole_power e = perf_error.
Proof.
  apply (zero_cash_run_fails_in_report whole_power sample_config 0 sample_bars).
  - reflexivity.
  - vm_compute. discriminate.
Defined.

(** X12 on the run over [year_signals]. *)
Lemma chart_summary_agrees_with_report_witness :
  exists pct curve,
    plot_combined year_final
    = chart_data (initial_value sample_report) (final_value sample_report) pct curve
    /\ curve = map (fun pv => (pv_value pv / initial_value sample_report - 1) * 100)
                   (portfolio_value year_final)
    /\ pct = (final_value sample_report / initial_value sample_report - 1) * 100
    /\ last curve 0 = pct.
Proof.
  apply (chart_summary_agrees_with_report whole_power year_final sample_report).
  vm_compute. reflexivity.
Defined.

(** X13 on [sample_bars]: row 4. *)
Lemma rolling_columns_window_witness :
  let row := iloc (indicators sample_config sample_bars) 4 in
  let cell (w : nat) (agg : list Q -> fval) (col : list Q) :=
    if (w =? 0)%nat || (5 <? w)%nat then NaN else agg (trailing w 4 col) in
  r_fast_ma row = cell (fast_ma_window sample_config) agg_mean (map close sample_bars)
  /\ r_slow_ma row = cell (slow_ma_window sample_config) agg_mean (map close sample_bars)
  /\ r_donchian_high row
     = cell (entry_breakout_window sample_config) agg_max (map high sample_bars)
  /\ r_donchian_low row
     = cell (exit_break_window sample_config) agg_min (map low sample_bars).
Proof.
  apply (rolling_columns_window sample_config sample_bars 4).
  simpl. lia.
Defined.

(** X14 on [sample_bars]: row 7, the day of the drop. *)
Lemma channel_contains_bar_witness :
  let row := iloc (indicators sample_config sample_bars) 7 in
  let b := nth 7 sample_bars no_bar in
  (r_donchian_low row = NaN \/ exists m, r_donchian_low row = Fin m /\ m <= low b)
  /\ (r_donchian_high row = NaN \/ exists M, r_donchian_high row = Fin M /\ high b <= M)
  /\ (low b <= close b -> break_low row = false)
  /\ (close b <= high b -> fgt (Fin (r_close row)) (r_donchian_high row) = false).
Proof.
  apply (channel_contains_bar sample_config sample_bars 7).
  simpl. lia.
Defined.

Ltac forall_closed tac :=
  repeat (constructor; [tac|]); constructor.

(** X15 on [sample_bars]: row 7, the SELL. *)
Lemma sell_means_trend_reversal_witness :
  let row := iloc (indicators sample_config sample_bars) 7 in
  below_stop row = false /\ break_low row = false /\ above_take_profit row = false
  /\ (signal (sample_record 7) = SELL ->
      signal_reason (sample_record 7) = reason_trend_reversal
      /\ trend_reversal row = true).
Proof.
  apply (sell_means_trend_reversal sample_config sample_bars 7 (sample_record 7)).
  - simpl. lia.
  - q_closed.
  - forall_closed ltac:(split; q_closed).
  - vm_compute. reflexivity.
Defined.

(** X17 on [sample_bars]: row 4, a BUY. *)
Lemma signal_rows_regime_witness :
  let row := iloc (indicators sample_config sample_bars) 4 in
  (signal (sample_record 4) = BUY -> r_volatility_regime row = vol_normal)
  /\ (vol_min_pct sample_config <= vol_expand_multiple_for_add sample_config ->
      signal (sample_record 4) = ADD -> r_volatility_regime row <> vol_low).
Proof.
  apply (signal_rows_regime sample_config sample_bars 4 (sample_record 4)).
  vm_compute. reflexivity.
Defined.


(** X20 on [flat_bars]: row 4, past the lookback, with an ATR of 0. *)
Lemma no_buy_without_stop_distance_witness :
  let row := iloc (indicators sample_config flat_bars) 4 in
  let r := nth 4 (generate_signals sample_config flat_bars) hold_record in
  r_dynamic_stop_loss row == r_close row
  /\ r_take_profit_price row == r_close row
  /\ r_risk_reward_ratio row = NaN
  /\ signal r <> BUY.
Proof.
  apply (no_buy_without_stop_distance sample_config flat_bars 4
           (nth 4 (generate_signals sample_config flat_bars) hold_record)).
  - vm_compute. reflexivity.
  - left. vm_compute. reflexivity.
Defined.

(** X22 on [sample_bars]. *)
Lemma signal_list_keeps_frame_order_witness :
  let signals := signals_of_frame sample_bars
                   (generate_signals sample_config sample_bars) in
  strictly_dated signals
  /\ in_date_order signals
  /\ Forall (fun s => sg_action s <> HOLD /\ sg_strength s = 1
                      /\ exists b, In b sample_bars /\ sg_date s = date b
                                   /\ sg_price s = close b) signals.
Proof.
  apply (signal_list_keeps_frame_order sample_config sample_bars).
  simpl. repeat (constructor; [|repeat (constructor; try lia)]). constructor.
Defined.

(** X25 on [sample_bars]: row 5. *)
Lemma buy_risk_level_witness :
  let row := iloc (indicators sample_config sample_bars) 5 in
  let weak_trend := flt (r_trend_strength row) (Fin (1 # 100)) in
  let strong_trend := fgt (r_trend_strength row) (Fin (5 # 100)) in
  let tight_stop := flt (r_price_vs_stop_distance row) (Fin (5 # 100)) in
  let wide_stop := fgt (r_price_vs_stop_distance row) (Fin (15 # 100)) in
  (risk_level (sample_record 5) = HIGH <-> weak_trend && tight_stop = true)
  /\ (risk_level (sample_record 5) = LOW <->
      (negb weak_trend && strong_trend && negb tight_stop)
      || (negb tight_stop && wide_stop && negb weak_trend) = true).
Proof.
  apply (buy_risk_level sample_config sample_bars 5 (sample_record 5)).
  - vm_compute. reflexivity.
  - vm_compute. reflexivity.
Defined.
